(** * QTI USB gadget HAL: composition resolution and the apply cycle

    A shallow embedding of [hal/UsbGadget.cpp]: the function-name table, the
    composition VID/PID table, the modem-type classifier, the composition
    resolver [setupFunctions] and the apply cycle [setCurrentUsbFunctions],
    followed by the properties of the design description that concern them.

    The HAL object, configfs and the FFS monitor are one explicit state
    ([Gadget]), threaded through a state monad; everything the code reads
    from outside (system properties, sysfs files, results of the
    libusbgadget helpers) is an oracle ([Env]).  The file has four parts:
    the model of the code, the vocabulary of the properties with a few
    sample worlds, the lemmas, and the properties C1 to C10. *)

From Stdlib Require Import String Ascii List ZArith Lia Bool.
Import ListNotations.

Local Open Scope string_scope.
Local Open Scope Z_scope.

(** ** Enumerations of the HIDL interface and of the file *)

(** [enum mdmType] (UsbGadget.cpp:47). *)
Inductive mdmType : Type :=
  | INTERNAL
  | EXTERNAL
  | INTERNAL_EXTERNAL
  | NONE.

(** The integer value of an enumerator, as C++ converts it in a condition. *)
Definition mdmType_value (m : mdmType) : Z :=
  match m with
  | INTERNAL => 0
  | EXTERNAL => 1
  | INTERNAL_EXTERNAL => 2
  | NONE => 3
  end.

(** [V1_0::Status] of the gadget HIDL interface. *)
Inductive Status : Type :=
  | SUCCESS
  | ERROR
  | FUNCTIONS_APPLIED
  | FUNCTIONS_NOT_APPLIED
  | CONFIGURATION_NOT_SUPPORTED.

Definition Status_eqb (a b : Status) : bool :=
  match a, b with
  | SUCCESS, SUCCESS
  | ERROR, ERROR
  | FUNCTIONS_APPLIED, FUNCTIONS_APPLIED
  | FUNCTIONS_NOT_APPLIED, FUNCTIONS_NOT_APPLIED
  | CONFIGURATION_NOT_SUPPORTED, CONFIGURATION_NOT_SUPPORTED => true
  | _, _ => false
  end.

(** Modelled from the spec: the [GadgetFunction] bitmask is declared in the
    HIDL interface, not in UsbGadget.cpp; the spec names the public
    capability set {None, Adb, Mtp, Ptp, Rndis, Midi, Accessory,
    AudioSource}; each capability is one bit, at the interface's position. *)
Module GadgetFunction.
Definition NONE : Z := 0.
Definition ADB : Z := 1.
Definition ACCESSORY : Z := 2.
Definition MTP : Z := 4.
Definition MIDI : Z := 8.
Definition PTP : Z := 16.
Definition RNDIS : Z := 32.
Definition AUDIO_SOURCE : Z := 64.
End GadgetFunction.

(** ** std::string operations used by the file *)

(** [std::string::npos] for a 64-bit [size_t]. *)
Definition npos : Z := 18446744073709551615.

Definition size_t_of (o : option nat) : Z :=
  match o with
  | Some n => Z.of_nat n
  | None => npos
  end.

(** [size_t] subtraction wraps around. *)
Definition size_t_sub (a b : Z) : Z := (a - b) mod 18446744073709551616.

Fixpoint find_from (sub s : string) (pos : nat) : option nat :=
  if String.prefix sub s then Some pos
  else match s with
       | EmptyString => None
       | String _ s' => find_from sub s' (S pos)
       end.

(** [s.find(sub)]: position of the first occurrence of [sub] in [s]. *)
Definition find (s sub : string) : Z := size_t_of (find_from sub s 0).

Fixpoint find_last_of_from (c : ascii) (s : string) (pos : nat) : option nat :=
  match s with
  | EmptyString => None
  | String d s' =>
      match find_last_of_from c s' (S pos) with
      | Some p => Some p
      | None => if Ascii.eqb d c then Some pos else None
      end
  end.

(** [s.find_last_of(c)]. *)
Definition find_last_of (s : string) (c : ascii) : Z :=
  size_t_of (find_last_of_from c s 0).

Definition str_length (s : string) : Z := Z.of_nat (String.length s).

Definition empty (s : string) : bool := String.eqb s "".

Fixpoint find_first_of_at (c : ascii) (s : string) (start pos : nat)
  : option nat :=
  match s with
  | EmptyString => None
  | String d s' =>
      if (start <=? pos)%nat && Ascii.eqb d c then Some pos
      else find_first_of_at c s' start (S pos)
  end.

(** [s.find_first_of(c, start)], [None] standing for [npos]. *)
Definition find_first_of (s : string) (c : ascii) (start : nat)
  : option nat :=
  find_first_of_at c s start 0.

(** [s.substr(pos, len)]. *)
Definition substr (s : string) (pos len : nat) : string :=
  String.substring pos len s.

(** The pieces of [prop] between commas, an empty piece included (a string
    with n commas has n+1 pieces; the empty string has the one piece "").
    These are the successive values of [funcname] in the tokenizing loop of
    [addFunctionsFromPropString] (lemma [addFunctionsFromPropString_tokens]). *)
Fixpoint tokens (prop : string) : list string :=
  match prop with
  | EmptyString => [EmptyString]
  | String c rest =>
      if Ascii.eqb c ","%char then EmptyString :: tokens rest
      else match tokens rest with
           | t :: ts => String c t :: ts
           | [] => [String c EmptyString]
           end
  end.

(** ** The outside world *)

(** What [addGenericAndroidFunctions] (libusbgadget) did in one call: its
    status, the functions it linked, in order (identifier and configfs node),
    and whether it turned [ffsEnabled] on. *)
Record GenericResult : Type := mkGenericResult {
  g_status : Status;
  g_linked : list (string * string);
  g_ffs : bool
}.

Record Env : Type := mkEnv {
  (** the property store: the value of a property, "" when it is unset *)
  property : string -> string;
  (** [/sys/bus/esoc/devices]: [None] when opendir fails, else the entries in
      readdir order, each with the content of its [esoc_name] file when it
      can be read *)
  esoc_devices : option (list (string * option string));
  (** the content of [/sys/devices/soc0/machine], when it can be read *)
  soc_machine : option string;
  (** whether [linkFunction(node, index)] fails (returns non-zero) *)
  link_fails : string -> Z -> bool;
  (** the status of [setVidPid(vid, pid)] *)
  setVidPid_result : string -> string -> Status;
  (** the status of [resetGadget()] *)
  resetGadget_result : Status;
  (** the outcome of [addGenericAndroidFunctions] for a bitmask *)
  generic_result : Z -> GenericResult;
  (** whether the steps of [addAdb] before and after its link succeed *)
  adb_prepare_ok : bool;
  adb_endpoints_ok : bool;
  (** whether writing the pull-up file succeeds *)
  pullup_write_ok : bool;
  (** whether the monitor pulls the gadget up within a timeout *)
  waitForPullUp_result : Z -> bool;
  (** the controller name the monitor was constructed with *)
  monitor_gadget : string
}.

(** [android::base::GetProperty(key, default)]: the default stands in for an
    unset or empty property. *)
Definition GetProperty (env : Env) (key default : string) : string :=
  if empty (property env key) then default else property env key.

Definition USB_CONTROLLER_PROP := "vendor.usb.controller".
Definition DIAG_FUNC_NAME_PROP := "vendor.usb.diag.func.name".
Definition RNDIS_FUNC_NAME_PROP := "vendor.usb.rndis.func.name".
Definition RMNET_FUNC_NAME_PROP := "vendor.usb.rmnet.func.name".
Definition RMNET_INST_NAME_PROP := "vendor.usb.rmnet.inst.name".
Definition DPL_INST_NAME_PROP := "vendor.usb.dpl.inst.name".
Definition VENDOR_USB_PROP := "vendor.usb.config".
Definition PERSIST_VENDOR_USB_PROP := "persist.vendor.usb.config".
Definition QDSS_INST_NAME_PROP := "vendor.usb.qdss.inst.name".

(** ** The two tables *)

(** [supported_compositions] (UsbGadget.cpp:117-194). *)
Definition supported_compositions : list (string * (string * string)) :=
  [ ("mass_storage", ("0x05C6", "0xF000"));
    ("mass_storage,adb", ("0x05C6", "0x9015"));
    ("diag,adb", ("0x05C6", "0x901D"));
    ("diag", ("0x05C6", "0x900E"));
    ("diag,serial_cdev,rmnet,adb", ("0x05C6", "0x9091"));
    ("diag,serial_cdev,rmnet", ("0x05C6", "0x9092"));
    ("rndis", ("0x05C6", "0xF00E"));
    ("rndis,adb", ("0x05C6", "0x9024"));
    ("rndis,diag", ("0x05C6", "0x902C"));
    ("rndis,diag,adb", ("0x05C6", "0x902D"));
    ("rndis,serial_cdev", ("0x05C6", "0x90B3"));
    ("rndis,serial_cdev,adb", ("0x05C6", "0x90B4"));
    ("rndis,serial_cdev,diag,", ("0x05C6", "0x90B5"));
    ("rndis,serial_cdev,diag,adb", ("0x05C6", "0x90B6"));
    ("mtp,diag", ("0x05C6", "0x901B"));
    ("mtp,diag,adb", ("0x05C6", "0x903A"));
    ("diag,qdss", ("0x05C6", "0x904A"));
    ("diag,qdss,adb", ("0x05C6", "0x9060"));
    ("rndis,diag,qdss", ("0x05C6", "0x9081"));
    ("rndis,diag,qdss,adb", ("0x05C6", "0x9082"));
    ("diag,qdss,rmnet", ("0x05C6", "0x9083"));
    ("diag,qdss,rmnet,adb", ("0x05C6", "0x9084"));
    ("ncm", ("0x05C6", "0xA4A1"));
    ("ncm,adb", ("0x05C6", "0x908C"));
    ("diag,serial_cdev", ("0x05C6", "0x9004"));
    ("diag,serial_cdev,rmnet,dpl", ("0x05C6", "0x90B7"));
    ("diag,serial_cdev,rmnet,dpl,adb", ("0x05C6", "0x90B8"));
    ("rndis,diag,dpl", ("0x05C6", "0x90BF"));
    ("rndis,diag,dpl,adb", ("0x05C6", "0x90C0"));
    ("ccid", ("0x05C6", "0x90CE"));
    ("ccid,adb", ("0x05C6", "0x90CF"));
    ("ccid,diag", ("0x05C6", "0x90D0"));
    ("ccid,diag,adb", ("0x05C6", "0x90D1"));
    ("diag,serial_cdev,rmnet,ccid", ("0x05C6", "0x90D2"));
    ("diag,serial_cdev,rmnet,ccid,adb", ("0x05C6", "0x90D3"));
    ("diag,diag_mdm,qdss,qdss_mdm,serial_cdev,serial_cdev_mdm,rmnet",
      ("0x05C6", "0x90D7"));
    ("diag,diag_mdm,qdss,qdss_mdm,serial_cdev,serial_cdev_mdm,rmnet,adb",
      ("0x05C6", "0x90D8"));
    ("diag,diag_mdm,qdss,qdss_mdm,serial_cdev,serial_cdev_mdm,dpl,rmnet",
      ("0x05C6", "0x90DD"));
    ("diag,diag_mdm,qdss,qdss_mdm,serial_cdev,serial_cdev_mdm,dpl,rmnet,adb",
      ("0x05C6", "0x90DE"));
    ("diag,serial_cdev,rmnet,dpl,qdss", ("0x05C6", "0x90DC"));
    ("diag,serial_cdev,rmnet,dpl,qdss,adb", ("0x05C6", "0x90DB"));
    ("diag,uac2,adb", ("0x05C6", "0x90CA"));
    ("diag,uac2", ("0x05C6", "0x901C"));
    ("diag,uvc,adb", ("0x05C6", "0x90CB"));
    ("diag,uvc", ("0x05C6", "0x90DF"));
    ("diag,uac2,uvc,adb", ("0x05C6", "0x90CC"));
    ("diag,uac2,uvc", ("0x05C6", "0x90E0"));
    ("diag,diag_mdm,qdss,qdss_mdm,serial_cdev,dpl,rmnet",
      ("0x05C6", "0x90E4"));
    ("diag,diag_mdm,qdss,qdss_mdm,serial_cdev,dpl,rmnet,adb",
      ("0x05C6", "0x90E5"));
    ("rndis,diag,diag_mdm,qdss,qdss_mdm,serial_cdev,dpl",
      ("0x05C6", "0x90E6"));
    ("rndis,diag,diag_mdm,qdss,qdss_mdm,serial_cdev,dpl,adb",
      ("0x05C6", "0x90E7"));
    ("rndis,diag,qdss,serial_cdev,dpl", ("0x05C6", "0x90E8"));
    ("rndis,diag,qdss,serial_cdev,dpl,adb", ("0x05C6", "0x90E9"));
    ("diag,diag_mdm,adb", ("0x05C6", "0x90D9"));
    ("diag,diag_mdm,diag_mdm2,qdss,qdss_mdm,serial_cdev,dpl,rmnet",
      ("0x05C6", "0x90F6"));
    ("diag,diag_mdm,diag_mdm2,qdss,qdss_mdm,serial_cdev,dpl,rmnet,adb",
      ("0x05C6", "0x90F7"));
    ("rndis,diag,diag_mdm,diag_mdm2,qdss,qdss_mdm,serial_cdev,dpl",
      ("0x05C6", "0x90F8"));
    ("rndis,diag,diag_mdm,diag_mdm2,qdss,qdss_mdm,serial_cdev,dpl,adb",
      ("0x05C6", "0x90F9"));
    ("diag,diag_mdm,qdss_mdm,dpl,adb", ("0x05C6", "0x90FF"));
    ("diag,qdss,dpl,adb", ("0x05C6", "0x9104"));
    ("diag,dpl", ("0x05C6", "0x9105"));
    ("diag,diag_cnss,serial_cdev,rmnet,dpl,qdss,adb", ("0x05C6", "0x9110"));
    ("diag,diag_cnss,serial_cdev,rmnet,dpl,qdss", ("0x05C6", "0x9111")) ].

(** Lookup in a [std::map<std::string, V>] given by its initializer list. *)
Fixpoint map_find {V : Type} (m : list (string * V)) (k : string) : option V :=
  match m with
  | [] => None
  | (k', v) :: rest => if String.eqb k' k then Some v else map_find rest k
  end.

(** [m.count(k)] as a truth value. *)
Definition map_count {V : Type} (m : list (string * V)) (k : string) : bool :=
  match map_find m k with
  | Some _ => true
  | None => false
  end.

(** [rndisFuncname] (UsbGadget.cpp:196-204). *)
Definition rndisFuncname (env : Env) : string :=
  let rndisFunc := GetProperty env RNDIS_FUNC_NAME_PROP "" in
  if empty rndisFunc then "rndis" else rndisFunc ++ ".rndis".

(** [supported_funcs] (UsbGadget.cpp:206-226): each entry resolves its
    identifier to a configfs function node, some through properties. *)
Definition supported_funcs : list (string * (Env -> string)) :=
  [ ("adb", fun _ => "ffs.adb");
    ("ccid", fun _ => "ccid.ccid");
    ("diag", fun env => GetProperty env DIAG_FUNC_NAME_PROP "diag" ++ ".diag");
    ("diag_cnss",
      fun env => GetProperty env DIAG_FUNC_NAME_PROP "diag" ++ ".diag_mdm2");
    ("diag_mdm2",
      fun env => GetProperty env DIAG_FUNC_NAME_PROP "diag" ++ ".diag_mdm2");
    ("diag_mdm",
      fun env => GetProperty env DIAG_FUNC_NAME_PROP "diag" ++ ".diag_mdm");
    ("dpl",
      fun env => GetProperty env RMNET_FUNC_NAME_PROP "gsi" ++ "."
                 ++ GetProperty env DPL_INST_NAME_PROP "dpl");
    ("mass_storage", fun _ => "mass_storage.0");
    ("mtp", fun _ => "ffs.mtp");
    ("ncm", fun _ => "ncm.0");
    ("ptp", fun _ => "ffs.ptp");
    ("qdss", fun env => "qdss." ++ GetProperty env QDSS_INST_NAME_PROP "qdss");
    ("qdss_mdm", fun _ => "qdss.qdss_mdm");
    ("rmnet",
      fun env => GetProperty env RMNET_FUNC_NAME_PROP "gsi" ++ "."
                 ++ GetProperty env RMNET_INST_NAME_PROP "rmnet");
    ("rndis", rndisFuncname);
    ("serial_cdev", fun _ => "cser.dun.0");
    ("serial_cdev_mdm", fun _ => "cser.dun.2");
    ("uac2", fun _ => "uac2.0");
    ("uvc", fun _ => "uvc.0") ].

(** ** The state: the HAL object, configfs and the monitor *)

(** One symlink [config/f<index> -> functions/<node>] made by
    [linkFunction].  [l_func] is a ghost field: the identifier on whose
    behalf the link was made (the [funcname] that the code logs with
    "Adding %s", "rndis" for the RNDIS-only link, "adb" for [addAdb]). *)
Record Linked : Type := mkLinked {
  l_func : string;
  l_node : string;
  l_index : Z
}.

(** The two messages of [ALOGE] that name a resolution error. *)
Inductive LogMsg : Type :=
  | FunctionUnsupported (funcname : string)
  | CompositionUnsupported (prop : string).

Record Gadget : Type := mkGadget {
  mCurrentUsbFunctions : Z;
  mCurrentUsbFunctionsApplied : bool;
  (** the FFS monitor: is its thread running, and is the functions-applied
      callback registered with it *)
  monitorRunning : bool;
  monitorCallback : bool;
  (** configfs: the function symlinks of the configuration, in link order *)
  links : list Linked;
  (** the idVendor / idProduct files, once written *)
  vidpid : option (string * string);
  (** the content of the pull-up (UDC) file *)
  pullup : string;
  (** the calls of [setCurrentUsbFunctionsCb] made so far, oldest first *)
  delivered : list (Z * Status);
  (** the resolution errors logged so far, oldest first *)
  errlog : list LogMsg
}.

Definition with_functions (f : Z) (b : bool) (g : Gadget) : Gadget :=
  mkGadget f b (monitorRunning g) (monitorCallback g) (links g) (vidpid g)
           (pullup g) (delivered g) (errlog g).

Definition with_applied (b : bool) (g : Gadget) : Gadget :=
  with_functions (mCurrentUsbFunctions g) b g.

Definition with_monitor (r : bool) (n : bool) (g : Gadget) : Gadget :=
  mkGadget (mCurrentUsbFunctions g) (mCurrentUsbFunctionsApplied g) r n
           (links g) (vidpid g) (pullup g) (delivered g) (errlog g).

Definition with_links (l : list Linked) (g : Gadget) : Gadget :=
  mkGadget (mCurrentUsbFunctions g) (mCurrentUsbFunctionsApplied g)
           (monitorRunning g) (monitorCallback g) l (vidpid g) (pullup g)
           (delivered g) (errlog g).

Definition with_vidpid (v : option (string * string)) (g : Gadget) : Gadget :=
  mkGadget (mCurrentUsbFunctions g) (mCurrentUsbFunctionsApplied g)
           (monitorRunning g) (monitorCallback g) (links g) v (pullup g)
           (delivered g) (errlog g).

Definition with_pullup (p : string) (g : Gadget) : Gadget :=
  mkGadget (mCurrentUsbFunctions g) (mCurrentUsbFunctionsApplied g)
           (monitorRunning g) (monitorCallback g) (links g) (vidpid g) p
           (delivered g) (errlog g).

Definition with_delivered (d : list (Z * Status)) (g : Gadget) : Gadget :=
  mkGadget (mCurrentUsbFunctions g) (mCurrentUsbFunctionsApplied g)
           (monitorRunning g) (monitorCallback g) (links g) (vidpid g)
           (pullup g) d (errlog g).

Definition with_errlog (e : list LogMsg) (g : Gadget) : Gadget :=
  mkGadget (mCurrentUsbFunctions g) (mCurrentUsbFunctionsApplied g)
           (monitorRunning g) (monitorCallback g) (links g) (vidpid g)
           (pullup g) (delivered g) e.

(** ** A state monad for the code that mutates the gadget *)

Definition M (A : Type) : Type := Gadget -> A * Gadget.

Definition ret {A : Type} (a : A) : M A := fun g => (a, g).

Definition bind {A B : Type} (m : M A) (k : A -> M B) : M B :=
  fun g => let (a, g') := m g in k a g'.

Definition modify (f : Gadget -> Gadget) : M unit := fun g => (tt, f g).

Declare Scope gadget_scope.
Delimit Scope gadget_scope with gadget.
Notation "x <- m ;; k" := (bind m (fun x => k))
  (at level 61, m at next level, right associativity) : gadget_scope.
Notation "' pat <- m ;; k" :=
  (bind m (fun x => match x with pat => k end))
  (at level 61, pat pattern, m at next level, right associativity)
  : gadget_scope.
Notation "m ;;; k" := (bind m (fun _ => k))
  (at level 61, right associativity) : gadget_scope.
Local Open Scope gadget_scope.

Definition ALOGE (m : LogMsg) : M unit :=
  modify (fun g => with_errlog (errlog g ++ [m])%list g).

(** [callback->setCurrentUsbFunctionsCb(functions, status)]. *)
Definition setCurrentUsbFunctionsCb (functions : Z) (s : Status) : M unit :=
  modify (fun g => with_delivered (delivered g ++ [(functions, s)])%list g).

(** ** The helpers of libusbgadget and of the monitor *)

Section Operations.

Variable env : Env.

(** Modelled from the spec: [linkFunction] is declared in UsbGadgetCommon.h;
    it "commits one function node at a fixed ordinal position" and reports
    failure, in which case nothing is linked.  [func] is the ghost
    identifier recorded in [l_func]. *)
Definition linkFunction (func node : string) (index : Z) : M Z :=
  fun g =>
    if link_fails env node index then (-1, g)
    else (0, with_links (links g ++ [mkLinked func node index])%list g).

(** Modelled from the spec: [unlinkFunctions], declared in
    UsbGadgetCommon.h, "unlinks everything". *)
Definition unlinkFunctions : M unit := modify (with_links []).

(** Modelled from the spec: [setVidPid], declared in UsbGadgetCommon.h,
    "commits the two-identifier pair" when it succeeds. *)
Definition setVidPid (vid pid : string) : M Status :=
  fun g =>
    match setVidPid_result env vid pid with
    | SUCCESS => (SUCCESS, with_vidpid (Some (vid, pid)) g)
    | s => (s, g)
    end.

(** Modelled from the spec: [resetGadget], declared in UsbGadgetCommon.h;
    teardown is to "unlink all currently linked functions, clear VID/PID,
    clear the pull-up file".  A failed reset leaves the state as it found
    it. *)
Definition resetGadget : M Status :=
  fun g =>
    match resetGadget_result env with
    | SUCCESS =>
        (SUCCESS, with_pullup "none" (with_vidpid None (with_links [] g)))
    | s => (s, g)
    end.

(** [WriteStringToFile(content, PULLUP_PATH)]. *)
Definition write_pullup (content : string) : M bool :=
  fun g =>
    if pullup_write_ok env then (true, with_pullup content g) else (false, g).

(** Modelled from the spec: [addGenericAndroidFunctions], declared in
    UsbGadgetCommon.h, links the generic Android functions of the bitmask
    one after the other from index [i], advancing [i], and may turn
    [ffsEnabled] on. *)
Fixpoint link_generic (l : list (string * string)) (i : Z)
  (acc : list Linked) : list Linked :=
  match l with
  | [] => acc
  | (func, node) :: rest =>
      link_generic rest (i + 1) (acc ++ [mkLinked func node i])%list
  end.

Definition addGenericAndroidFunctions (functions : Z) (ffsEnabled : bool)
  (i : Z) : M (Status * bool * Z) :=
  fun g =>
    let r := generic_result env functions in
    ((g_status r, ffsEnabled || g_ffs r, i + Z.of_nat (length (g_linked r))),
     with_links (link_generic (g_linked r) i (links g)) g).

(** Modelled from the spec: [addAdb], declared in UsbGadgetCommon.h, is the
    "dedicated ADB function": it prepares the monitor, links the node
    "ffs.adb" at index [i] (post-incremented) and adds the endpoints to the
    monitor; each of the three steps can fail. *)
Definition addAdb (i : Z) : M (Status * Z) :=
  if negb (adb_prepare_ok env) then ret (ERROR, i)
  else
    r <- linkFunction "adb" "ffs.adb" i ;;
    if negb (r =? 0) then ret (ERROR, i + 1)
    else if negb (adb_endpoints_ok env) then ret (ERROR, i + 1)
    else ret (SUCCESS, i + 1).

(** Modelled from the spec: the monitor's [reset()] stops its thread and
    drops the registered callback. *)
Definition monitor_reset : M unit := modify (with_monitor false false).

Definition registerFunctionsAppliedCallback : M unit :=
  modify (fun g => with_monitor (monitorRunning g) true g).

Definition startMonitor : M unit :=
  modify (fun g => with_monitor true (monitorCallback g) g).

(** The lambda registered at UsbGadget.cpp:476-479. *)
Definition functionsAppliedCallback (functionsApplied : bool) : M unit :=
  modify (with_applied functionsApplied).

(** Modelled from the spec: the monitor, once the descriptors are written,
    writes the pull-up file, invokes the registered callback with [true]
    and wakes the waiter. *)
Definition monitor_pullup : M unit :=
  fun g =>
    if monitorRunning g then
      (if monitorCallback g then functionsAppliedCallback true else ret tt)
        (with_pullup (monitor_gadget env) g)
    else (tt, g).

(** Modelled from the spec: [waitForPullUp(timeout)] blocks until the
    monitor has pulled the gadget up or the timeout expires, and tells
    which. *)
Definition waitForPullUp (timeout : Z) : M bool :=
  if waitForPullUp_result env timeout then monitor_pullup ;;; ret true
  else ret false.

(** ** UsbGadget.cpp *)

(** [UsbGadget::getCurrentUsbFunctions] (UsbGadget.cpp:84-95): the pair
    handed to [getCurrentUsbFunctionsCb]. *)
Definition getCurrentUsbFunctions (g : Gadget) : Z * Status :=
  (mCurrentUsbFunctions g,
   if mCurrentUsbFunctionsApplied g then FUNCTIONS_APPLIED
   else FUNCTIONS_NOT_APPLIED).

(** [UsbGadget::reset] (UsbGadget.cpp:97-104). *)
Definition reset : M Status :=
  ok <- write_pullup "none" ;;
  if negb ok then ret ERROR else ret SUCCESS.

(** [UsbGadget::tearDownGadget] (UsbGadget.cpp:106-115). *)
Definition tearDownGadget : M Status :=
  s <- resetGadget ;;
  if negb (Status_eqb s SUCCESS) then ret ERROR
  else
    (fun g => if monitorRunning g then monitor_reset g else (tt, g)) ;;;
    ret SUCCESS.

(** The loop of [addFunctionsFromPropString] (UsbGadget.cpp:230-252), from
    the position [start] ([None] for [npos], which ends it); returns the
    return code and the final value of [i].  Each iteration moves [start]
    past a comma, so the length of [prop] plus one bounds their number:
    that is the [fuel]. *)
Fixpoint addFunctions_loop (fuel : nat) (prop : string) (start : option nat)
  (i : Z) (adb : bool) : M (Z * Z) :=
  match fuel, start with
  | _, None => ret (0, i)
  | O, Some _ => ret (0, i)
  | S fuel', Some start =>
      let end_ := find_first_of prop ","%char start in
      let funcname :=
        match end_ with
        | None => substr prop start (String.length prop - start)
        | Some e => substr prop start (e - start)
        end in
      let start' :=
        match end_ with
        | None => None
        | Some e => Some (S e)
        end in
      if negb adb && String.eqb funcname "adb" then
        addFunctions_loop fuel' prop start' i adb
      else
        match map_find supported_funcs funcname with
        | None => ALOGE (FunctionUnsupported funcname) ;;; ret (-1, i)
        | Some resolve =>
            r <- linkFunction funcname (resolve env) i ;;
            if negb (r =? 0) then ret (-1, i + 1)
            else addFunctions_loop fuel' prop start' (i + 1) adb
        end
  end.

(** [addFunctionsFromPropString] (UsbGadget.cpp:228-255). *)
Definition addFunctionsFromPropString (prop : string) (i : Z) (adb : bool)
  : M (Z * Z) :=
  addFunctions_loop (S (String.length prop)) prop (Some 0%nat) i adb.

(** [lookupAndSetVidPid] (UsbGadget.cpp:257-271). *)
Definition lookupAndSetVidPid (prop : string) : M Z :=
  match map_find supported_compositions prop with
  | None => ALOGE (CompositionUnsupported prop) ;;; ret (-1)
  | Some (vid, pid) =>
      s <- setVidPid vid pid ;;
      if negb (Status_eqb s SUCCESS) then ret (-1) else ret 0
  end.

(** [validateAndSetVidPid] (UsbGadget.cpp:273-327). *)
Definition validateAndSetVidPid (functions : Z) : M Status :=
  let ADB := GadgetFunction.ADB in
  let MTP := GadgetFunction.MTP in
  let RNDIS := GadgetFunction.RNDIS in
  let PTP := GadgetFunction.PTP in
  let MIDI := GadgetFunction.MIDI in
  let ACCESSORY := GadgetFunction.ACCESSORY in
  let AUDIO_SOURCE := GadgetFunction.AUDIO_SOURCE in
  if functions =? ADB then setVidPid "0x18d1" "0x4ee7"
  else if functions =? MTP then setVidPid "0x18d1" "0x4ee1"
  else if functions =? Z.lor ADB MTP then setVidPid "0x18d1" "0x4ee2"
  else if functions =? RNDIS then setVidPid "0x18d1" "0x4ee3"
  else if functions =? Z.lor ADB RNDIS then setVidPid "0x18d1" "0x4ee4"
  else if functions =? PTP then setVidPid "0x18d1" "0x4ee5"
  else if functions =? Z.lor ADB PTP then setVidPid "0x18d1" "0x4ee6"
  else if functions =? MIDI then setVidPid "0x18d1" "0x4ee8"
  else if functions =? Z.lor ADB MIDI then setVidPid "0x18d1" "0x4ee9"
  else if functions =? ACCESSORY then setVidPid "0x18d1" "0x2d00"
  else if functions =? Z.lor ADB ACCESSORY then setVidPid "0x18d1" "0x2d01"
  else if functions =? AUDIO_SOURCE then setVidPid "0x18d1" "0x2d02"
  else if functions =? Z.lor ADB AUDIO_SOURCE then setVidPid "0x18d1" "0x2d03"
  else if functions =? Z.lor ACCESSORY AUDIO_SOURCE then
    setVidPid "0x18d1" "0x2d04"
  else if functions =? Z.lor (Z.lor ADB ACCESSORY) AUDIO_SOURCE then
    setVidPid "0x18d1" "0x2d05"
  else ret CONFIGURATION_NOT_SUPPORTED.

(** The readdir loop of [getModemType] (UsbGadget.cpp:340-351): the value
    of [mtype] after it. *)
Fixpoint scan_esoc (entries : list (string * option string)) : mdmType :=
  match entries with
  | [] => INTERNAL
  | (d_name, content) :: rest =>
      if String.prefix "." d_name then scan_esoc rest
      else
        match content with
        | Some esoc_name =>
            if negb (find esoc_name "MDM" =? npos)
               || negb (find esoc_name "SDX" =? npos)
            then EXTERNAL
            else scan_esoc rest
        | None => scan_esoc rest
        end
  end.

(** [getModemType] (UsbGadget.cpp:329-366). *)
Definition getModemType : mdmType :=
  match esoc_devices env with
  | None => INTERNAL
  | Some entries =>
      let mtype := scan_esoc entries in
      match soc_machine env with
      | Some soc_machine =>
          let pos_sda := find soc_machine "SDA" in
          let pos_p := find_last_of soc_machine "P"%char in
          let length := str_length soc_machine in
          if negb (pos_sda =? npos) || (pos_p =? size_t_sub length 1) then
            (if negb (mdmType_value mtype =? 0) then mtype else NONE)
          else if negb (mdmType_value mtype =? 0) then INTERNAL_EXTERNAL
          else mtype
      | None => mtype
      end
  end.

(** The composition chosen for RNDIS+ADB (UsbGadget.cpp:389-400). *)
Definition rndis_adb_composition (mtype : mdmType) : string :=
  match mtype with
  | EXTERNAL | INTERNAL_EXTERNAL =>
      "rndis,diag,diag_mdm,qdss,qdss_mdm,serial_cdev,dpl,adb"
  | INTERNAL => "rndis,diag,qdss,serial_cdev,dpl,adb"
  | NONE => "rndis,adb"
  end.

(** The default composition for ADB alone (UsbGadget.cpp:436-447). *)
Definition adb_composition (mtype : mdmType) : string :=
  match mtype with
  | EXTERNAL | INTERNAL_EXTERNAL =>
      "diag,diag_mdm,qdss,qdss_mdm,serial_cdev,dpl,rmnet,adb"
  | INTERNAL => "diag,serial_cdev,rmnet,dpl,qdss,adb"
  | NONE => "diag,adb"
  end.

Section SetupFunctions.

Variables (functions : Z) (callback : bool) (timeout : Z).
Variable gadgetName : string.

(** [setupFunctions] after [enable_adb] (UsbGadget.cpp:463-492): immediate
    pull-up, or the monitor and the bounded wait. *)
Definition pullup_or_monitor (ffsEnabled : bool) : M Status :=
  if negb ffsEnabled then
    ok <- write_pullup gadgetName ;;
    if negb ok then ret ERROR
    else
      modify (with_applied true) ;;;
      (if callback then setCurrentUsbFunctionsCb functions SUCCESS
       else ret tt) ;;;
      ret SUCCESS
  else
    registerFunctionsAppliedCallback ;;;
    startMonitor ;;;
    (if callback then
       gadgetPullup <- waitForPullUp timeout ;;
       setCurrentUsbFunctionsCb functions
         (if gadgetPullup then SUCCESS else ERROR)
     else ret tt) ;;;
    ret SUCCESS.

(** The label [enable_adb] (UsbGadget.cpp:456-461). *)
Definition enable_adb (ffsEnabled : bool) (i : Z) : M Status :=
  if negb (Z.land functions GadgetFunction.ADB =? 0) then
    '(s, _) <- addAdb i ;;
    if negb (Status_eqb s SUCCESS) then ret ERROR
    else pullup_or_monitor true
  else pullup_or_monitor ffsEnabled.

(** The QC default composition for ADB alone (UsbGadget.cpp:436-453). *)
Definition adb_default (mtype : mdmType) (ffsEnabled : bool) (i : Z)
  : M Status :=
  let comp := adb_composition mtype in
  '(r, i') <- addFunctionsFromPropString comp i false ;;
  if negb (r =? 0) then ret ERROR
  else
    r' <- lookupAndSetVidPid comp ;;
    if negb (r' =? 0) then ret ERROR
    else enable_adb ffsEnabled i'.

(** The string looked up for the override: ",adb" is tacked on when "adb"
    does not occur in the property (UsbGadget.cpp:422-423). *)
Definition tack_on_adb (vendorProp : string) : string :=
  if find vendorProp "adb" =? npos then vendorProp ++ ",adb" else vendorProp.

(** The override of ADB alone (UsbGadget.cpp:415-454). *)
Definition adb_override (mtype : mdmType) (vendorProp : string)
  (ffsEnabled : bool) (i : Z) : M Status :=
  if (i =? 0) && negb (Z.land functions GadgetFunction.ADB =? 0) then
    if negb (empty vendorProp) then
      let vendorProp := tack_on_adb vendorProp in
      '(r, i') <- addFunctionsFromPropString vendorProp i false ;;
      if r =? 0 then
        r' <- lookupAndSetVidPid vendorProp ;;
        if r' =? 0 then enable_adb ffsEnabled i'
        else
          unlinkFunctions ;;;
          adb_default mtype ffsEnabled 0
      else
        unlinkFunctions ;;;
        adb_default mtype ffsEnabled 0
    else adb_default mtype ffsEnabled i
  else enable_adb ffsEnabled i.

End SetupFunctions.

(** [UsbGadget::setupFunctions] (UsbGadget.cpp:368-493). *)
Definition setupFunctions (functions : Z) (callback : bool) (timeout : Z)
  : M Status :=
  let ffsEnabled := false in
  let i := 0 in
  let gadgetName := GetProperty env USB_CONTROLLER_PROP "" in
  let vendorProp :=
    GetProperty env VENDOR_USB_PROP
      (GetProperty env PERSIST_VENDOR_USB_PROP "") in
  if empty gadgetName then ret ERROR
  else
    let mtype := getModemType in
    let continue := adb_override functions callback timeout gadgetName
                      mtype vendorProp in
    if negb (Z.land functions GadgetFunction.RNDIS =? 0) then
      if negb (Z.land functions GadgetFunction.ADB =? 0) then
        let comp := rndis_adb_composition mtype in
        '(r, i') <- addFunctionsFromPropString comp i false ;;
        if negb (r =? 0) then ret ERROR
        else
          r' <- lookupAndSetVidPid comp ;;
          if negb (r' =? 0) then ret ERROR
          else continue ffsEnabled i'
      else
        r <- linkFunction "rndis" (rndisFuncname env) i ;;
        if negb (r =? 0) then ret ERROR
        else continue ffsEnabled (i + 1)
    else
      '(s, ffsEnabled', i') <-
         addGenericAndroidFunctions functions ffsEnabled i ;;
      if negb (Status_eqb s SUCCESS) then ret ERROR
      else continue ffsEnabled' i'.

(** The label [error] of [setCurrentUsbFunctions] (UsbGadget.cpp:536-543). *)
Definition error_exit (functions : Z) (callback : bool) (status : Status)
  : M Status :=
  (if callback then setCurrentUsbFunctionsCb functions status else ret tt) ;;;
  ret status.

(** [UsbGadget::setCurrentUsbFunctions] from the teardown on
    (UsbGadget.cpp:503-543).  The C++ function returns nothing; the model
    returns the value its local [status] has when it returns ([SUCCESS] on
    the path of [NONE]).  The sleep of [kDisconnectWaitUs] after the
    teardown changes no state. *)
Definition tearDown_and_apply (functions : Z) (callback : bool)
  (timeout : Z) : M Status :=
  status <- tearDownGadget ;;
  if negb (Status_eqb status SUCCESS) then
    error_exit functions callback status
  else if functions =? GadgetFunction.NONE then
    (if callback then setCurrentUsbFunctionsCb functions SUCCESS
     else ret tt) ;;;
    ret SUCCESS
  else
    status <- validateAndSetVidPid functions ;;
    if negb (Status_eqb status SUCCESS) then
      error_exit functions callback status
    else
      status <- setupFunctions functions callback timeout ;;
      if negb (Status_eqb status SUCCESS) then
        error_exit functions callback status
      else ret SUCCESS.

(** [UsbGadget::setCurrentUsbFunctions] (UsbGadget.cpp:495-544): the two
    stores, then the rest of the cycle. *)
Definition setCurrentUsbFunctions (functions : Z) (callback : bool)
  (timeout : Z) : M Status :=
  modify (with_functions functions false) ;;;
  tearDown_and_apply functions callback timeout.

End Operations.

(** ** Vocabulary of the properties *)

(** A triple over the state monad: from a state satisfying [P], the program
    returns a value and a state related by [Q]. *)
Definition hoare {A : Type} (P : Gadget -> Prop) (m : M A)
  (Q : A -> Gadget -> Prop) : Prop :=
  forall g, P g -> Q (fst (m g)) (snd (m g)).

(** The program leaves the observation [f] of the state as it found it. *)
Definition keeps {A B : Type} (f : Gadget -> B) (m : M A) : Prop :=
  forall g, f (snd (m g)) = f g.

(** The fields that the resolver (linking and VID/PID) never writes. *)
Definition finish_fields (g : Gadget)
  : Z * bool * bool * bool * string * list (Z * Status) :=
  (mCurrentUsbFunctions g, mCurrentUsbFunctionsApplied g, monitorRunning g,
   monitorCallback g, pullup g, delivered g).

(** A program that, when it does not succeed, has left the fields of
    [finish_fields] alone. *)
Definition fails_clean (m : M Status) : Prop :=
  forall g, fst (m g) <> SUCCESS -> finish_fields (snd (m g)) = finish_fields g.

(** A program whose successful runs end in [pullup_or_monitor], started
    from a state with the [finish_fields] of the initial one. *)
Definition ends_in_pullup (env : Env) (functions : Z) (callback : bool)
  (timeout : Z) (gadgetName : string) (m : M Status) : Prop :=
  forall g,
    fst (m g) = SUCCESS ->
    exists ffs g2,
      finish_fields g2 = finish_fields g
      /\ m g = pullup_or_monitor env functions callback timeout gadgetName
                 ffs g2.

(** The loop of [addFunctionsFromPropString] over a list of tokens. *)
Fixpoint addFunctions_tokens (env : Env) (toks : list string) (i : Z)
  (adb : bool) : M (Z * Z) :=
  match toks with
  | [] => ret (0, i)
  | funcname :: rest =>
      if negb adb && String.eqb funcname "adb" then
        addFunctions_tokens env rest i adb
      else
        match map_find supported_funcs funcname with
        | None => ALOGE (FunctionUnsupported funcname) ;;; ret (-1, i)
        | Some resolve =>
            r <- linkFunction env funcname (resolve env) i ;;
            if negb (r =? 0) then ret (-1, i + 1)
            else addFunctions_tokens env rest (i + 1) adb
        end
  end.

(** A string without a comma. *)
Fixpoint comma_free (s : string) : bool :=
  match s with
  | EmptyString => true
  | String c rest => negb (Ascii.eqb c ","%char) && comma_free rest
  end.

(** What [addFunctionsFromPropString (.., false)] links when nothing fails:
    every token but "adb", at consecutive indexes. *)
Fixpoint composition_links (env : Env) (toks : list string) (i : Z)
  : list Linked :=
  match toks with
  | [] => []
  | t :: rest =>
      if String.eqb t "adb" then composition_links env rest i
      else
        match map_find supported_funcs t with
        | Some resolve =>
            mkLinked t (resolve env) i :: composition_links env rest (i + 1)
        | None => []
        end
  end.

(** A link that was not made for the identifier "adb". *)
Definition no_adb (l : Linked) : Prop := l_func l <> "adb".

(** How many links were made for an identifier. *)
Definition count_func (func : string) (l : list Linked) : nat :=
  length (filter (fun x => String.eqb (l_func x) func) l).

(** The ADB function node is the last link, at the index that follows the
    others, and no other link was made for the identifier "adb". *)
Definition adb_last (g : Gadget) : Prop :=
  exists pre,
    links g = (pre ++ [mkLinked "adb" "ffs.adb" (Z.of_nat (length pre))])%list
    /\ Forall no_adb pre.

(** Before [enable_adb]: [i] counts the links, none of them for "adb". *)
Definition ready (i : Z) (g : Gadget) : Prop :=
  i = Z.of_nat (length (links g)) /\ Forall no_adb (links g).

(** The node an identifier of the function-name table resolves to. *)
Definition node_of (env : Env) (func : string) : string :=
  match map_find supported_funcs func with
  | Some resolve => resolve env
  | None => ""
  end.

(** The functions named by [funcs], each resolved through the function-name
    table and linked at its position, counting from [i]. *)
Fixpoint linked_from (env : Env) (i : Z) (funcs : list string)
  : list Linked :=
  match funcs with
  | [] => []
  | f :: rest => mkLinked f (node_of env f) i :: linked_from env (i + 1) rest
  end.

Definition linked_in_order (env : Env) (funcs : list string) : list Linked :=
  linked_from env 0 funcs.

(** The last character of a string. *)
Fixpoint last_char (s : string) : option ascii :=
  match s with
  | EmptyString => None
  | String c EmptyString => Some c
  | String _ s' => last_char s'
  end.

(** [sub] occurs in [s]. *)
Definition contains (s sub : string) : Prop :=
  exists pre post, s = (pre ++ sub ++ post)%string.

(** The bitmasks that [validateAndSetVidPid] accepts. *)
Definition generic_combination (functions : Z) : bool :=
  let ADB := GadgetFunction.ADB in
  let MTP := GadgetFunction.MTP in
  let RNDIS := GadgetFunction.RNDIS in
  let PTP := GadgetFunction.PTP in
  let MIDI := GadgetFunction.MIDI in
  let ACCESSORY := GadgetFunction.ACCESSORY in
  let AUDIO_SOURCE := GadgetFunction.AUDIO_SOURCE in
  existsb (Z.eqb functions)
    [ ADB; MTP; Z.lor ADB MTP; RNDIS; Z.lor ADB RNDIS; PTP; Z.lor ADB PTP;
      MIDI; Z.lor ADB MIDI; ACCESSORY; Z.lor ADB ACCESSORY; AUDIO_SOURCE;
      Z.lor ADB AUDIO_SOURCE; Z.lor ACCESSORY AUDIO_SOURCE;
      Z.lor (Z.lor ADB ACCESSORY) AUDIO_SOURCE ].


(** ** Sample worlds *)

(** A device with an internal modem on which nothing fails: the controller
    is named, [/sys/bus/esoc/devices] is empty, the generic helper links
    nothing and the monitor pulls up in time.  [vendor_usb_config] is the
    value of the property [vendor.usb.config]. *)
Definition sample_props (vendor_usb_config : string) (key : string) : string :=
  if String.eqb key USB_CONTROLLER_PROP then "a600000.dwc3"
  else if String.eqb key VENDOR_USB_PROP then vendor_usb_config
  else "".

Definition sample_env (vendor_usb_config : string) : Env :=
  mkEnv (sample_props vendor_usb_config) (Some []) None
        (fun _ _ => false) (fun _ _ => SUCCESS) SUCCESS
        (fun _ => mkGenericResult SUCCESS [] false)
        true true true (fun _ => true) "a600000.dwc3".

(** The same device, on which the link at index 1 fails. *)
Definition second_link_fails_env : Env :=
  mkEnv (sample_props "") (Some []) None
        (fun _ index => index =? 1) (fun _ _ => SUCCESS) SUCCESS
        (fun _ => mkGenericResult SUCCESS [] false)
        true true true (fun _ => true) "a600000.dwc3".

(** The same device, on which the pull-up never comes in time. *)
Definition pullup_timeout_env : Env :=
  mkEnv (sample_props "") (Some []) None
        (fun _ _ => false) (fun _ _ => SUCCESS) SUCCESS
        (fun _ => mkGenericResult SUCCESS [] false)
        true true true (fun _ => false) "a600000.dwc3".

(** A device with an external SDX modem whose machine name carries the
    "SDA" marker. *)
Definition external_sda_env : Env :=
  mkEnv (sample_props "") (Some [("esoc0", Some "SDX55")]) (Some "SDA845")
        (fun _ _ => false) (fun _ _ => SUCCESS) SUCCESS
        (fun _ => mkGenericResult SUCCESS [] false)
        true true true (fun _ => true) "a600000.dwc3".

(** A gadget on which nothing was configured yet. *)
Definition idle_gadget : Gadget :=
  mkGadget 0 false false false [] None "none" [] [].


(** ** Vocabulary of the further properties *)

(** An entry of the enumeration root that names an external modem: it is not
    hidden, its [esoc_name] can be read and contains "MDM" or "SDX". *)
Definition names_external (entry : string * option string) : bool :=
  negb (String.prefix "." (fst entry))
  && match snd entry with
     | Some esoc_name =>
         negb (find esoc_name "MDM" =? npos)
         || negb (find esoc_name "SDX" =? npos)
     | None => false
     end.

(** The test that [getModemType] makes on the machine name
    (UsbGadget.cpp:353-356). *)
Definition no_modem_marker (soc_machine : string) : bool :=
  negb (find soc_machine "SDA" =? npos)
  || (find_last_of soc_machine "P"%char
      =? size_t_sub (str_length soc_machine) 1).

(** The tokens that [addFunctionsFromPropString] does not skip
    (UsbGadget.cpp:241-242). *)
Definition linked_token (adb : bool) (funcname : string) : bool :=
  negb (negb adb && String.eqb funcname "adb").

(** The switch of [validateAndSetVidPid] as a table: each accepted bitmask
    with the product ID committed for it (the vendor ID is always
    "0x18d1"). *)
Definition generic_pids : list (Z * string) :=
  let ADB := GadgetFunction.ADB in
  let MTP := GadgetFunction.MTP in
  let RNDIS := GadgetFunction.RNDIS in
  let PTP := GadgetFunction.PTP in
  let MIDI := GadgetFunction.MIDI in
  let ACCESSORY := GadgetFunction.ACCESSORY in
  let AUDIO_SOURCE := GadgetFunction.AUDIO_SOURCE in
  [ (ADB, "0x4ee7"); (MTP, "0x4ee1"); (Z.lor ADB MTP, "0x4ee2");
    (RNDIS, "0x4ee3"); (Z.lor ADB RNDIS, "0x4ee4"); (PTP, "0x4ee5");
    (Z.lor ADB PTP, "0x4ee6"); (MIDI, "0x4ee8"); (Z.lor ADB MIDI, "0x4ee9");
    (ACCESSORY, "0x2d00"); (Z.lor ADB ACCESSORY, "0x2d01");
    (AUDIO_SOURCE, "0x2d02"); (Z.lor ADB AUDIO_SOURCE, "0x2d03");
    (Z.lor ACCESSORY AUDIO_SOURCE, "0x2d04");
    (Z.lor (Z.lor ADB ACCESSORY) AUDIO_SOURCE, "0x2d05") ].


(** A program that, when it succeeds, has ended in the monitor branch of
    [pullup_or_monitor], having left the fields of that stage alone. *)
Definition ends_in_monitor (env : Env) (functions : Z) (callback : bool)
  (timeout : Z) (gadgetName : string) (m : M Status) : Prop :=
  forall g,
    fst (m g) = SUCCESS ->
    exists g2,
      finish_fields g2 = finish_fields g
      /\ m g = pullup_or_monitor env functions callback timeout gadgetName
                 true g2.

(** ** Further sample worlds *)

(** The sample device with a machine file that is there but empty. *)
Definition empty_machine_env : Env :=
  mkEnv (sample_props "") (Some []) (Some "")
        (fun _ _ => false) (fun _ _ => SUCCESS) SUCCESS
        (fun _ => mkGenericResult SUCCESS [] false)
        true true true (fun _ => true) "a600000.dwc3".

(** A device on which no property is set, [vendor.usb.controller]
    included. *)
Definition no_controller_env : Env :=
  mkEnv (fun _ => "") (Some []) None
        (fun _ _ => false) (fun _ _ => SUCCESS) SUCCESS
        (fun _ => mkGenericResult SUCCESS [] false)
        true true true (fun _ => true) "a600000.dwc3".

(** ** The tokenizing loop *)

Lemma bind_run {A B : Type} (m : M A) (k : A -> M B) (g : Gadget) :
  bind m k g = k (fst (m g)) (snd (m g)).
Proof. unfold bind. destruct (m g); reflexivity. Qed.

Lemma length_append a b :
  String.length (a ++ b) = (String.length a + String.length b)%nat.
Proof.
  induction a as [|c a IH]; [reflexivity|].
  change (String c a ++ b)%string with (String c (a ++ b)).
  cbn [String.length]. rewrite IH. reflexivity.
Qed.

Lemma append_assoc a b c : ((a ++ b) ++ c = a ++ b ++ c)%string.
Proof.
  induction a as [|d a IH]; [reflexivity|].
  change (((String d a ++ b) ++ c)%string) with (String d ((a ++ b) ++ c)).
  rewrite IH. reflexivity.
Qed.

Lemma tokens_nonempty s : tokens s <> [].
Proof.
  destruct s as [|c s]; simpl; [discriminate|].
  destruct (Ascii.eqb c ","%char); [discriminate|].
  destruct (tokens s); discriminate.
Qed.

(** Appending ",t" to a property appends the tokens of [t]. *)
Lemma tokens_app_comma s t :
  tokens (s ++ String ","%char t) = (tokens s ++ tokens t)%list.
Proof.
  induction s as [|c s IH].
  - reflexivity.
  - change (String c s ++ String ","%char t)%string
      with (String c (s ++ String ","%char t)).
    cbn [tokens]. rewrite IH.
    destruct (Ascii.eqb c ","%char); [reflexivity|].
    pose proof (tokens_nonempty s) as Hne.
    destruct (tokens s); [contradiction | reflexivity].
Qed.

Lemma tokens_comma_free a : comma_free a = true -> tokens a = [a].
Proof.
  induction a as [|c a IH]; [reflexivity|].
  cbn [comma_free tokens]. intro H. apply andb_true_iff in H.
  destruct H as [Hc Ha]. apply negb_true_iff in Hc.
  rewrite Hc, (IH Ha). reflexivity.
Qed.

(** A string is without a comma, or splits at its first comma. *)
Lemma split_first_comma s :
  comma_free s = true
  \/ exists a b, s = (a ++ String ","%char b)%string /\ comma_free a = true.
Proof.
  induction s as [|c s IH]; [left; reflexivity|].
  destruct (Ascii.eqb c ","%char) eqn:Hc.
  - right. apply Ascii.eqb_eq in Hc. subst c.
    exists "", s. split; reflexivity.
  - destruct IH as [H|(a & b & -> & Ha)].
    + left. cbn [comma_free]. rewrite Hc, H. reflexivity.
    + right. exists (String c a), b. split; [reflexivity|].
      cbn [comma_free]. rewrite Hc, Ha. reflexivity.
Qed.

Lemma find_first_of_at_skip c pre rest : forall pos,
  find_first_of_at c (pre ++ rest) (pos + String.length pre) pos
  = find_first_of_at c rest (pos + String.length pre)
      (pos + String.length pre).
Proof.
  induction pre as [|d pre IH]; intro pos.
  - cbn [String.length String.append]. rewrite Nat.add_0_r. reflexivity.
  - change (String d pre ++ rest)%string with (String d (pre ++ rest)).
    cbn [find_first_of_at String.length].
    replace (pos + S (String.length pre) <=? pos)%nat with false
      by (symmetry; apply Nat.leb_gt; lia).
    cbn [andb].
    replace (pos + S (String.length pre))%nat
      with (S pos + String.length pre)%nat by lia.
    apply IH.
Qed.

Lemma find_first_of_at_comma a b : forall start pos,
  (start <= pos)%nat ->
  comma_free a = true ->
  find_first_of_at ","%char (a ++ String ","%char b) start pos
  = Some (pos + String.length a)%nat.
Proof.
  induction a as [|c a IH]; intros start pos Hle Ha.
  - cbn [String.append find_first_of_at String.length].
    replace (start <=? pos)%nat with true
      by (symmetry; apply Nat.leb_le; exact Hle).
    rewrite Nat.add_0_r. reflexivity.
  - cbn [comma_free] in Ha. apply andb_true_iff in Ha.
    destruct Ha as [Hc Ha]. apply negb_true_iff in Hc.
    change (String c a ++ String ","%char b)%string
      with (String c (a ++ String ","%char b)).
    cbn [find_first_of_at String.length]. rewrite Hc, andb_false_r.
    rewrite (IH start (S pos)) by (auto; lia). f_equal. lia.
Qed.

Lemma find_first_of_at_none a : forall start pos,
  comma_free a = true -> find_first_of_at ","%char a start pos = None.
Proof.
  induction a as [|c a IH]; intros start pos Ha; [reflexivity|].
  cbn [comma_free] in Ha. apply andb_true_iff in Ha.
  destruct Ha as [Hc Ha]. apply negb_true_iff in Hc.
  cbn [find_first_of_at]. rewrite Hc, andb_false_r. apply IH, Ha.
Qed.

Lemma substring_skip pre s : forall m,
  String.substring (String.length pre) m (pre ++ s) = String.substring 0 m s.
Proof.
  induction pre as [|c pre IH]; intro m; [reflexivity|].
  change (String c pre ++ s)%string with (String c (pre ++ s)).
  cbn [String.length String.substring]. apply IH.
Qed.

Lemma substring_prefix a rest :
  String.substring 0 (String.length a) (a ++ rest) = a.
Proof.
  induction a as [|c a IH]; [destruct rest; reflexivity|].
  change (String c a ++ rest)%string with (String c (a ++ rest)).
  cbn [String.length String.substring]. rewrite IH. reflexivity.
Qed.

Lemma substring_all a : String.substring 0 (String.length a) a = a.
Proof.
  induction a as [|c a IH]; [reflexivity|].
  cbn [String.length String.substring]. rewrite IH. reflexivity.
Qed.

(** The loop of the code, started after [pre], does to the rest [s] of the
    property what the loop over the tokens of [s] does. *)
Lemma addFunctions_loop_tokens env adb fuel : forall pre s i g,
  (String.length s < fuel)%nat ->
  addFunctions_loop env fuel (pre ++ s) (Some (String.length pre)) i adb g
  = addFunctions_tokens env (tokens s) i adb g.
Proof.
  induction fuel as [|fuel IH]; intros pre s i g Hlen; [lia|].
  cbn [addFunctions_loop]. unfold find_first_of, substr.
  pose proof (find_first_of_at_skip ","%char pre s 0) as Hskip.
  cbn [Nat.add] in Hskip. rewrite Hskip. clear Hskip.
  destruct (split_first_comma s) as [Hs|(a & b & -> & Ha)].
  - rewrite (find_first_of_at_none s _ _ Hs), (tokens_comma_free s Hs).
    rewrite length_append.
    replace (String.length pre + String.length s - String.length pre)%nat
      with (String.length s) by lia.
    rewrite substring_skip, substring_all.
    cbn [addFunctions_tokens].
    destruct (negb adb && String.eqb s "adb"); [destruct fuel; reflexivity|].
    destruct (map_find supported_funcs s) as [resolve|]; [|reflexivity].
    rewrite !bind_run.
    destruct (negb (fst (linkFunction env s (resolve env) i g) =? 0));
      [reflexivity | destruct fuel; reflexivity].
  - rewrite (find_first_of_at_comma a b _ _ (Nat.le_refl _) Ha).
    rewrite tokens_app_comma, (tokens_comma_free a Ha).
    replace (String.length pre + String.length a - String.length pre)%nat
      with (String.length a) by lia.
    rewrite substring_skip, substring_prefix.
    cbn [app addFunctions_tokens].
    assert (Hnext : forall i' g',
      addFunctions_loop env fuel (pre ++ a ++ String ","%char b)
        (Some (S (String.length pre + String.length a))) i' adb g'
      = addFunctions_tokens env (tokens b) i' adb g').
    { intros i' g'.
      replace (pre ++ a ++ String ","%char b)%string
        with ((pre ++ a ++ ",") ++ b)%string.
      - replace (S (String.length pre + String.length a))
          with (String.length (pre ++ a ++ ","))%string.
        + apply IH. rewrite length_append in Hlen.
          cbn [String.length] in Hlen. lia.
        + rewrite !length_append. cbn [String.length]. lia.
      - rewrite !append_assoc. reflexivity. }
    destruct (negb adb && String.eqb a "adb"); [apply Hnext|].
    destruct (map_find supported_funcs a) as [resolve|]; [|reflexivity].
    rewrite !bind_run.
    destruct (negb (fst (linkFunction env a (resolve env) i g) =? 0));
      [reflexivity | apply Hnext].
Qed.

(** The loop of the code runs over the tokens of the property, in order. *)
Lemma addFunctionsFromPropString_tokens env prop i adb g :
  addFunctionsFromPropString env prop i adb g
  = addFunctions_tokens env (tokens prop) i adb g.
Proof.
  unfold addFunctionsFromPropString.
  apply (addFunctions_loop_tokens env adb (S (String.length prop)) "" prop).
  lia.
Qed.

(** ** Reasoning about gadget programs *)

Lemma hoare_ret {A : Type} (P : Gadget -> Prop) (a : A)
  (Q : A -> Gadget -> Prop) :
  (forall g, P g -> Q a g) -> hoare P (ret a) Q.
Proof. intros H g Hg. apply H, Hg. Qed.

Lemma hoare_bind {A B : Type} (P : Gadget -> Prop) (m : M A)
  (R : A -> Gadget -> Prop) (k : A -> M B) (Q : B -> Gadget -> Prop) :
  hoare P m R -> (forall a, hoare (R a) (k a) Q) -> hoare P (bind m k) Q.
Proof.
  intros Hm Hk g Hg. rewrite bind_run. apply Hk, Hm, Hg.
Qed.

Lemma keeps_ret {A B : Type} (f : Gadget -> B) (a : A) : keeps f (ret a).
Proof. intro g; reflexivity. Qed.

Lemma keeps_bind {A B C : Type} (f : Gadget -> C) (m : M A) (k : A -> M B) :
  keeps f m -> (forall a, keeps f (k a)) -> keeps f (bind m k).
Proof.
  intros Hm Hk g. rewrite bind_run, Hk, Hm. reflexivity.
Qed.

(** Splits a [keeps] goal along the structure of the program: binds,
    conditionals and matches, down to the primitives. *)
Ltac keeps_split :=
  repeat match goal with
         | |- keeps _ (ret _) => apply keeps_ret
         | |- keeps _ (bind _ _) => apply keeps_bind; [ | intros ]
         | |- keeps _ (if ?c then _ else _) => destruct c
         | |- keeps _ (match ?x with _ => _ end) => destruct x
         end.

(** A primitive that touches other fields than the observed one. *)
Ltac keeps_prim :=
  let g := fresh "g" in
  intro g; cbv beta delta [modify ret];
  repeat match goal with
         | |- context [if ?c then _ else _] => destruct c
         | |- context [match ?x with SUCCESS => _ | _ => _ end] => destruct x
         end;
  reflexivity.

Section Frames.

Variable env : Env.

Lemma linkFunction_keeps_vidpid func node i :
  keeps vidpid (linkFunction env func node i).
Proof. unfold linkFunction. keeps_prim. Qed.

Lemma linkFunction_keeps_finish func node i :
  keeps finish_fields (linkFunction env func node i).
Proof. unfold linkFunction. keeps_prim. Qed.

Lemma ALOGE_keeps_finish m : keeps finish_fields (ALOGE m).
Proof. unfold ALOGE. keeps_prim. Qed.

Lemma ALOGE_keeps_links m : keeps links (ALOGE m).
Proof. unfold ALOGE. keeps_prim. Qed.

Lemma setVidPid_keeps_finish vid pid :
  keeps finish_fields (setVidPid env vid pid).
Proof. unfold setVidPid. keeps_prim. Qed.

Lemma setVidPid_keeps_links vid pid : keeps links (setVidPid env vid pid).
Proof. unfold setVidPid. keeps_prim. Qed.

Lemma unlinkFunctions_keeps_finish : keeps finish_fields unlinkFunctions.
Proof. unfold unlinkFunctions. keeps_prim. Qed.

Lemma addGeneric_keeps_finish functions ffs i :
  keeps finish_fields (addGenericAndroidFunctions env functions ffs i).
Proof. unfold addGenericAndroidFunctions. keeps_prim. Qed.

Lemma addAdb_keeps_finish i : keeps finish_fields (addAdb env i).
Proof.
  unfold addAdb. keeps_split; apply linkFunction_keeps_finish.
Qed.

Lemma addAdb_keeps_vidpid i : keeps vidpid (addAdb env i).
Proof.
  unfold addAdb. keeps_split; apply linkFunction_keeps_vidpid.
Qed.

Lemma addFunctions_tokens_keeps_finish toks adb i :
  keeps finish_fields (addFunctions_tokens env toks i adb).
Proof.
  revert i. induction toks as [|t toks IH]; intro i; simpl.
  - apply keeps_ret.
  - keeps_split; auto using linkFunction_keeps_finish, ALOGE_keeps_finish.
Qed.

Lemma addFunctionsFromPropString_keeps_finish prop adb i :
  keeps finish_fields (addFunctionsFromPropString env prop i adb).
Proof.
  intro g. rewrite addFunctionsFromPropString_tokens.
  apply addFunctions_tokens_keeps_finish.
Qed.

Lemma lookupAndSetVidPid_keeps_finish prop :
  keeps finish_fields (lookupAndSetVidPid env prop).
Proof.
  unfold lookupAndSetVidPid.
  keeps_split; auto using setVidPid_keeps_finish, ALOGE_keeps_finish.
Qed.

Lemma lookupAndSetVidPid_keeps_links prop :
  keeps links (lookupAndSetVidPid env prop).
Proof.
  unfold lookupAndSetVidPid.
  keeps_split; auto using setVidPid_keeps_links, ALOGE_keeps_links.
Qed.

End Frames.

Arguments map_find : simpl never.
Arguments String.eqb : simpl never.
Arguments String.append : simpl never.

Section Resolver.

Variable env : Env.

Lemma composition_links_no_adb toks i :
  Forall no_adb (composition_links env toks i).
Proof.
  revert i. induction toks as [|t toks IH]; intro i; simpl.
  - constructor.
  - destruct (String.eqb t "adb") eqn:E; [apply IH|].
    destruct (map_find supported_funcs t); constructor; [|apply IH].
    unfold no_adb; simpl. apply String.eqb_neq, E.
Qed.

(** The loop links a prefix of the composition; the whole of it, with [i]
    advanced past it and nothing logged, when it returns 0. *)
Lemma addFunctions_tokens_links toks i g :
  exists done rest,
    links (snd (addFunctions_tokens env toks i false g)) = (links g ++ done)%list
    /\ composition_links env toks i = (done ++ rest)%list
    /\ (fst (fst (addFunctions_tokens env toks i false g)) = 0 ->
        rest = []
        /\ snd (fst (addFunctions_tokens env toks i false g))
           = i + Z.of_nat (length done)
        /\ errlog (snd (addFunctions_tokens env toks i false g)) = errlog g
        /\ forall t, In t toks -> map_count supported_funcs t = true).
Proof.
  revert i g. induction toks as [|t toks IH]; intros i g; simpl.
  - exists [], []. rewrite app_nil_r.
    split; [reflexivity|]. split; [reflexivity|]. intros _.
    split; [reflexivity|]. split; [simpl; lia|]. split; [reflexivity|].
    intros t [].
  - destruct (String.eqb t "adb") eqn:E; simpl.
    + destruct (IH i g) as (done & rest & H1 & H2 & H3).
      exists done, rest. repeat split; auto; try apply H3; auto.
      intros t' [<-|Hin]; [|apply H3; auto].
      apply String.eqb_eq in E. subst t. reflexivity.
    + unfold map_count at 1.
      destruct (map_find supported_funcs t) as [resolve|] eqn:Hf.
      * rewrite bind_run. unfold linkFunction.
        destruct (link_fails env (resolve env) i) eqn:Hl; simpl.
        -- exists [], (mkLinked t (resolve env) i
                        :: composition_links env toks (i + 1)).
           rewrite app_nil_r. repeat split; auto; discriminate.
        -- destruct (IH (i + 1)
                       (with_links
                          (links g ++ [mkLinked t (resolve env) i])%list g))
             as (done & rest & H1 & H2 & H3).
           exists (mkLinked t (resolve env) i :: done), rest.
           split; [rewrite H1; simpl; rewrite <- app_assoc; reflexivity|].
           split; [simpl; rewrite H2; reflexivity|].
           intro H0. destruct (H3 H0) as (R1 & R2 & R3 & R4).
           repeat split; auto.
           ++ rewrite R2. simpl length. lia.
           ++ intros t' [<-|Hin]; [|apply R4; auto].
              unfold map_count. rewrite Hf. reflexivity.
      * exists [], []. simpl. rewrite app_nil_r.
        repeat split; auto; discriminate.
Qed.

(** With every token in the table the loop logs nothing, and it fails only
    if a link fails. *)
Lemma addFunctions_tokens_supported toks i g :
  forallb (map_count supported_funcs) toks = true ->
  errlog (snd (addFunctions_tokens env toks i false g)) = errlog g
  /\ ((forall node k, link_fails env node k = false) ->
      fst (fst (addFunctions_tokens env toks i false g)) = 0).
Proof.
  revert i g. induction toks as [|t toks IH]; intros i g; simpl.
  - auto.
  - intro H. apply andb_true_iff in H. destruct H as [Ht Hrest].
    destruct (String.eqb t "adb"); simpl; [apply IH, Hrest|].
    unfold map_count in Ht.
    destruct (map_find supported_funcs t) as [resolve|]; [|discriminate].
    rewrite bind_run. unfold linkFunction.
    destruct (link_fails env (resolve env) i) eqn:Hl; simpl.
    + split; [reflexivity|]. intro Hno. rewrite Hno in Hl. discriminate.
    + destruct (IH (i + 1)
                  (with_links (links g ++ [mkLinked t (resolve env) i])%list g)
                  Hrest) as [H1 H2].
      split; [exact H1 | exact H2].
Qed.

End Resolver.

Section AdbLast.

Variable env : Env.
Variables (functions : Z) (callback : bool) (timeout : Z).
Variable gadgetName : string.

Lemma write_pullup_keeps_links s : keeps links (write_pullup env s).
Proof. unfold write_pullup. keeps_prim. Qed.

Lemma waitForPullUp_keeps_links t : keeps links (waitForPullUp env t).
Proof.
  unfold waitForPullUp. keeps_split.
  unfold monitor_pullup, functionsAppliedCallback. keeps_prim.
Qed.

Lemma pullup_or_monitor_keeps_links ffs :
  keeps links (pullup_or_monitor env functions callback timeout gadgetName ffs).
Proof.
  unfold pullup_or_monitor, registerFunctionsAppliedCallback, startMonitor,
    setCurrentUsbFunctionsCb.
  keeps_split;
    auto using write_pullup_keeps_links, waitForPullUp_keeps_links;
    keeps_prim.
Qed.

Lemma addAdb_adb_last i :
  hoare (ready i) (addAdb env i) (fun r g => fst r = SUCCESS -> adb_last g).
Proof.
  intros g [Hi Hno]. unfold addAdb.
  destruct (adb_prepare_ok env); simpl; [|discriminate].
  rewrite bind_run. unfold linkFunction.
  destruct (link_fails env "ffs.adb" i); simpl; [discriminate|].
  destruct (adb_endpoints_ok env); simpl; [|discriminate].
  intros _. exists (links g). subst i. split; [reflexivity | exact Hno].
Qed.

Lemma enable_adb_adb_last ffs i :
  Z.land functions GadgetFunction.ADB <> 0 ->
  hoare (ready i) (enable_adb env functions callback timeout gadgetName ffs i)
        (fun s g => s = SUCCESS -> adb_last g).
Proof.
  intro Hadb. unfold enable_adb.
  apply Z.eqb_neq in Hadb. rewrite Hadb. simpl negb. cbv iota.
  eapply hoare_bind; [apply addAdb_adb_last|].
  intros [s i']. cbn [fst].
  destruct s; cbn [Status_eqb negb];
    try (apply hoare_ret; intros; discriminate).
  intros g Hg _. unfold adb_last.
  rewrite pullup_or_monitor_keeps_links. apply Hg. reflexivity.
Qed.

Lemma addFunctions_tokens_ready toks i :
  hoare (ready i) (addFunctions_tokens env toks i false)
        (fun r g => fst r = 0 -> ready (snd r) g).
Proof.
  intros g [Hi Hno] H0.
  destruct (addFunctions_tokens_links env toks i g)
    as (done & rest & H1 & H2 & H3).
  destruct (H3 H0) as (-> & Hi' & _).
  rewrite app_nil_r in H2. unfold ready. rewrite H1, Hi'. split.
  - rewrite length_app. lia.
  - apply Forall_app. split; [exact Hno|].
    rewrite <- H2. apply composition_links_no_adb.
Qed.

Lemma addFunctionsFromPropString_ready prop i :
  hoare (ready i) (addFunctionsFromPropString env prop i false)
        (fun r g => fst r = 0 -> ready (snd r) g).
Proof.
  intros g Hg. rewrite addFunctionsFromPropString_tokens.
  apply addFunctions_tokens_ready, Hg.
Qed.

Lemma lookupAndSetVidPid_ready prop i :
  hoare (ready i) (lookupAndSetVidPid env prop) (fun _ g => ready i g).
Proof.
  intros g Hg. unfold ready.
  rewrite lookupAndSetVidPid_keeps_links. exact Hg.
Qed.

Lemma adb_default_adb_last mtype ffs i :
  Z.land functions GadgetFunction.ADB <> 0 ->
  hoare (ready i)
        (adb_default env functions callback timeout gadgetName mtype ffs i)
        (fun s g => s = SUCCESS -> adb_last g).
Proof.
  intro Hadb. unfold adb_default.
  eapply hoare_bind; [apply addFunctionsFromPropString_ready|].
  intros [r i']. simpl fst; simpl snd.
  destruct (r =? 0) eqn:Hr; simpl negb; cbv iota;
    [|apply hoare_ret; intros; discriminate].
  apply Z.eqb_eq in Hr.
  eapply hoare_bind with (R := fun _ g => ready i' g).
  - intros g Hg. apply lookupAndSetVidPid_ready. apply Hg, Hr.
  - intro r'. destruct (r' =? 0); simpl negb; cbv iota;
      [|apply hoare_ret; intros; discriminate].
    apply enable_adb_adb_last, Hadb.
Qed.

Lemma ready_unlinked g : ready 0 (with_links [] g).
Proof. split; [reflexivity | constructor]. Qed.

Lemma adb_override_adb_last mtype vendorProp ffs i :
  Z.land functions GadgetFunction.ADB <> 0 ->
  hoare (ready i)
        (adb_override env functions callback timeout gadgetName mtype
           vendorProp ffs i)
        (fun s g => s = SUCCESS -> adb_last g).
Proof.
  intro Hadb. unfold adb_override.
  destruct ((i =? 0) && negb (Z.land functions GadgetFunction.ADB =? 0));
    [|apply enable_adb_adb_last, Hadb].
  destruct (negb (empty vendorProp)); [|apply adb_default_adb_last, Hadb].
  eapply hoare_bind; [apply addFunctionsFromPropString_ready|].
  intros [r i']. simpl fst; simpl snd.
  assert (Hroll : forall P,
             hoare P
               (unlinkFunctions ;;;
                adb_default env functions callback timeout gadgetName mtype
                  ffs 0)
               (fun s g => s = SUCCESS -> adb_last g)).
  { intro P. eapply hoare_bind with (R := fun _ g => ready 0 g).
    - intros g _. apply ready_unlinked.
    - intros _. apply adb_default_adb_last, Hadb. }
  destruct (r =? 0) eqn:Hr; [|apply Hroll].
  apply Z.eqb_eq in Hr.
  eapply hoare_bind with (R := fun _ g => ready i' g).
  - intros g Hg. apply lookupAndSetVidPid_ready. apply Hg, Hr.
  - intro r'. destruct (r' =? 0); [|apply Hroll].
    apply enable_adb_adb_last, Hadb.
Qed.

End AdbLast.

Lemma link_generic_ready l : forall i acc,
  Forall (fun p => fst p <> "adb") l ->
  Forall no_adb acc ->
  Forall no_adb (link_generic l i acc)
  /\ length (link_generic l i acc) = (length acc + length l)%nat.
Proof.
  induction l as [|[func node] l IH]; intros i acc Hl Hacc; simpl.
  - split; [exact Hacc | lia].
  - inversion Hl as [|? ? Hp Hl']; subst.
    destruct (IH (i + 1) (acc ++ [mkLinked func node i])%list Hl') as [H1 H2].
    + apply Forall_app. split; [exact Hacc|].
      constructor; [exact Hp | constructor].
    + split; [exact H1|]. rewrite H2, length_app. simpl. lia.
Qed.

Lemma setupFunctions_adb_last env functions callback timeout :
  Z.land functions GadgetFunction.ADB <> 0 ->
  Forall (fun p => fst p <> "adb") (g_linked (generic_result env functions)) ->
  hoare (fun g => links g = [])
        (setupFunctions env functions callback timeout)
        (fun s g => s = SUCCESS -> adb_last g).
Proof.
  intros Hadb Hgen. unfold setupFunctions.
  destruct (empty (GetProperty env USB_CONTROLLER_PROP ""));
    [apply hoare_ret; intros; discriminate|].
  assert (H0 : forall g, links g = [] -> ready 0 g).
  { intros g Hg. unfold ready. rewrite Hg. split; [reflexivity|constructor]. }
  destruct (negb (Z.land functions GadgetFunction.RNDIS =? 0)).
  - apply Z.eqb_neq in Hadb. rewrite Hadb. simpl negb. cbv iota.
    apply Z.eqb_neq in Hadb.
    eapply hoare_bind with
      (R := fun r g => fst r = 0 -> ready (snd r) g).
    + intros g Hg. apply addFunctionsFromPropString_ready, H0, Hg.
    + intros [r i']. simpl fst; simpl snd.
      destruct (r =? 0) eqn:Hr; simpl negb; cbv iota;
        [|apply hoare_ret; intros; discriminate].
      apply Z.eqb_eq in Hr.
      eapply hoare_bind with (R := fun _ g => ready i' g).
      * intros g Hg. apply lookupAndSetVidPid_ready. apply Hg, Hr.
      * intro r'. destruct (r' =? 0); simpl negb; cbv iota;
          [|apply hoare_ret; intros; discriminate].
        apply adb_override_adb_last, Hadb.
  - eapply hoare_bind with
      (R := fun r g => ready (snd r) g).
    + intros g Hg. unfold addGenericAndroidFunctions, ready.
      cbn [snd fst links with_links].
      destruct (link_generic_ready (g_linked (generic_result env functions))
                  0 (links g) Hgen) as [H1 H2].
      { rewrite Hg. constructor. }
      split; [|exact H1]. rewrite H2, Hg. simpl. lia.
    + intros [[s ffs] i']. simpl snd.
      destruct (Status_eqb s SUCCESS); simpl negb; cbv iota;
        [|apply hoare_ret; intros; discriminate].
      apply adb_override_adb_last, Hadb.
Qed.


Lemma tokens_tack_on_adb s :
  tokens (tack_on_adb s) = tokens s
  \/ tokens (tack_on_adb s) = (tokens s ++ ["adb"])%list.
Proof.
  unfold tack_on_adb. destruct (find s "adb" =? npos); [right | left; auto].
  apply (tokens_app_comma s "adb").
Qed.

Section Rollback.

Variable env : Env.
Variables (functions : Z) (callback : bool) (timeout : Z).
Variable gadgetName : string.

Lemma lookupAndSetVidPid_result prop g :
  (fst (lookupAndSetVidPid env prop g) = 0
   /\ map_count supported_compositions prop = true
   /\ vidpid (snd (lookupAndSetVidPid env prop g))
      = map_find supported_compositions prop
   /\ errlog (snd (lookupAndSetVidPid env prop g)) = errlog g)
  \/ (fst (lookupAndSetVidPid env prop g) = -1
      /\ vidpid (snd (lookupAndSetVidPid env prop g)) = vidpid g).
Proof.
  unfold lookupAndSetVidPid, map_count.
  destruct (map_find supported_compositions prop) as [[vid pid]|];
    [|right; split; reflexivity].
  rewrite bind_run. unfold setVidPid.
  destruct (setVidPid_result env vid pid); simpl; auto.
Qed.

Lemma write_pullup_keeps_vidpid s : keeps vidpid (write_pullup env s).
Proof. unfold write_pullup. keeps_prim. Qed.

Lemma waitForPullUp_keeps_vidpid t : keeps vidpid (waitForPullUp env t).
Proof.
  unfold waitForPullUp. keeps_split.
  unfold monitor_pullup, functionsAppliedCallback. keeps_prim.
Qed.

Lemma pullup_or_monitor_keeps_vidpid ffs :
  keeps vidpid
    (pullup_or_monitor env functions callback timeout gadgetName ffs).
Proof.
  unfold pullup_or_monitor, registerFunctionsAppliedCallback, startMonitor,
    setCurrentUsbFunctionsCb.
  keeps_split;
    auto using write_pullup_keeps_vidpid, waitForPullUp_keeps_vidpid;
    keeps_prim.
Qed.

Lemma enable_adb_keeps_vidpid ffs i :
  keeps vidpid (enable_adb env functions callback timeout gadgetName ffs i).
Proof.
  unfold enable_adb.
  keeps_split;
    auto using addAdb_keeps_vidpid, pullup_or_monitor_keeps_vidpid.
Qed.

(** [enable_adb] with ADB requested: either it fails and links nothing, or
    it links the ADB node at [i]. *)
Lemma enable_adb_links ffs i g :
  Z.land functions GadgetFunction.ADB <> 0 ->
  (links (snd (enable_adb env functions callback timeout gadgetName ffs i g))
   = links g
   /\ fst (enable_adb env functions callback timeout gadgetName ffs i g)
      <> SUCCESS)
  \/ links (snd (enable_adb env functions callback timeout gadgetName ffs i g))
     = (links g ++ [mkLinked "adb" "ffs.adb" i])%list.
Proof.
  intro Hadb. unfold enable_adb.
  apply Z.eqb_neq in Hadb. rewrite Hadb. cbn [negb].
  rewrite bind_run. unfold addAdb.
  destruct (adb_prepare_ok env); cbn [negb];
    [|left; split; [reflexivity | discriminate]].
  rewrite bind_run. unfold linkFunction.
  destruct (link_fails env "ffs.adb" i); cbn [negb fst snd Z.eqb];
    [left; split; [reflexivity | discriminate]|].
  destruct (adb_endpoints_ok env); cbn [negb fst snd Status_eqb ret].
  - right. rewrite pullup_or_monitor_keeps_links. reflexivity.
  - right. reflexivity.
Qed.

(** The three default compositions end in "adb" and name functions of the
    table only. *)
Lemma adb_composition_links mtype :
  (composition_links env (tokens (adb_composition mtype)) 0
   ++ [mkLinked "adb" "ffs.adb"
         (Z.of_nat
            (length (composition_links env (tokens (adb_composition mtype))
                       0)))])%list
  = linked_in_order env (tokens (adb_composition mtype)).
Proof. destruct mtype; reflexivity. Qed.

(** The default composition for ADB alone, from an empty configuration:
    what is linked is a prefix of the composition, and the whole of it,
    with its VID/PID, on success. *)
Lemma adb_default_run mtype ffs g :
  Z.land functions GadgetFunction.ADB <> 0 ->
  links g = [] ->
  let r := adb_default env functions callback timeout gadgetName mtype ffs 0 g
  in
  (exists rest,
      linked_in_order env (tokens (adb_composition mtype))
      = (links (snd r) ++ rest)%list)
  /\ (fst r = SUCCESS ->
      links (snd r) = linked_in_order env (tokens (adb_composition mtype))
      /\ vidpid (snd r)
         = map_find supported_compositions (adb_composition mtype)).
Proof.
  intros Hadb Hg. cbv zeta. unfold adb_default.
  rewrite bind_run, addFunctionsFromPropString_tokens.
  destruct (addFunctions_tokens_links env (tokens (adb_composition mtype)) 0 g)
    as (done & rest & H1 & H2 & H3).
  rewrite Hg in H1. cbn [app] in H1.
  pose proof (adb_composition_links mtype) as Hfull.
  destruct (addFunctions_tokens env (tokens (adb_composition mtype)) 0 false g)
    as [[r i'] g1] eqn:Hrun.
  cbn [fst snd] in *.
  destruct (r =? 0) eqn:Hr; cbn [negb].
  - apply Z.eqb_eq in Hr. destruct (H3 Hr) as (-> & Hi' & _).
    rewrite app_nil_r in H2. rewrite H2 in Hfull.
    rewrite bind_run.
    pose proof (lookupAndSetVidPid_keeps_links env (adb_composition mtype) g1)
      as Hk.
    destruct (lookupAndSetVidPid_result (adb_composition mtype) g1)
      as [(Hc & _ & Hv & _)|(Hc & _)]; rewrite Hc; cbn [Z.eqb negb].
    + set (g2 := snd (lookupAndSetVidPid env (adb_composition mtype) g1)) in *.
      rewrite enable_adb_keeps_vidpid.
      destruct (enable_adb_links ffs i' g2 Hadb) as [[Hl Hs]|Hl];
        rewrite Hl, Hk, H1.
      * split; [|intro; contradiction].
        rewrite <- Hfull. eexists; reflexivity.
      * rewrite Hi'. cbn [Z.add]. rewrite Hfull.
        split; [exists []; rewrite app_nil_r; reflexivity|].
        intros _. split; [reflexivity | exact Hv].
    + cbn [ret fst snd]. rewrite Hk, H1.
      split; [|discriminate].
      rewrite <- Hfull. eexists; reflexivity.
  - cbn [ret fst snd]. split; [|discriminate].
    rewrite H1, <- Hfull, H2. rewrite <- app_assoc. eexists; reflexivity.
Qed.

(** A failed override attempt is rolled back: the outcome is that of the
    default composition linked into an empty configuration. *)
Lemma adb_override_rollback mtype vendorProp ffs g :
  Z.land functions GadgetFunction.ADB <> 0 ->
  empty vendorProp = false ->
  (exists t, In t (tokens vendorProp) /\ map_count supported_funcs t = false)
  \/ map_count supported_compositions (tack_on_adb vendorProp) = false ->
  let r := adb_override env functions callback timeout gadgetName mtype
             vendorProp ffs 0 g in
  (exists rest,
      linked_in_order env (tokens (adb_composition mtype))
      = (links (snd r) ++ rest)%list)
  /\ (fst r = SUCCESS ->
      links (snd r) = linked_in_order env (tokens (adb_composition mtype))
      /\ vidpid (snd r)
         = map_find supported_compositions (adb_composition mtype)).
Proof.
  intros Hadb Hne Hbad. cbv zeta. unfold adb_override.
  pose proof Hadb as Hadb'. apply Z.eqb_neq in Hadb'.
  rewrite Hadb', Hne. cbn [Z.eqb negb andb].
  assert (Hroll : forall g1,
    let r := (unlinkFunctions ;;;
              adb_default env functions callback timeout gadgetName mtype
                ffs 0) g1 in
    (exists rest,
        linked_in_order env (tokens (adb_composition mtype))
        = (links (snd r) ++ rest)%list)
    /\ (fst r = SUCCESS ->
        links (snd r) = linked_in_order env (tokens (adb_composition mtype))
        /\ vidpid (snd r)
           = map_find supported_compositions (adb_composition mtype))).
  { intro g1. cbv zeta. rewrite bind_run.
    apply adb_default_run; [exact Hadb | reflexivity]. }
  rewrite bind_run, addFunctionsFromPropString_tokens.
  destruct (addFunctions_tokens_links env (tokens (tack_on_adb vendorProp)) 0 g)
    as (done & rest & _ & _ & H3).
  destruct (addFunctions_tokens env (tokens (tack_on_adb vendorProp)) 0 false g)
    as [[r i'] g1] eqn:Hrun.
  cbn [fst snd] in *.
  destruct (r =? 0) eqn:Hr; [|apply Hroll].
  apply Z.eqb_eq in Hr. destruct (H3 Hr) as (_ & _ & _ & Hall).
  rewrite bind_run.
  destruct (lookupAndSetVidPid_result (tack_on_adb vendorProp) g1)
    as [(_ & Hrow & _)|(Hc & _)].
  - exfalso. destruct Hbad as [(t & Hin & Ht)|Hnorow].
    + rewrite Hall in Ht; [discriminate|].
      destruct (tokens_tack_on_adb vendorProp) as [->| ->]; [exact Hin|].
      apply in_or_app. left. exact Hin.
    + rewrite Hrow in Hnorow. discriminate.
  - rewrite Hc. cbn [Z.eqb]. apply Hroll.
Qed.

End Rollback.


(** Runs a straight-line gadget program: unfolds the monad and splits on
    every condition it meets. *)
Ltac run_prims :=
  unfold write_pullup, registerFunctionsAppliedCallback, startMonitor,
    setCurrentUsbFunctionsCb, waitForPullUp, monitor_pullup,
    functionsAppliedCallback, monitor_reset, resetGadget, setVidPid,
    unlinkFunctions, ALOGE, linkFunction, bind, ret, modify in *.

Ltac split_conds :=
  repeat (cbn [fst snd negb Status_eqb andb orb] in *;
          match goal with
          | |- context [if ?c then _ else _] => destruct c eqn:?
          | |- context [match ?x with SUCCESS => _ | _ => _ end] =>
              destruct x eqn:?
          end).

Section Failures.

Variable env : Env.
Variables (functions : Z) (callback : bool) (timeout : Z).
Variable gadgetName : string.

Lemma pullup_or_monitor_fail ffs g :
  fst (pullup_or_monitor env functions callback timeout gadgetName ffs g)
  <> SUCCESS ->
  finish_fields
    (snd (pullup_or_monitor env functions callback timeout gadgetName ffs g))
  = finish_fields g.
Proof.
  unfold pullup_or_monitor. run_prims. split_conds;
    intro H; try reflexivity; contradiction H; reflexivity.
Qed.

Lemma fails_clean_ret s : fails_clean (ret s).
Proof. intros g _. reflexivity. Qed.

Lemma fails_clean_bind {A : Type} (m : M A) (k : A -> M Status) :
  keeps finish_fields m -> (forall a, fails_clean (k a)) ->
  fails_clean (bind m k).
Proof.
  intros Hm Hk g. rewrite bind_run. intro H.
  rewrite (Hk _ _ H). apply Hm.
Qed.

Ltac fails_split :=
  repeat match goal with
         | |- fails_clean (ret _) => apply fails_clean_ret
         | |- fails_clean (bind _ _) => apply fails_clean_bind; [ | intros ]
         | |- fails_clean (if ?c then _ else _) => destruct c
         | |- fails_clean (match ?x with _ => _ end) => destruct x
         end.

Lemma enable_adb_fails_clean ffs i :
  fails_clean (enable_adb env functions callback timeout gadgetName ffs i).
Proof.
  unfold enable_adb. fails_split;
    auto using addAdb_keeps_finish; intro g; apply pullup_or_monitor_fail.
Qed.

Lemma adb_default_fails_clean mtype ffs i :
  fails_clean
    (adb_default env functions callback timeout gadgetName mtype ffs i).
Proof.
  unfold adb_default. fails_split;
    auto using addFunctionsFromPropString_keeps_finish,
      lookupAndSetVidPid_keeps_finish, enable_adb_fails_clean.
Qed.

Lemma adb_override_fails_clean mtype vendorProp ffs i :
  fails_clean
    (adb_override env functions callback timeout gadgetName mtype vendorProp
       ffs i).
Proof.
  unfold adb_override. fails_split;
    auto using addFunctionsFromPropString_keeps_finish,
      lookupAndSetVidPid_keeps_finish, enable_adb_fails_clean,
      adb_default_fails_clean, unlinkFunctions_keeps_finish.
Qed.

End Failures.

Lemma setupFunctions_fails_clean env functions callback timeout :
  fails_clean (setupFunctions env functions callback timeout).
Proof.
  unfold setupFunctions.
  cbv zeta.
  repeat match goal with
         | |- fails_clean (ret _) => apply fails_clean_ret
         | |- fails_clean (bind _ _) => apply fails_clean_bind; [ | intros ]
         | |- fails_clean (if ?c then _ else _) => destruct c
         | |- fails_clean (match ?x with _ => _ end) => destruct x
         end;
    auto using addFunctionsFromPropString_keeps_finish,
      lookupAndSetVidPid_keeps_finish, adb_override_fails_clean,
      linkFunction_keeps_finish, addGeneric_keeps_finish.
Qed.

Section Cycle.

Variable env : Env.
Variables (functions : Z) (callback : bool) (timeout : Z).

(** The state a successful teardown leaves. *)
Lemma tearDownGadget_ok g :
  resetGadget_result env = SUCCESS ->
  fst (tearDownGadget env g) = SUCCESS
  /\ links (snd (tearDownGadget env g)) = []
  /\ vidpid (snd (tearDownGadget env g)) = None
  /\ pullup (snd (tearDownGadget env g)) = "none"
  /\ monitorRunning (snd (tearDownGadget env g)) = false
  /\ mCurrentUsbFunctions (snd (tearDownGadget env g)) = mCurrentUsbFunctions g
  /\ mCurrentUsbFunctionsApplied (snd (tearDownGadget env g))
     = mCurrentUsbFunctionsApplied g
  /\ delivered (snd (tearDownGadget env g)) = delivered g
  /\ errlog (snd (tearDownGadget env g)) = errlog g.
Proof.
  intro H. unfold tearDownGadget. run_prims. rewrite H.
  cbn [Status_eqb negb monitorRunning with_pullup with_vidpid with_links].
  destruct (monitorRunning g) eqn:Hm; cbn; rewrite ?Hm; repeat split.
Qed.

Lemma tearDownGadget_failed g :
  resetGadget_result env <> SUCCESS ->
  tearDownGadget env g = (ERROR, g).
Proof.
  intro H. unfold tearDownGadget. run_prims.
  destruct (resetGadget_result env); try reflexivity. contradiction.
Qed.

(** The cycle, once the teardown has succeeded. *)
Lemma setCurrentUsbFunctions_run st :
  resetGadget_result env = SUCCESS ->
  let g1 := snd (tearDownGadget env (with_functions functions false st)) in
  let v := validateAndSetVidPid env functions g1 in
  let s := setupFunctions env functions callback timeout (snd v) in
  setCurrentUsbFunctions env functions callback timeout st
  = if functions =? GadgetFunction.NONE then
      (SUCCESS,
       if callback then
         with_delivered (delivered g1 ++ [(functions, SUCCESS)])%list g1
       else g1)
    else if negb (Status_eqb (fst v) SUCCESS) then
      error_exit functions callback (fst v) (snd v)
    else if negb (Status_eqb (fst s) SUCCESS) then
      error_exit functions callback (fst s) (snd s)
    else (SUCCESS, snd s).
Proof.
  intro H. cbv zeta.
  unfold setCurrentUsbFunctions, tearDown_and_apply.
  rewrite bind_run. cbn [modify fst snd]. rewrite bind_run.
  destruct (tearDownGadget_ok (with_functions functions false st) H)
    as (Hs & _).
  rewrite Hs. cbn [Status_eqb negb].
  destruct (functions =? GadgetFunction.NONE).
  - destruct callback; reflexivity.
  - rewrite bind_run.
    destruct (negb (Status_eqb (fst (validateAndSetVidPid env functions _))
                      SUCCESS)); [reflexivity|].
    rewrite bind_run.
    destruct (negb (Status_eqb (fst (setupFunctions env functions callback
                                       timeout _)) SUCCESS)); reflexivity.
Qed.

Lemma validateAndSetVidPid_keeps_finish :
  keeps finish_fields (validateAndSetVidPid env functions).
Proof.
  unfold validateAndSetVidPid. cbv zeta.
  keeps_split; apply setVidPid_keeps_finish.
Qed.

Lemma validateAndSetVidPid_keeps_links :
  keeps links (validateAndSetVidPid env functions).
Proof.
  unfold validateAndSetVidPid. cbv zeta.
  keeps_split; apply setVidPid_keeps_links.
Qed.

Lemma error_exit_run s g :
  error_exit functions callback s g
  = (s, if callback then
          with_delivered (delivered g ++ [(functions, s)])%list g
        else g).
Proof. unfold error_exit. run_prims. destruct callback; reflexivity. Qed.

Lemma Status_eqb_eq a b : Status_eqb a b = true <-> a = b.
Proof. destruct a, b; simpl; split; intro; congruence. Qed.

(** The cycle, when the teardown fails. *)
Lemma setCurrentUsbFunctions_teardown_failed st :
  resetGadget_result env <> SUCCESS ->
  setCurrentUsbFunctions env functions callback timeout st
  = error_exit functions callback ERROR (with_functions functions false st).
Proof.
  intro H. unfold setCurrentUsbFunctions, tearDown_and_apply.
  rewrite bind_run, bind_run, tearDownGadget_failed by exact H.
  reflexivity.
Qed.

Lemma reset_cases :
  resetGadget_result env = SUCCESS \/ resetGadget_result env <> SUCCESS.
Proof. destruct (resetGadget_result env); auto; right; discriminate. Qed.

End Cycle.

(** The cycle for [NONE], once the teardown has succeeded. *)
Lemma cycle_none_run env callback timeout st :
  resetGadget_result env = SUCCESS ->
  let r := setCurrentUsbFunctions env GadgetFunction.NONE callback timeout st
  in
  fst r = SUCCESS
  /\ links (snd r) = []
  /\ vidpid (snd r) = None
  /\ monitorRunning (snd r) = false
  /\ mCurrentUsbFunctionsApplied (snd r) = false
  /\ delivered (snd r)
     = (delivered st
        ++ (if callback then [(GadgetFunction.NONE, SUCCESS)] else []))%list
  /\ errlog (snd r) = errlog st.
Proof.
  intros Hreset r. unfold r.
  rewrite (setCurrentUsbFunctions_run env GadgetFunction.NONE callback timeout
             st Hreset).
  cbv zeta. rewrite Z.eqb_refl.
  destruct (tearDownGadget_ok env
              (with_functions GadgetFunction.NONE false st) Hreset)
    as (_ & Hl & Hv & _ & Hm & _ & Ha & Hd & He).
  set (g1 := snd (tearDownGadget env
                    (with_functions GadgetFunction.NONE false st))) in *.
  cbn [delivered with_functions] in Hd. cbn [errlog with_functions] in He.
  cbn [mCurrentUsbFunctionsApplied with_functions] in Ha.
  destruct callback;
    cbn [fst snd links vidpid monitorRunning delivered errlog with_delivered
           mCurrentUsbFunctionsApplied];
    rewrite ?app_nil_r, ?Hd; auto 10.
Qed.


(** After a successful teardown, a cycle that fails leaves the fields of
    the pull-up stage as the teardown left them, and reports its status. *)
Lemma cycle_failed_fields env functions callback timeout st :
  resetGadget_result env = SUCCESS ->
  let r := setCurrentUsbFunctions env functions callback timeout st in
  fst r <> SUCCESS ->
  delivered (snd r)
  = (delivered st ++ (if callback then [(functions, fst r)] else []))%list
  /\ pullup (snd r) = "none"
  /\ mCurrentUsbFunctionsApplied (snd r) = false
  /\ monitorRunning (snd r) = false.
Proof.
  intros Hreset. cbv zeta.
  rewrite (setCurrentUsbFunctions_run env functions callback timeout st Hreset).
  cbv zeta.
  destruct (tearDownGadget_ok env (with_functions functions false st) Hreset)
    as (_ & _ & _ & Hp & Hm & _ & Ha & Hd & _).
  set (g1 := snd (tearDownGadget env (with_functions functions false st))) in *.
  cbn in Ha, Hd.
  assert (Hg1 : finish_fields g1
                = (mCurrentUsbFunctions g1, false, false, monitorCallback g1,
                   "none", delivered st)).
  { unfold finish_fields. rewrite Hp, Hm, Ha, Hd. reflexivity. }
  assert (Hfin : forall s g,
             finish_fields g = finish_fields g1 ->
             let r := error_exit functions callback s g in
             delivered (snd r)
             = (delivered st
                ++ (if callback then [(functions, fst r)] else []))%list
             /\ pullup (snd r) = "none"
             /\ mCurrentUsbFunctionsApplied (snd r) = false
             /\ monitorRunning (snd r) = false).
  { intros s g Hg. cbv zeta. rewrite error_exit_run. rewrite Hg1 in Hg.
    unfold finish_fields in Hg. injection Hg as H1 H2 H3 H4 H5 H6.
    destruct callback; cbn; rewrite ?app_nil_r;
      repeat split; congruence. }
  destruct (functions =? GadgetFunction.NONE);
    [intro H; contradiction H; reflexivity|].
  pose proof (validateAndSetVidPid_keeps_finish env functions g1) as Hv.
  destruct (negb (Status_eqb (fst (validateAndSetVidPid env functions g1))
                    SUCCESS)) eqn:E1.
  - intros _. apply Hfin, Hv.
  - destruct (negb (Status_eqb
                      (fst (setupFunctions env functions callback timeout
                              (snd (validateAndSetVidPid env functions g1))))
                      SUCCESS)) eqn:E2.
    + intros _. apply Hfin. rewrite <- Hv.
      apply setupFunctions_fails_clean.
      intro Hs. rewrite Hs in E2. discriminate.
    + intro H; contradiction H; reflexivity.
Qed.

Section Branches.

Variable env : Env.
Variables (functions : Z) (callback : bool) (timeout : Z).

Lemma rndis_adb_composition_links mtype :
  (composition_links env (tokens (rndis_adb_composition mtype)) 0
   ++ [mkLinked "adb" "ffs.adb"
         (Z.of_nat
            (length
               (composition_links env (tokens (rndis_adb_composition mtype))
                  0)))])%list
  = linked_in_order env (tokens (rndis_adb_composition mtype)).
Proof. destruct mtype; reflexivity. Qed.

Lemma rndis_adb_composition_nonempty mtype :
  composition_links env (tokens (rndis_adb_composition mtype)) 0 <> [].
Proof. destruct mtype; discriminate. Qed.

(** With something already linked, the override of ADB alone is skipped. *)
Lemma adb_override_skip gadgetName mtype vendorProp ffs i :
  (i =? 0) = false ->
  adb_override env functions callback timeout gadgetName mtype vendorProp
    ffs i
  = enable_adb env functions callback timeout gadgetName ffs i.
Proof. intro H. unfold adb_override. rewrite H. reflexivity. Qed.

(** The RNDIS+ADB branch, from an empty configuration. *)
Lemma rndis_adb_run g :
  Z.land functions GadgetFunction.RNDIS <> 0 ->
  Z.land functions GadgetFunction.ADB <> 0 ->
  links g = [] ->
  let r := setupFunctions env functions callback timeout g in
  fst r = SUCCESS ->
  links (snd r)
  = linked_in_order env (tokens (rndis_adb_composition (getModemType env)))
  /\ vidpid (snd r)
     = map_find supported_compositions
         (rndis_adb_composition (getModemType env)).
Proof.
  intros Hrndis Hadb Hg. cbv zeta. unfold setupFunctions.
  destruct (empty (GetProperty env USB_CONTROLLER_PROP ""));
    [discriminate|].
  pose proof Hadb as Hadb'.
  apply Z.eqb_neq in Hrndis, Hadb'. rewrite Hrndis, Hadb'. cbn [negb].
  set (comp := rndis_adb_composition (getModemType env)).
  rewrite bind_run, addFunctionsFromPropString_tokens.
  destruct (addFunctions_tokens_links env (tokens comp) 0 g)
    as (done & rest & H1 & H2 & H3).
  rewrite Hg in H1. cbn [app] in H1.
  destruct (addFunctions_tokens env (tokens comp) 0 false g)
    as [[r i'] g1] eqn:Hrun.
  cbn [fst snd] in *.
  destruct (r =? 0) eqn:Hr; cbn [negb]; [|discriminate].
  apply Z.eqb_eq in Hr. destruct (H3 Hr) as (-> & Hi' & _).
  rewrite app_nil_r in H2.
  pose proof (rndis_adb_composition_links (getModemType env)) as Hfull.
  pose proof (rndis_adb_composition_nonempty (getModemType env)) as Hne.
  fold comp in Hfull, Hne. rewrite H2 in Hfull, Hne.
  rewrite bind_run.
  pose proof (lookupAndSetVidPid_keeps_links env comp g1) as Hk.
  destruct (lookupAndSetVidPid_result env comp g1)
    as [(Hc & _ & Hv & _)|(Hc & _)]; rewrite Hc; cbn [Z.eqb negb];
    [|discriminate].
  rewrite adb_override_skip.
  - rewrite enable_adb_keeps_vidpid.
    destruct (enable_adb_links env functions callback timeout
                (GetProperty env USB_CONTROLLER_PROP "") false i'
                (snd (lookupAndSetVidPid env comp g1)) Hadb)
      as [[_ Hs]|Hl]; [intro; contradiction|].
    intros _. rewrite Hl, Hk, H1, Hi'. cbn [Z.add].
    split; [exact Hfull | exact Hv].
  - rewrite Hi'. apply Z.eqb_neq. destruct done; [contradiction|].
    cbn [length]. lia.
Qed.

(** The branch of ADB alone, from an empty configuration: the VID/PID of a
    successful run is the row of the override string or of the default
    composition. *)
Lemma adb_only_vidpid gadgetName mtype vendorProp ffs g :
  Z.land functions GadgetFunction.ADB <> 0 ->
  links g = [] ->
  let r := adb_override env functions callback timeout gadgetName mtype
             vendorProp ffs 0 g in
  fst r = SUCCESS ->
  (empty vendorProp = false
   /\ map_count supported_compositions (tack_on_adb vendorProp) = true
   /\ vidpid (snd r)
      = map_find supported_compositions (tack_on_adb vendorProp))
  \/ vidpid (snd r) = map_find supported_compositions (adb_composition mtype).
Proof.
  intros Hadb Hg. cbv zeta. unfold adb_override.
  pose proof Hadb as Hadb'. apply Z.eqb_neq in Hadb'.
  rewrite Hadb'. cbn [Z.eqb negb andb].
  destruct (empty vendorProp) eqn:Hne; cbn [negb].
  - intro Hs. right.
    apply (adb_default_run env functions callback timeout gadgetName mtype
             ffs g Hadb Hg), Hs.
  - rewrite bind_run, addFunctionsFromPropString_tokens.
    destruct (addFunctions_tokens env (tokens (tack_on_adb vendorProp)) 0
                false g) as [[r i'] g1].
    cbn [fst snd].
    assert (Hroll : forall g2,
      fst ((unlinkFunctions ;;;
            adb_default env functions callback timeout gadgetName mtype ffs 0)
             g2) = SUCCESS ->
      vidpid (snd ((unlinkFunctions ;;;
            adb_default env functions callback timeout gadgetName mtype ffs 0)
             g2))
      = map_find supported_compositions (adb_composition mtype)).
    { intro g2. rewrite bind_run. intro Hs.
      apply (adb_default_run env functions callback timeout gadgetName mtype
               ffs _ Hadb); [reflexivity | exact Hs]. }
    destruct (r =? 0); [|intro; right; apply Hroll; assumption].
    rewrite bind_run.
    destruct (lookupAndSetVidPid_result env (tack_on_adb vendorProp) g1)
      as [(Hc & Hrow & Hv & _)|(Hc & _)]; rewrite Hc; cbn [Z.eqb].
    + intros _. left. rewrite enable_adb_keeps_vidpid. auto.
    + intro; right; apply Hroll; assumption.
Qed.

Lemma setVidPid_ok vid pid g :
  fst (setVidPid env vid pid g) = SUCCESS ->
  vidpid (snd (setVidPid env vid pid g)) = Some (vid, pid).
Proof.
  unfold setVidPid. destruct (setVidPid_result env vid pid);
    try discriminate. reflexivity.
Qed.

End Branches.

(** The branch of RNDIS alone commits no VID/PID. *)
Lemma rndis_only_keeps_vidpid env callback timeout :
  keeps vidpid (setupFunctions env GadgetFunction.RNDIS callback timeout).
Proof.
  intro g. unfold setupFunctions.
  destruct (empty (GetProperty env USB_CONTROLLER_PROP ""));
    [reflexivity|].
  change (Z.land GadgetFunction.RNDIS GadgetFunction.RNDIS =? 0) with false.
  change (Z.land GadgetFunction.RNDIS GadgetFunction.ADB =? 0) with true.
  cbn [negb]. rewrite bind_run.
  destruct (negb (fst (linkFunction env "rndis" (rndisFuncname env) 0 g)
                  =? 0)).
  - apply linkFunction_keeps_vidpid.
  - rewrite adb_override_skip by reflexivity.
    rewrite enable_adb_keeps_vidpid. apply linkFunction_keeps_vidpid.
Qed.


Section Endgame.

Variable env : Env.
Variables (functions : Z) (callback : bool) (timeout : Z).
Variable gadgetName : string.

Local Abbreviation ends_in_pullup :=
  (ends_in_pullup env functions callback timeout gadgetName).

Lemma ends_in_pullup_error : ends_in_pullup (ret ERROR).
Proof. intros g H. discriminate. Qed.

Lemma ends_in_pullup_bind {A : Type} (m : M A) (k : A -> M Status) :
  keeps finish_fields m -> (forall a, ends_in_pullup (k a)) ->
  ends_in_pullup (bind m k).
Proof.
  intros Hm Hk g. rewrite bind_run. intro H.
  destruct (Hk _ _ H) as (ffs & g2 & H1 & H2).
  exists ffs, g2. split; [rewrite H1; apply Hm | exact H2].
Qed.

Lemma ends_in_pullup_self ffs :
  ends_in_pullup
    (pullup_or_monitor env functions callback timeout gadgetName ffs).
Proof. intros g _. exists ffs, g. split; reflexivity. Qed.

Ltac ends_split :=
  repeat match goal with
         | |- ends_in_pullup (ret ERROR) => apply ends_in_pullup_error
         | |- ends_in_pullup (pullup_or_monitor _ _ _ _ _ _) =>
             apply ends_in_pullup_self
         | |- ends_in_pullup (bind _ _) =>
             apply ends_in_pullup_bind; [ | intros ]
         | |- ends_in_pullup (if ?c then _ else _) => destruct c
         | |- ends_in_pullup (match ?x with _ => _ end) => destruct x
         end.

Lemma enable_adb_ends ffs i :
  ends_in_pullup
    (enable_adb env functions callback timeout gadgetName ffs i).
Proof.
  unfold enable_adb. ends_split. apply addAdb_keeps_finish.
Qed.

Lemma adb_default_ends mtype ffs i :
  ends_in_pullup
    (adb_default env functions callback timeout gadgetName mtype ffs i).
Proof.
  unfold adb_default. ends_split;
    auto using addFunctionsFromPropString_keeps_finish,
      lookupAndSetVidPid_keeps_finish, enable_adb_ends.
Qed.

Lemma adb_override_ends mtype vendorProp ffs i :
  ends_in_pullup
    (adb_override env functions callback timeout gadgetName mtype vendorProp
       ffs i).
Proof.
  unfold adb_override. ends_split;
    auto using addFunctionsFromPropString_keeps_finish,
      lookupAndSetVidPid_keeps_finish, enable_adb_ends, adb_default_ends,
      unlinkFunctions_keeps_finish.
Qed.

(** What [pullup_or_monitor] does to the fields it owns, from a state in
    which the monitor is stopped and the applied flag false. *)
Lemma pullup_or_monitor_outcome ffs g :
  monitorRunning g = false ->
  mCurrentUsbFunctionsApplied g = false ->
  let r := pullup_or_monitor env functions callback timeout gadgetName ffs g
  in
  mCurrentUsbFunctions (snd r) = mCurrentUsbFunctions g
  /\ (mCurrentUsbFunctionsApplied (snd r) = true ->
      fst r = SUCCESS
      /\ delivered (snd r)
         = (delivered g
            ++ (if callback then [(functions, SUCCESS)] else []))%list)
  /\ (fst r = SUCCESS -> monitorRunning (snd r) = true -> callback = true ->
      waitForPullUp_result env timeout = false ->
      mCurrentUsbFunctionsApplied (snd r) = false
      /\ monitorCallback (snd r) = true
      /\ delivered (snd r) = (delivered g ++ [(functions, ERROR)])%list).
Proof.
  intros Hm Ha. cbv zeta. unfold pullup_or_monitor. run_prims.
  destruct ffs, callback; cbn [negb];
    try destruct (pullup_write_ok env);
    try destruct (waitForPullUp_result env timeout);
    cbn; rewrite ?Hm, ?Ha, ?app_nil_r;
    repeat split; intros; try reflexivity; try congruence.
Qed.

Lemma pullup_or_monitor_current ffs g :
  mCurrentUsbFunctions
    (snd (pullup_or_monitor env functions callback timeout gadgetName ffs g))
  = mCurrentUsbFunctions g.
Proof.
  unfold pullup_or_monitor. run_prims.
  destruct ffs, callback; cbn [negb];
    try destruct (pullup_write_ok env);
    try destruct (waitForPullUp_result env timeout);
    try destruct (monitorRunning g); reflexivity.
Qed.

End Endgame.

Lemma setupFunctions_ends env functions callback timeout :
  ends_in_pullup env functions callback timeout
    (GetProperty env USB_CONTROLLER_PROP "")
    (setupFunctions env functions callback timeout).
Proof.
  unfold setupFunctions. cbv zeta.
  repeat match goal with
         | |- ends_in_pullup _ _ _ _ _ (ret ERROR) =>
             apply ends_in_pullup_error
         | |- ends_in_pullup _ _ _ _ _ (bind _ _) =>
             apply ends_in_pullup_bind; [ | intros ]
         | |- ends_in_pullup _ _ _ _ _ (if ?c then _ else _) => destruct c
         | |- ends_in_pullup _ _ _ _ _ (match ?x with _ => _ end) =>
             destruct x
         end;
    auto using addFunctionsFromPropString_keeps_finish,
      lookupAndSetVidPid_keeps_finish, adb_override_ends,
      linkFunction_keeps_finish, addGeneric_keeps_finish.
Qed.

(** A cycle that succeeds went through a successful teardown, validation
    and [setupFunctions], whose final state is the cycle's. *)
Lemma cycle_success env functions callback timeout st :
  let r := setCurrentUsbFunctions env functions callback timeout st in
  let g1 := snd (tearDownGadget env (with_functions functions false st)) in
  let v := validateAndSetVidPid env functions g1 in
  let s := setupFunctions env functions callback timeout (snd v) in
  fst r = SUCCESS ->
  (functions =? GadgetFunction.NONE) = false ->
  resetGadget_result env = SUCCESS
  /\ fst v = SUCCESS /\ fst s = SUCCESS /\ snd r = snd s.
Proof.
  cbv zeta. intros Hs Hf.
  destruct (Status_eqb (resetGadget_result env) SUCCESS) eqn:Hreset.
  - apply Status_eqb_eq in Hreset. split; [exact Hreset|].
    rewrite (setCurrentUsbFunctions_run env functions callback timeout st
               Hreset) in *.
    cbv zeta in *. rewrite Hf in *.
    destruct (Status_eqb (fst (validateAndSetVidPid env functions _)) SUCCESS)
      eqn:E1; cbn [negb] in *.
    + destruct (Status_eqb (fst (setupFunctions env functions callback
                                   timeout _)) SUCCESS) eqn:E2;
        cbn [negb] in *.
      * apply Status_eqb_eq in E1, E2. auto.
      * rewrite error_exit_run in Hs. cbn [fst] in Hs.
        rewrite Hs in E2. discriminate.
    + rewrite error_exit_run in Hs. cbn [fst] in Hs.
      rewrite Hs in E1. discriminate.
  - exfalso. unfold setCurrentUsbFunctions, tearDown_and_apply in Hs.
    rewrite bind_run, bind_run in Hs.
    rewrite tearDownGadget_failed in Hs.
    + cbn [fst snd Status_eqb negb] in Hs. rewrite error_exit_run in Hs.
      discriminate.
    + intro H. rewrite H in Hreset. discriminate.
Qed.

(** ** Searching strings, and the modem type *)

Lemma prefix_app sub post : String.prefix sub (sub ++ post) = true.
Proof.
  induction sub as [|c sub IH]; [destruct post; reflexivity|].
  change (String c sub ++ post)%string with (String c (sub ++ post)).
  cbn [String.prefix]. destruct (ascii_dec c c); [exact IH | contradiction].
Qed.

Lemma find_from_complete sub post pre : forall pos,
  exists n, find_from sub (pre ++ sub ++ post) pos = Some n
            /\ (n <= pos + String.length pre)%nat.
Proof.
  induction pre as [|c pre IH]; intro pos.
  - change ("" ++ sub ++ post)%string with (sub ++ post)%string.
    exists pos. split; [|simpl; lia].
    destruct (sub ++ post)%string eqn:E; cbn [find_from];
      rewrite <- E, prefix_app; reflexivity.
  - change (String c pre ++ sub ++ post)%string
      with (String c (pre ++ sub ++ post)).
    cbn [find_from].
    destruct (String.prefix sub (String c (pre ++ sub ++ post))).
    + exists pos. split; [reflexivity | lia].
    + destruct (IH (S pos)) as (n & Hn & Hle).
      exists n. split; [exact Hn | simpl; lia].
Qed.

Lemma find_contains s sub :
  str_length s < npos -> contains s sub -> find s sub <> npos.
Proof.
  intros Hlen (pre & post & ->). unfold find.
  destruct (find_from_complete sub post pre 0) as (n & -> & Hle).
  unfold size_t_of, str_length in *.
  rewrite !length_append in Hlen. lia.
Qed.

Lemma find_last_of_last c s : forall pos,
  last_char s = Some c ->
  find_last_of_from c s pos = Some (pos + String.length s - 1)%nat.
Proof.
  induction s as [|d s IH]; intros pos H; [discriminate|].
  cbn [find_last_of_from]. destruct s as [|e s].
  - injection H as ->. cbn. rewrite Ascii.eqb_refl. f_equal. lia.
  - rewrite (IH (S pos) H). f_equal. cbn [String.length]. lia.
Qed.

Lemma last_char_length c s : last_char s = Some c -> (1 <= String.length s)%nat.
Proof. destruct s; [discriminate | simpl; lia]. Qed.

Lemma scan_esoc_cases entries :
  scan_esoc entries = INTERNAL \/ scan_esoc entries = EXTERNAL.
Proof.
  induction entries as [|[d_name content] rest IH]; cbn [scan_esoc]; auto.
  destruct (String.prefix "." d_name); auto.
  destruct content as [esoc_name|]; auto.
  destruct (negb (find esoc_name "MDM" =? npos)
            || negb (find esoc_name "SDX" =? npos)); auto.
Qed.


Lemma count_func_no_adb pre :
  Forall no_adb pre -> count_func "adb" pre = 0%nat.
Proof.
  unfold count_func. induction 1 as [|x l Hx _ IH]; [reflexivity|].
  cbn [filter]. apply String.eqb_neq in Hx. rewrite Hx. exact IH.
Qed.


Lemma validateAndSetVidPid_rejects env functions g :
  generic_combination functions = false ->
  validateAndSetVidPid env functions g = (CONFIGURATION_NOT_SUPPORTED, g).
Proof.
  unfold generic_combination, validateAndSetVidPid. cbv zeta.
  cbn [existsb]. intro H.
  repeat (apply orb_false_iff in H; destruct H as [-> H]).
  reflexivity.
Qed.

Lemma adb_only_setup env callback timeout g :
  g_linked (generic_result env GadgetFunction.ADB) = [] ->
  links g = [] ->
  let r := setupFunctions env GadgetFunction.ADB callback timeout g in
  let vendorProp :=
    GetProperty env VENDOR_USB_PROP
      (GetProperty env PERSIST_VENDOR_USB_PROP "") in
  fst r = SUCCESS ->
  vidpid (snd r) = map_find supported_compositions (tack_on_adb vendorProp)
  \/ vidpid (snd r)
     = map_find supported_compositions (adb_composition (getModemType env)).
Proof.
  intros Hgl Hg. cbv zeta. unfold setupFunctions.
  destruct (empty (GetProperty env USB_CONTROLLER_PROP ""));
    [discriminate|].
  change (Z.land GadgetFunction.ADB GadgetFunction.RNDIS =? 0) with true.
  cbn [negb]. rewrite bind_run. unfold addGenericAndroidFunctions.
  rewrite Hgl. cbn [fst snd length Z.of_nat Z.add link_generic].
  destruct (Status_eqb (g_status _) SUCCESS); cbn [negb]; [|discriminate].
  intro Hs.
  match type of Hs with
  | fst (adb_override _ _ _ _ ?n ?m ?v ?f _ ?g) = _ =>
      destruct (adb_only_vidpid env GadgetFunction.ADB callback timeout
                  n m v f g) as [(_ & _ & H)|H]
  end; auto; discriminate.
Qed.


Lemma keeps_current_of_finish {A : Type} (m : M A) :
  keeps finish_fields m -> keeps mCurrentUsbFunctions m.
Proof.
  intros H g. specialize (H g). unfold finish_fields in H. congruence.
Qed.

Section CurrentFunctions.

Variable env : Env.
Variables (functions : Z) (callback : bool) (timeout : Z).

Lemma pullup_or_monitor_keeps_current gadgetName ffs :
  keeps mCurrentUsbFunctions
    (pullup_or_monitor env functions callback timeout gadgetName ffs).
Proof.
  intro g.
  apply (pullup_or_monitor_current env functions callback timeout gadgetName).
Qed.

Lemma enable_adb_keeps_current gadgetName ffs i :
  keeps mCurrentUsbFunctions
    (enable_adb env functions callback timeout gadgetName ffs i).
Proof.
  unfold enable_adb. keeps_split;
    auto using keeps_current_of_finish, addAdb_keeps_finish,
      pullup_or_monitor_keeps_current.
Qed.

Lemma adb_default_keeps_current gadgetName mtype ffs i :
  keeps mCurrentUsbFunctions
    (adb_default env functions callback timeout gadgetName mtype ffs i).
Proof.
  unfold adb_default. keeps_split;
    auto using keeps_current_of_finish, addFunctionsFromPropString_keeps_finish,
      lookupAndSetVidPid_keeps_finish, enable_adb_keeps_current.
Qed.

Lemma adb_override_keeps_current gadgetName mtype vendorProp ffs i :
  keeps mCurrentUsbFunctions
    (adb_override env functions callback timeout gadgetName mtype vendorProp
       ffs i).
Proof.
  unfold adb_override. keeps_split;
    auto using keeps_current_of_finish, addFunctionsFromPropString_keeps_finish,
      lookupAndSetVidPid_keeps_finish, enable_adb_keeps_current,
      adb_default_keeps_current, unlinkFunctions_keeps_finish.
Qed.

Lemma setupFunctions_keeps_current :
  keeps mCurrentUsbFunctions (setupFunctions env functions callback timeout).
Proof.
  unfold setupFunctions. cbv zeta. keeps_split;
    auto using keeps_current_of_finish, addFunctionsFromPropString_keeps_finish,
      lookupAndSetVidPid_keeps_finish, adb_override_keeps_current,
      linkFunction_keeps_finish, addGeneric_keeps_finish.
Qed.

Lemma tearDownGadget_keeps_current :
  keeps mCurrentUsbFunctions (tearDownGadget env).
Proof.
  intro g. destruct (reset_cases env) as [H|H].
  - apply (tearDownGadget_ok env g H).
  - rewrite tearDownGadget_failed by exact H. reflexivity.
Qed.

Lemma error_exit_keeps_current s :
  keeps mCurrentUsbFunctions (error_exit functions callback s).
Proof. intro g. rewrite error_exit_run. destruct callback; reflexivity. Qed.

Lemma tearDown_and_apply_keeps_current :
  keeps mCurrentUsbFunctions
    (tearDown_and_apply env functions callback timeout).
Proof.
  unfold tearDown_and_apply. keeps_split;
    auto using tearDownGadget_keeps_current, error_exit_keeps_current,
      setupFunctions_keeps_current, keeps_current_of_finish,
      validateAndSetVidPid_keeps_finish;
    unfold setCurrentUsbFunctionsCb; keeps_prim.
Qed.

(** The fields that [pullup_or_monitor] starts from in a cycle whose
    teardown succeeded. *)
Lemma cycle_reaches_pullup st :
  let r := setCurrentUsbFunctions env functions callback timeout st in
  fst r = SUCCESS ->
  (functions =? GadgetFunction.NONE) = false ->
  exists ffs g2,
    mCurrentUsbFunctionsApplied g2 = false
    /\ monitorRunning g2 = false
    /\ delivered g2 = delivered st
    /\ r = pullup_or_monitor env functions callback timeout
             (GetProperty env USB_CONTROLLER_PROP "") ffs g2.
Proof.
  intros r Hs Hf. unfold r in *.
  destruct (cycle_success env functions callback timeout st Hs Hf)
    as (Hreset & _ & Hsetup & Hfinal).
  destruct (setupFunctions_ends env functions callback timeout _ Hsetup)
    as (ffs & g2 & Hfields & Hrun).
  rewrite validateAndSetVidPid_keeps_finish in Hfields.
  destruct (tearDownGadget_ok env (with_functions functions false st) Hreset)
    as (_ & _ & _ & _ & Hm & Hc & Ha & Hd & _).
  unfold finish_fields in Hfields. injection Hfields as H1 H2 H3 H4 H5 H6.
  cbn [with_functions mCurrentUsbFunctionsApplied delivered] in Ha, Hd.
  exists ffs, g2.
  split; [congruence|]. split; [congruence|]. split; [congruence|].
  rewrite <- Hrun.
  apply injective_projections; [congruence | exact Hfinal].
Qed.


End CurrentFunctions.


Lemma lookupAndSetVidPid_supported env prop g :
  map_count supported_compositions prop = true ->
  errlog (snd (lookupAndSetVidPid env prop g)) = errlog g
  /\ ((forall vid pid, setVidPid_result env vid pid = SUCCESS) ->
      fst (lookupAndSetVidPid env prop g) = 0).
Proof.
  unfold map_count, lookupAndSetVidPid.
  destruct (map_find supported_compositions prop) as [[vid pid]|];
    [|discriminate].
  intros _. rewrite bind_run. unfold setVidPid. split.
  - destruct (setVidPid_result env vid pid); reflexivity.
  - intro H. rewrite H. reflexivity.
Qed.


(** ** When nothing fails outside *)

Section RollbackSucceeds.

Variable env : Env.
Variables (functions : Z) (callback : bool) (timeout : Z).
Variable gadgetName : string.

Hypothesis Hadb : Z.land functions GadgetFunction.ADB <> 0.
Hypothesis Hlink : forall node k, link_fails env node k = false.
Hypothesis Hvidpid : forall vid pid, setVidPid_result env vid pid = SUCCESS.
Hypothesis Hprepare : adb_prepare_ok env = true.
Hypothesis Hendpoints : adb_endpoints_ok env = true.

(** With ADB the pull-up is left to the monitor, and [setupFunctions] has
    nothing left that can fail. *)
Lemma enable_adb_succeeds ffs i g :
  fst (enable_adb env functions callback timeout gadgetName ffs i g)
  = SUCCESS.
Proof.
  unfold enable_adb. apply Z.eqb_neq in Hadb. rewrite Hadb. cbn [negb].
  rewrite bind_run. unfold addAdb. rewrite Hprepare. cbn [negb].
  rewrite bind_run. unfold linkFunction. rewrite Hlink.
  cbn [fst snd Z.eqb negb]. rewrite Hendpoints.
  cbn [negb ret fst snd Status_eqb].
  unfold pullup_or_monitor. cbn [negb]. run_prims.
  destruct callback; [destruct (waitForPullUp_result env timeout)|];
    reflexivity.
Qed.

Lemma adb_default_succeeds mtype ffs i g :
  fst (adb_default env functions callback timeout gadgetName mtype ffs i g)
  = SUCCESS.
Proof.
  unfold adb_default. cbv zeta.
  assert (Htok : forallb (map_count supported_funcs)
                   (tokens (adb_composition mtype)) = true)
    by (destruct mtype; reflexivity).
  assert (Hrow : map_count supported_compositions (adb_composition mtype)
                 = true)
    by (destruct mtype; reflexivity).
  rewrite bind_run, addFunctionsFromPropString_tokens.
  destruct (addFunctions_tokens_supported env
              (tokens (adb_composition mtype)) i g Htok) as [_ H0].
  specialize (H0 Hlink).
  destruct (addFunctions_tokens env (tokens (adb_composition mtype)) i false
              g) as [[r i'] g1].
  cbn [fst snd] in *. subst r. cbn [Z.eqb negb].
  rewrite bind_run.
  destruct (lookupAndSetVidPid_supported env (adb_composition mtype) g1 Hrow)
    as [_ H1].
  rewrite (H1 Hvidpid). cbn [Z.eqb negb].
  apply enable_adb_succeeds.
Qed.

(** A failed override attempt, on a device on which nothing else fails:
    [setupFunctions] goes on to succeed. *)
Lemma adb_override_rollback_succeeds mtype vendorProp ffs g :
  empty vendorProp = false ->
  (exists t, In t (tokens vendorProp) /\ map_count supported_funcs t = false)
  \/ map_count supported_compositions (tack_on_adb vendorProp) = false ->
  fst (adb_override env functions callback timeout gadgetName mtype
         vendorProp ffs 0 g) = SUCCESS.
Proof.
  intros Hne Hbad. unfold adb_override.
  pose proof Hadb as Hadb'. apply Z.eqb_neq in Hadb'.
  rewrite Hadb', Hne. cbn [Z.eqb negb andb]. cbv zeta.
  rewrite bind_run, addFunctionsFromPropString_tokens.
  destruct (addFunctions_tokens_links env (tokens (tack_on_adb vendorProp)) 0 g)
    as (done & rest & _ & _ & H3).
  destruct (addFunctions_tokens env (tokens (tack_on_adb vendorProp)) 0 false g)
    as [[r i'] g1] eqn:Hrun.
  cbn [fst snd] in *.
  destruct (r =? 0) eqn:Hr;
    [|rewrite bind_run; apply adb_default_succeeds].
  apply Z.eqb_eq in Hr. destruct (H3 Hr) as (_ & _ & _ & Hall).
  rewrite bind_run.
  destruct (lookupAndSetVidPid_result env (tack_on_adb vendorProp) g1)
    as [(_ & Hrow & _)|(Hc & _)].
  - exfalso. destruct Hbad as [(t & Hin & Ht)|Hnorow].
    + rewrite Hall in Ht; [discriminate|].
      destruct (tokens_tack_on_adb vendorProp) as [->| ->]; [exact Hin|].
      apply in_or_app. left. exact Hin.
    + rewrite Hrow in Hnorow. discriminate.
  - rewrite Hc. cbn [Z.eqb]. rewrite bind_run. apply adb_default_succeeds.
Qed.

End RollbackSucceeds.

(** ** The monitor after the cycle *)




(** ** The properties *)

(** C1.  When ADB is requested and [setupFunctions] succeeds (from the
    empty configuration that the teardown leaves, and with a generic helper
    that does not link ADB itself), exactly one link was made for ADB: the
    node "ffs.adb", last in link order and at the index that follows all
    the others.  No link comes from an "adb" token of a composition string,
    whatever the default or the vendor override string is. *)
Theorem adb_linked_once_and_last env functions callback timeout st :
  Z.land functions GadgetFunction.ADB <> 0 ->
  links st = [] ->
  Forall (fun p => fst p <> "adb") (g_linked (generic_result env functions)) ->
  let r := setupFunctions env functions callback timeout st in
  fst r = SUCCESS ->
  count_func "adb" (links (snd r)) = 1%nat
  /\ exists pre,
       links (snd r)
       = (pre ++ [mkLinked "adb" "ffs.adb" (Z.of_nat (length pre))])%list
       /\ Forall (fun l => l_func l <> "adb") pre.
Proof.
  intros Hadb Hst Hgen r Hs.
  destruct (setupFunctions_adb_last env functions callback timeout Hadb Hgen
              st Hst Hs) as (pre & Hl & Hpre).
  fold r in Hl. split; [|exists pre; split; assumption].
  rewrite Hl. unfold count_func. rewrite filter_app, length_app.
  fold (count_func "adb" pre). rewrite (count_func_no_adb pre Hpre).
  reflexivity.
Qed.

(** ADB alone with the override "diag,qdss": the override is linked, then
    ADB, once and last. *)
Lemma adb_linked_once_and_last_witness :
  let r := setupFunctions (sample_env "diag,qdss") GadgetFunction.ADB true 0
             idle_gadget in
  count_func "adb" (links (snd r)) = 1%nat
  /\ exists pre,
       links (snd r)
       = (pre ++ [mkLinked "adb" "ffs.adb" (Z.of_nat (length pre))])%list
       /\ Forall (fun l => l_func l <> "adb") pre.
Proof.
  apply (adb_linked_once_and_last (sample_env "diag,qdss") GadgetFunction.ADB
           true 0 idle_gadget).
  - vm_compute. discriminate.
  - reflexivity.
  - constructor.
  - reflexivity.
Defined.

(** C2.  A vendor override (non-empty) that names a function missing from
    the function-name table, or whose looked-up string (the property, with
    ",adb" tacked on when "adb" does not occur in it) has no row in the
    composition table, leaves no residue.  Whatever [setupFunctions] has
    linked at the end is a prefix of the default composition of the modem
    type, also when a link, the VID/PID commit or the ADB set-up fails on
    the way; it is the whole of it, with its VID/PID, whenever
    [setupFunctions] succeeds; and [setupFunctions] does succeed, with the
    whole default linked, on a device on which no link, no VID/PID commit
    and no step of the ADB set-up fails. *)
Theorem override_rollback_to_default env functions callback timeout st :
  let vendorProp :=
    GetProperty env VENDOR_USB_PROP
      (GetProperty env PERSIST_VENDOR_USB_PROP "") in
  let default := tokens (adb_composition (getModemType env)) in
  empty (GetProperty env USB_CONTROLLER_PROP "") = false ->
  Z.land functions GadgetFunction.RNDIS = 0 ->
  Z.land functions GadgetFunction.ADB <> 0 ->
  g_status (generic_result env functions) = SUCCESS ->
  g_linked (generic_result env functions) = [] ->
  empty vendorProp = false ->
  (exists t, In t (tokens vendorProp) /\ map_count supported_funcs t = false)
  \/ map_count supported_compositions (tack_on_adb vendorProp) = false ->
  let r := setupFunctions env functions callback timeout st in
  (exists rest, linked_in_order env default = (links (snd r) ++ rest)%list)
  /\ (fst r = SUCCESS ->
      links (snd r) = linked_in_order env default
      /\ vidpid (snd r)
         = map_find supported_compositions
             (adb_composition (getModemType env)))
  /\ ((forall node k, link_fails env node k = false) ->
      (forall vid pid, setVidPid_result env vid pid = SUCCESS) ->
      adb_prepare_ok env = true ->
      adb_endpoints_ok env = true ->
      fst r = SUCCESS
      /\ links (snd r) = linked_in_order env default
      /\ vidpid (snd r)
         = map_find supported_compositions
             (adb_composition (getModemType env))).
Proof.
  intros vendorProp default Hname Hrndis Hadb Hgs Hgl Hne Hbad.
  cbv zeta. unfold setupFunctions.
  rewrite Hname, Hrndis. cbn [Z.eqb negb].
  rewrite bind_run. unfold addGenericAndroidFunctions.
  rewrite Hgs, Hgl. cbn [fst snd length Z.of_nat Z.add Status_eqb negb].
  match goal with
  | |- context [adb_override ?e ?f ?c ?t ?n ?m ?v ?b 0 ?g] =>
      pose proof (adb_override_rollback e f c t n m v b g Hadb Hne Hbad)
        as Hroll;
      pose proof (fun H1 H2 H3 H4 =>
                    adb_override_rollback_succeeds e f c t n Hadb H1 H2 H3 H4
                      m v b g Hne Hbad) as Hok;
      set (r := adb_override e f c t n m v b 0 g) in *
  end.
  cbv zeta in Hroll. destruct Hroll as [Hpre Hall].
  split; [exact Hpre|]. split; [exact Hall|].
  intros H1 H2 H3 H4. specialize (Hok H1 H2 H3 H4).
  split; [exact Hok | exact (Hall Hok)].
Qed.

(** ADB alone with the override "ccid,foo" on a device with an internal
    modem on which nothing fails: "ccid" is linked, "foo" is not a function
    and is logged, "ccid" is unlinked again, and [setupFunctions] succeeds
    with the default composition linked, ADB last, under the VID/PID of the
    default. *)
Lemma override_rollback_to_default_witness :
  let env := sample_env "ccid,foo" in
  let r := setupFunctions env GadgetFunction.ADB true 0 idle_gadget in
  fst r = SUCCESS
  /\ links (snd r)
     = [ mkLinked "diag" "diag.diag" 0;
         mkLinked "serial_cdev" "cser.dun.0" 1;
         mkLinked "rmnet" "gsi.rmnet" 2;
         mkLinked "dpl" "gsi.dpl" 3;
         mkLinked "qdss" "qdss.qdss" 4;
         mkLinked "adb" "ffs.adb" 5 ]
  /\ vidpid (snd r) = Some ("0x05C6", "0x90DB")
  /\ errlog (snd r) = [FunctionUnsupported "foo"].
Proof.
  destruct (override_rollback_to_default (sample_env "ccid,foo")
              GadgetFunction.ADB true 0 idle_gadget) as (_ & _ & H).
  - reflexivity.
  - reflexivity.
  - vm_compute. discriminate.
  - reflexivity.
  - reflexivity.
  - reflexivity.
  - left. exists "foo". split; [vm_compute; auto | reflexivity].
  - cbv zeta. destruct H as (Hs & Hl & Hv); try reflexivity.
    split; [exact Hs|]. split; [rewrite Hl; reflexivity|].
    split; [rewrite Hv; reflexivity | reflexivity].
Defined.

(** C3, as it holds of the code.  After a successful teardown, a cycle that fails -- at the
    validation of the bitmask, at a link, at a VID/PID commit, in the ADB
    set-up or at the pull-up write -- hands its error status to the caller
    and leaves the gadget disabled: the pull-up file cleared, the applied
    flag false and the monitor stopped.  (The configuration itself is not
    promised to be empty.) *)
Theorem failed_cycle_leaves_gadget_disabled env functions callback timeout st :
  resetGadget_result env = SUCCESS ->
  let r := setCurrentUsbFunctions env functions callback timeout st in
  fst r <> SUCCESS ->
  delivered (snd r)
  = (delivered st ++ (if callback then [(functions, fst r)] else []))%list
  /\ pullup (snd r) = "none"
  /\ mCurrentUsbFunctionsApplied (snd r) = false
  /\ monitorRunning (snd r) = false.
Proof. exact (cycle_failed_fields env functions callback timeout st). Qed.

(** No rollback outside the override: RNDIS+ADB on a device on which the
    second link fails.  The cycle reports [ERROR] and "rndis" stays
    linked. *)
Lemma failed_link_leaves_rndis_linked :
  let r := setCurrentUsbFunctions second_link_fails_env
             (Z.lor GadgetFunction.RNDIS GadgetFunction.ADB) true 0
             idle_gadget in
  fst r = ERROR
  /\ delivered (snd r) = [(33, ERROR)]
  /\ links (snd r) = [mkLinked "rndis" "rndis" 0]
  /\ links (snd r) <> [].
Proof. vm_compute. repeat split. discriminate. Qed.

Lemma failed_cycle_leaves_gadget_disabled_witness :
  let r := setCurrentUsbFunctions second_link_fails_env
             (Z.lor GadgetFunction.RNDIS GadgetFunction.ADB) true 0
             idle_gadget in
  delivered (snd r) = (delivered idle_gadget ++ [(33, fst r)])%list
  /\ pullup (snd r) = "none"
  /\ mCurrentUsbFunctionsApplied (snd r) = false
  /\ monitorRunning (snd r) = false.
Proof.
  apply (failed_cycle_leaves_gadget_disabled second_link_fails_env
           (Z.lor GadgetFunction.RNDIS GadgetFunction.ADB) true 0 idle_gadget).
  - reflexivity.
  - vm_compute. discriminate.
Defined.

(** C4, as it holds of the code.  With the enumeration root readable, a machine-identity
    string that contains "SDA" or ends with 'P' makes the modem type [NONE]
    when no external modem was found, and leaves it [EXTERNAL] (not refined
    to [INTERNAL_EXTERNAL]) when one was. *)
Theorem marker_gives_none_unless_external env entries machine :
  esoc_devices env = Some entries ->
  soc_machine env = Some machine ->
  str_length machine < npos ->
  contains machine "SDA" \/ last_char machine = Some "P"%char ->
  (scan_esoc entries = INTERNAL /\ getModemType env = NONE)
  \/ (scan_esoc entries = EXTERNAL /\ getModemType env = EXTERNAL).
Proof.
  intros He Hm Hlen Hmark. unfold getModemType. rewrite He, Hm.
  assert (Hcond : negb (find machine "SDA" =? npos)
                  || (find_last_of machine "P"%char
                      =? size_t_sub (str_length machine) 1) = true).
  { apply orb_true_iff. destruct Hmark as [Hc|Hl].
    - left. apply negb_true_iff, Z.eqb_neq, find_contains; assumption.
    - right. apply Z.eqb_eq. unfold find_last_of.
      rewrite (find_last_of_last _ _ 0%nat Hl).
      pose proof (last_char_length _ _ Hl).
      unfold size_t_of, size_t_sub, str_length, npos in *.
      rewrite Z.mod_small by lia. lia. }
  rewrite Hcond.
  destruct (scan_esoc_cases entries) as [-> | ->]; cbn; auto.
Qed.

(** The marker does not override an external modem: an SDX modem and a
    machine name with "SDA" give [EXTERNAL], not [NONE]. *)
Lemma marker_does_not_override_external :
  soc_machine external_sda_env = Some "SDA845"
  /\ contains "SDA845" "SDA"
  /\ getModemType external_sda_env = EXTERNAL
  /\ getModemType external_sda_env <> NONE.
Proof.
  split; [reflexivity|]. split; [exists "", "845"; reflexivity|].
  split; [reflexivity | discriminate].
Qed.

Lemma marker_gives_none_unless_external_witness :
  (scan_esoc [("esoc0", Some "SDX55")] = INTERNAL
   /\ getModemType external_sda_env = NONE)
  \/ (scan_esoc [("esoc0", Some "SDX55")] = EXTERNAL
      /\ getModemType external_sda_env = EXTERNAL).
Proof.
  apply (marker_gives_none_unless_external external_sda_env
           [("esoc0", Some "SDX55")] "SDA845").
  - reflexivity.
  - reflexivity.
  - reflexivity.
  - left. exists "", "845". reflexivity.
Defined.

(** C5.  A request of [NONE], once the teardown has succeeded, links
    nothing, commits no VID/PID, leaves the monitor stopped and ends the
    cycle at once with [SUCCESS], which is what the caller is told.  (The
    flag [mCurrentUsbFunctionsApplied] is not set on this path.) *)
Theorem none_request_links_nothing env callback timeout st :
  resetGadget_result env = SUCCESS ->
  let r := setCurrentUsbFunctions env GadgetFunction.NONE callback timeout st
  in
  fst r = SUCCESS
  /\ links (snd r) = []
  /\ vidpid (snd r) = None
  /\ monitorRunning (snd r) = false
  /\ delivered (snd r)
     = (delivered st
        ++ (if callback then [(GadgetFunction.NONE, SUCCESS)] else []))%list
  /\ errlog (snd r) = errlog st
  /\ mCurrentUsbFunctionsApplied (snd r) = false.
Proof.
  intros Hreset r.
  destruct (cycle_none_run env callback timeout st Hreset)
    as (H1 & H2 & H3 & H4 & H5 & H6 & H7).
  auto 10.
Qed.

Lemma none_request_links_nothing_witness :
  let r := setCurrentUsbFunctions (sample_env "") GadgetFunction.NONE true 0
             idle_gadget in
  fst r = SUCCESS
  /\ links (snd r) = []
  /\ vidpid (snd r) = None
  /\ monitorRunning (snd r) = false
  /\ delivered (snd r)
     = (delivered idle_gadget ++ [(GadgetFunction.NONE, SUCCESS)])%list
  /\ errlog (snd r) = errlog idle_gadget
  /\ mCurrentUsbFunctionsApplied (snd r) = false.
Proof.
  apply (none_request_links_nothing (sample_env "") true 0 idle_gadget).
  reflexivity.
Defined.

(** C6, as it holds of the code.  The validation of the bitmask runs for every request
    other than [NONE], before the resolver: a bitmask outside the fifteen
    combinations it lists is refused with [CONFIGURATION_NOT_SUPPORTED] and
    nothing is linked; of the bitmasks that contain RNDIS only RNDIS alone
    and RNDIS+ADB are listed.  When a cycle for
    RNDIS+ADB succeeds, the VID/PID left committed is the row of the RNDIS
    composition in the composition table; when a cycle for ADB alone
    succeeds with nothing linked by the generic helper, it is the row of
    the override string or of the default composition; when a cycle for
    RNDIS alone succeeds, it is the one the validation committed. *)
Theorem validation_precedes_resolver env functions callback timeout st :
  let r := setCurrentUsbFunctions env functions callback timeout st in
  let vendorProp :=
    GetProperty env VENDOR_USB_PROP
      (GetProperty env PERSIST_VENDOR_USB_PROP "") in
  (resetGadget_result env = SUCCESS ->
   functions <> GadgetFunction.NONE ->
   generic_combination functions = false ->
   fst r = CONFIGURATION_NOT_SUPPORTED
   /\ links (snd r) = [] /\ vidpid (snd r) = None)
  /\ (Z.land functions GadgetFunction.RNDIS <> 0 ->
      functions <> GadgetFunction.RNDIS ->
      functions <> Z.lor GadgetFunction.RNDIS GadgetFunction.ADB ->
      generic_combination functions = false)
  /\ (functions = Z.lor GadgetFunction.RNDIS GadgetFunction.ADB ->
      fst r = SUCCESS ->
      vidpid (snd r)
      = map_find supported_compositions
          (rndis_adb_composition (getModemType env)))
  /\ (functions = GadgetFunction.ADB ->
      g_linked (generic_result env functions) = [] ->
      fst r = SUCCESS ->
      vidpid (snd r)
      = map_find supported_compositions (tack_on_adb vendorProp)
      \/ vidpid (snd r)
         = map_find supported_compositions
             (adb_composition (getModemType env)))
  /\ (functions = GadgetFunction.RNDIS ->
      fst r = SUCCESS ->
      vidpid (snd r) = Some ("0x18d1", "0x4ee3")).
Proof.
  cbv zeta. split; [|split; [|split; [|split]]].
  - intros Hreset Hf Hbad.
    rewrite (setCurrentUsbFunctions_run env functions callback timeout st
               Hreset).
    cbv zeta. apply Z.eqb_neq in Hf. rewrite Hf.
    rewrite validateAndSetVidPid_rejects by exact Hbad.
    cbn [fst snd Status_eqb negb]. rewrite error_exit_run.
    destruct (tearDownGadget_ok env (with_functions functions false st) Hreset)
      as (_ & Hl & Hv & _).
    destruct callback; cbn [fst snd links vidpid with_delivered]; auto.
  - intros Hbit H32 H33.
    destruct (generic_combination functions) eqn:Hg; [exfalso|reflexivity].
    unfold generic_combination in Hg. cbv zeta in Hg. cbn [existsb] in Hg.
    repeat (apply orb_true_iff in Hg; destruct Hg as [Hg|Hg];
            [apply Z.eqb_eq in Hg; subst functions;
             first [apply Hbit; reflexivity | apply H32; reflexivity
                   | apply H33; reflexivity]|]).
    discriminate.
  - intros -> Hs.
    destruct (cycle_success env _ callback timeout st Hs eq_refl)
      as (Hreset & _ & Hsetup & ->).
    apply rndis_adb_run; try exact Hsetup; try discriminate.
    rewrite validateAndSetVidPid_keeps_links.
    apply (tearDownGadget_ok env _ Hreset).
  - intros -> Hgl Hs.
    destruct (cycle_success env _ callback timeout st Hs eq_refl)
      as (Hreset & _ & Hsetup & ->).
    apply adb_only_setup; try assumption.
    rewrite validateAndSetVidPid_keeps_links.
    apply (tearDownGadget_ok env _ Hreset).
  - intros -> Hs.
    destruct (cycle_success env _ callback timeout st Hs eq_refl)
      as (_ & Hv & _ & ->).
    rewrite rndis_only_keeps_vidpid.
    apply setVidPid_ok, Hv.
Qed.

(** A request with RNDIS that fails at the validation: RNDIS+MTP is refused
    before [setupFunctions] runs; and for RNDIS alone the VID/PID left
    committed is the one of the validation. *)
Lemma rndis_request_fails_at_validation :
  let refused := Z.lor GadgetFunction.RNDIS GadgetFunction.MTP in
  let r := setCurrentUsbFunctions (sample_env "") refused true 0 idle_gadget in
  let r' := setCurrentUsbFunctions (sample_env "") GadgetFunction.RNDIS true 0
              idle_gadget in
  Z.land refused GadgetFunction.RNDIS <> 0
  /\ validateAndSetVidPid (sample_env "") refused idle_gadget
     = (CONFIGURATION_NOT_SUPPORTED, idle_gadget)
  /\ fst r = CONFIGURATION_NOT_SUPPORTED
  /\ delivered (snd r) = [(refused, CONFIGURATION_NOT_SUPPORTED)]
  /\ links (snd r) = []
  /\ fst r' = SUCCESS
  /\ links (snd r') = [mkLinked "rndis" "rndis" 0]
  /\ vidpid (snd r') = Some ("0x18d1", "0x4ee3").
Proof. vm_compute. repeat split. discriminate. Qed.

Lemma validation_precedes_resolver_witness :
  let refused := Z.lor GadgetFunction.RNDIS GadgetFunction.MTP in
  let both := Z.lor GadgetFunction.RNDIS GadgetFunction.ADB in
  let r := setCurrentUsbFunctions (sample_env "") refused true 0 idle_gadget in
  let r' := setCurrentUsbFunctions (sample_env "") both true 0 idle_gadget in
  (fst r = CONFIGURATION_NOT_SUPPORTED
   /\ links (snd r) = [] /\ vidpid (snd r) = None)
  /\ vidpid (snd r')
     = map_find supported_compositions
         (rndis_adb_composition (getModemType (sample_env ""))).
Proof.
  split.
  - apply (proj1 (validation_precedes_resolver (sample_env "")
                    (Z.lor GadgetFunction.RNDIS GadgetFunction.MTP) true 0
                    idle_gadget)).
    + reflexivity.
    + vm_compute. discriminate.
    + reflexivity.
  - apply (proj1 (proj2 (proj2 (validation_precedes_resolver (sample_env "")
                                  (Z.lor GadgetFunction.RNDIS
                                     GadgetFunction.ADB)
                                  true 0 idle_gadget)))).
    + reflexivity.
    + reflexivity.
Defined.

(** C7.  A successful cycle for [RNDIS | ADB] on a device with an internal
    modem links, in this order, rndis, diag, qdss, serial_cdev, dpl and adb,
    and commits the VID/PID found under the key
    "rndis,diag,qdss,serial_cdev,dpl,adb". *)
Theorem rndis_adb_internal_composition env callback timeout st :
  getModemType env = INTERNAL ->
  let r :=
    setCurrentUsbFunctions env
      (Z.lor GadgetFunction.RNDIS GadgetFunction.ADB) callback timeout st in
  fst r = SUCCESS ->
  links (snd r)
  = [ mkLinked "rndis" (rndisFuncname env) 0;
      mkLinked "diag" (GetProperty env DIAG_FUNC_NAME_PROP "diag" ++ ".diag") 1;
      mkLinked "qdss" ("qdss." ++ GetProperty env QDSS_INST_NAME_PROP "qdss") 2;
      mkLinked "serial_cdev" "cser.dun.0" 3;
      mkLinked "dpl"
        (GetProperty env RMNET_FUNC_NAME_PROP "gsi" ++ "."
         ++ GetProperty env DPL_INST_NAME_PROP "dpl") 4;
      mkLinked "adb" "ffs.adb" 5 ]
  /\ vidpid (snd r)
     = map_find supported_compositions "rndis,diag,qdss,serial_cdev,dpl,adb"
  /\ map_find supported_compositions "rndis,diag,qdss,serial_cdev,dpl,adb"
     = Some ("0x05C6", "0x90E9").
Proof.
  intros Hm r Hs. unfold r in *.
  destruct (cycle_success env _ callback timeout st Hs eq_refl)
    as (Hreset & _ & Hsetup & ->).
  match type of Hsetup with
  | fst (setupFunctions _ ?f _ _ ?g) = _ =>
      destruct (rndis_adb_run env f callback timeout g) as [Hl Hv];
        try exact Hsetup; try discriminate
  end.
  - rewrite validateAndSetVidPid_keeps_links.
    apply (tearDownGadget_ok env _ Hreset).
  - rewrite Hm in Hl, Hv. split; [exact Hl|]. split; [exact Hv|reflexivity].
Qed.

Lemma rndis_adb_internal_composition_witness :
  let env := sample_env "" in
  let r := setCurrentUsbFunctions env
             (Z.lor GadgetFunction.RNDIS GadgetFunction.ADB) true 0
             idle_gadget in
  links (snd r)
  = [ mkLinked "rndis" (rndisFuncname env) 0;
      mkLinked "diag" (GetProperty env DIAG_FUNC_NAME_PROP "diag" ++ ".diag") 1;
      mkLinked "qdss" ("qdss." ++ GetProperty env QDSS_INST_NAME_PROP "qdss") 2;
      mkLinked "serial_cdev" "cser.dun.0" 3;
      mkLinked "dpl"
        (GetProperty env RMNET_FUNC_NAME_PROP "gsi" ++ "."
         ++ GetProperty env DPL_INST_NAME_PROP "dpl") 4;
      mkLinked "adb" "ffs.adb" 5 ]
  /\ vidpid (snd r)
     = map_find supported_compositions "rndis,diag,qdss,serial_cdev,dpl,adb"
  /\ map_find supported_compositions "rndis,diag,qdss,serial_cdev,dpl,adb"
     = Some ("0x05C6", "0x90E9").
Proof.
  apply (rndis_adb_internal_composition (sample_env "") true 0 idle_gadget).
  - reflexivity.
  - reflexivity.
Defined.

(** C8.  In a cycle that starts the monitor and whose caller gave a
    callback, a pull-up that does not come within the timeout is reported
    to the caller as [ERROR], with the applied flag still false.  The
    callback of the monitor, whenever it fires afterwards, changes the
    applied flag and nothing else; a late pull-up by the monitor makes a
    status query report [FUNCTIONS_APPLIED], and what was delivered to the
    caller stays as it was. *)
Theorem pullup_timeout_reported env functions timeout st :
  let r := setCurrentUsbFunctions env functions true timeout st in
  fst r = SUCCESS ->
  monitorRunning (snd r) = true ->
  waitForPullUp_result env timeout = false ->
  delivered (snd r) = (delivered st ++ [(functions, ERROR)])%list
  /\ getCurrentUsbFunctions (snd r) = (functions, FUNCTIONS_NOT_APPLIED)
  /\ (forall functionsApplied,
       let late := snd (functionsAppliedCallback functionsApplied (snd r)) in
       late = with_applied functionsApplied (snd r)
       /\ delivered late = delivered (snd r)
       /\ getCurrentUsbFunctions late
          = (functions,
             if functionsApplied then FUNCTIONS_APPLIED
             else FUNCTIONS_NOT_APPLIED))
  /\ (let pulled := snd (monitor_pullup env (snd r)) in
      delivered pulled = delivered (snd r)
      /\ links pulled = links (snd r)
      /\ getCurrentUsbFunctions pulled = (functions, FUNCTIONS_APPLIED)).
Proof.
  intros r Hs Hmon Hwait.
  assert (Hcur : mCurrentUsbFunctions (snd r) = functions).
  { unfold r, setCurrentUsbFunctions. rewrite bind_run.
    rewrite tearDown_and_apply_keeps_current. reflexivity. }
  destruct (functions =? GadgetFunction.NONE) eqn:Hf.
  - exfalso. apply Z.eqb_eq in Hf. unfold r in *. subst functions.
    destruct (reset_cases env) as [H|H].
    + destruct (cycle_none_run env true timeout st H) as (_ & _ & _ & Hm & _).
      congruence.
    + rewrite setCurrentUsbFunctions_teardown_failed in Hs by exact H.
      rewrite error_exit_run in Hs. discriminate.
  - destruct (cycle_reaches_pullup env functions true timeout st Hs Hf)
      as (ffs & g2 & Ha & Hm & Hd & Hrun).
    fold r in Hrun.
    destruct (pullup_or_monitor_outcome env functions true timeout
                (GetProperty env USB_CONTROLLER_PROP "") ffs g2 Hm Ha)
      as (_ & _ & Hto).
    rewrite <- Hrun in Hto.
    destruct (Hto Hs Hmon eq_refl Hwait) as (Happ & Hcb & Hdel).
    split; [rewrite Hdel, Hd; reflexivity|].
    split; [unfold getCurrentUsbFunctions; rewrite Happ, Hcur; reflexivity|].
    split.
    + intros b. cbv zeta. unfold functionsAppliedCallback, modify.
      cbn [snd]. split; [reflexivity|]. split; [reflexivity|].
      unfold getCurrentUsbFunctions, with_applied, with_functions.
      cbn [mCurrentUsbFunctions mCurrentUsbFunctionsApplied].
      rewrite Hcur. reflexivity.
    + cbv zeta. unfold monitor_pullup, functionsAppliedCallback, modify.
      rewrite Hmon. cbn [monitorCallback with_pullup]. rewrite Hcb.
      cbn [snd]. split; [reflexivity|]. split; [reflexivity|].
      unfold getCurrentUsbFunctions, with_applied, with_functions.
      cbn [mCurrentUsbFunctions mCurrentUsbFunctionsApplied with_pullup].
      rewrite Hcur. reflexivity.
Qed.

Lemma pullup_timeout_reported_witness :
  let r := setCurrentUsbFunctions pullup_timeout_env GadgetFunction.ADB true
             1000 idle_gadget in
  delivered (snd r)
  = (delivered idle_gadget ++ [(GadgetFunction.ADB, ERROR)])%list
  /\ getCurrentUsbFunctions (snd r)
     = (GadgetFunction.ADB, FUNCTIONS_NOT_APPLIED)
  /\ (forall functionsApplied,
       let late := snd (functionsAppliedCallback functionsApplied (snd r)) in
       late = with_applied functionsApplied (snd r)
       /\ delivered late = delivered (snd r)
       /\ getCurrentUsbFunctions late
          = (GadgetFunction.ADB,
             if functionsApplied then FUNCTIONS_APPLIED
             else FUNCTIONS_NOT_APPLIED))
  /\ (let pulled := snd (monitor_pullup pullup_timeout_env (snd r)) in
      delivered pulled = delivered (snd r)
      /\ links pulled = links (snd r)
      /\ getCurrentUsbFunctions pulled
         = (GadgetFunction.ADB, FUNCTIONS_APPLIED)).
Proof.
  apply (pullup_timeout_reported pullup_timeout_env GadgetFunction.ADB 1000
           idle_gadget).
  - reflexivity.
  - reflexivity.
  - reflexivity.
Defined.

(** C9.  For every modem type, each token of the two default compositions
    (RNDIS+ADB and ADB alone) is in the function-name table and the
    composition is a key of the composition table.  So linking a default
    composition and looking up its VID/PID never logs an unsupported
    function or composition, and fails only if a link or the VID/PID
    commit itself fails. *)
Theorem default_compositions_supported env mtype i g :
  let supported comp :=
    forallb (map_count supported_funcs) (tokens comp)
    && map_count supported_compositions comp in
  supported (rndis_adb_composition mtype) = true
  /\ supported (adb_composition mtype) = true
  /\ forall comp,
       comp = rndis_adb_composition mtype \/ comp = adb_composition mtype ->
       errlog (snd (addFunctionsFromPropString env comp i false g)) = errlog g
       /\ errlog (snd (lookupAndSetVidPid env comp g)) = errlog g
       /\ ((forall node k, link_fails env node k = false) ->
           fst (fst (addFunctionsFromPropString env comp i false g)) = 0)
       /\ ((forall vid pid, setVidPid_result env vid pid = SUCCESS) ->
           fst (lookupAndSetVidPid env comp g) = 0).
Proof.
  cbv zeta.
  assert (H1 : forallb (map_count supported_funcs)
                 (tokens (rndis_adb_composition mtype))
               && map_count supported_compositions
                    (rndis_adb_composition mtype) = true)
    by (destruct mtype; reflexivity).
  assert (H2 : forallb (map_count supported_funcs)
                 (tokens (adb_composition mtype))
               && map_count supported_compositions (adb_composition mtype)
               = true)
    by (destruct mtype; reflexivity).
  split; [exact H1|]. split; [exact H2|].
  intros comp Hcomp.
  assert (H : forallb (map_count supported_funcs) (tokens comp)
              && map_count supported_compositions comp = true)
    by (destruct Hcomp; subst comp; assumption).
  apply andb_true_iff in H. destruct H as [Htok Hrow].
  rewrite addFunctionsFromPropString_tokens.
  destruct (addFunctions_tokens_supported env (tokens comp) i g Htok)
    as [Ha Hb].
  destruct (lookupAndSetVidPid_supported env comp g Hrow) as [Hc Hd].
  auto.
Qed.

Lemma default_compositions_supported_witness :
  let env := sample_env "" in
  let comp := adb_composition INTERNAL in
  fst (fst (addFunctionsFromPropString env comp 0 false idle_gadget)) = 0
  /\ fst (lookupAndSetVidPid env comp idle_gadget) = 0.
Proof.
  destruct (default_compositions_supported (sample_env "") INTERNAL 0
              idle_gadget) as (_ & _ & H).
  destruct (H (adb_composition INTERNAL)) as (_ & _ & Hlink & Hrow).
  - right. reflexivity.
  - split; [apply Hlink | apply Hrow]; reflexivity.
Defined.





(** ** Further properties: the modem type *)

Lemma scan_esoc_existsb entries :
  scan_esoc entries
  = if existsb names_external entries then EXTERNAL else INTERNAL.
Proof.
  induction entries as [|[d_name content] rest IH]; [reflexivity|].
  cbn [scan_esoc existsb]. unfold names_external at 1. cbn [fst snd].
  destruct (String.prefix "." d_name); cbn [negb andb orb]; [exact IH|].
  destruct content as [esoc_name|]; [|exact IH].
  destruct (negb (find esoc_name "MDM" =? npos)
            || negb (find esoc_name "SDX" =? npos)); [reflexivity|exact IH].
Qed.

(** X1.  The readdir loop finds an external modem exactly when some entry
    of the enumeration root is not hidden and has a readable [esoc_name]
    that contains "MDM" or "SDX"; hidden entries and unreadable names never
    count, wherever they stand. *)
Theorem scan_esoc_external_iff entries :
  scan_esoc entries = EXTERNAL
  <-> exists d_name esoc_name,
        In (d_name, Some esoc_name) entries
        /\ String.prefix "." d_name = false
        /\ (find esoc_name "MDM" <> npos \/ find esoc_name "SDX" <> npos).
Proof.
  rewrite scan_esoc_existsb. split.
  - destruct (existsb names_external entries) eqn:E; [|discriminate].
    intros _. apply existsb_exists in E.
    destruct E as ([d_name content] & Hin & Hx).
    unfold names_external in Hx. cbn [fst snd] in Hx.
    apply andb_true_iff in Hx. destruct Hx as [Hh Hn].
    destruct content as [esoc_name|]; [|discriminate].
    exists d_name, esoc_name. split; [exact Hin|].
    split; [apply negb_true_iff, Hh|].
    apply orb_true_iff in Hn.
    destruct Hn as [H|H]; [left|right];
      apply Z.eqb_neq, negb_true_iff, H.
  - intros (d_name & esoc_name & Hin & Hh & Hn).
    assert (E : existsb names_external entries = true).
    { apply existsb_exists. exists (d_name, Some esoc_name).
      split; [exact Hin|]. unfold names_external. cbn [fst snd].
      rewrite Hh. cbn [negb andb]. apply orb_true_iff.
      destruct Hn as [H|H]; [left|right];
        apply negb_true_iff, Z.eqb_neq, H. }
    rewrite E. reflexivity.
Qed.

(** X2.  The four modem types, each with the exact condition under which
    [getModemType] returns it.  In particular [INTERNAL_EXTERNAL] and [NONE]
    need a readable machine file, and a missing enumeration root gives
    [INTERNAL] whatever the machine file says. *)
Theorem getModemType_cases env :
  let root := esoc_devices env in
  let external entries := existsb names_external entries in
  (getModemType env = NONE
   <-> exists entries machine,
         root = Some entries /\ external entries = false
         /\ soc_machine env = Some machine
         /\ no_modem_marker machine = true)
  /\ (getModemType env = INTERNAL_EXTERNAL
      <-> exists entries machine,
            root = Some entries /\ external entries = true
            /\ soc_machine env = Some machine
            /\ no_modem_marker machine = false)
  /\ (getModemType env = EXTERNAL
      <-> exists entries,
            root = Some entries /\ external entries = true
            /\ (soc_machine env = None
                \/ exists machine,
                     soc_machine env = Some machine
                     /\ no_modem_marker machine = true))
  /\ (getModemType env = INTERNAL
      <-> root = None
          \/ exists entries,
               root = Some entries /\ external entries = false
               /\ (soc_machine env = None
                   \/ exists machine,
                        soc_machine env = Some machine
                        /\ no_modem_marker machine = false)).
Proof.
  cbv zeta. unfold getModemType.
  destruct (esoc_devices env) as [entries|].
  2:{ repeat split; intro H; try discriminate; auto;
      try (destruct H as (? & ? & H & _); discriminate);
      try (destruct H as (? & H & _); discriminate). }
  rewrite scan_esoc_existsb.
  destruct (soc_machine env) as [machine|].
  - fold (no_modem_marker machine).
    destruct (existsb names_external entries) eqn:E,
             (no_modem_marker machine) eqn:M;
      cbn [mdmType_value Z.eqb negb];
      repeat split; intro H; try discriminate; eauto 10;
      repeat match type of H with
             | _ \/ _ => destruct H as [H|H]
             | exists _, _ => destruct H as (? & H)
             | _ /\ _ => destruct H as (? & H)
             end; congruence.
  - destruct (existsb names_external entries) eqn:E;
      repeat split; intro H; try discriminate; eauto 10;
      repeat match type of H with
             | _ \/ _ => destruct H as [H|H]
             | exists _, _ => destruct H as (? & H)
             | _ /\ _ => destruct H as (? & H)
             end; congruence.
Qed.


(** X3.  A machine file that can be read but is empty counts as carrying
    the no-modem marker: with no 'P' in the name, [find_last_of] gives
    [npos], and [length - 1] wraps around to [npos] exactly when the name is
    empty.  A non-empty name without "SDA" and without 'P' carries no
    marker. *)
Theorem empty_machine_name_is_marker env entries machine :
  esoc_devices env = Some entries ->
  soc_machine env = Some machine ->
  str_length machine < npos ->
  find machine "SDA" = npos ->
  find_last_of machine "P"%char = npos ->
  getModemType env
  = if empty machine then
      (if existsb names_external entries then EXTERNAL else NONE)
    else
      (if existsb names_external entries then INTERNAL_EXTERNAL
       else INTERNAL).
Proof.
  intros He Hm Hlen Hsda Hp. unfold getModemType.
  rewrite He, Hm, scan_esoc_existsb, Hsda, Hp.
  rewrite Z.eqb_refl. cbn [negb orb].
  assert (Hwrap : (npos =? size_t_sub (str_length machine) 1) = empty machine).
  { unfold empty. destruct machine as [|c machine].
    - reflexivity.
    - change (String.eqb (String c machine) "") with false.
      apply Z.eqb_neq. unfold size_t_sub, str_length, npos in *.
      cbn [String.length] in *. rewrite Z.mod_small by lia. lia. }
  rewrite Hwrap.
  destruct (empty machine), (existsb names_external entries); reflexivity.
Qed.

(** An empty machine file and no external modem: the modem type is
    [NONE]. *)
Lemma empty_machine_name_is_marker_witness :
  getModemType empty_machine_env = NONE.
Proof.
  exact (empty_machine_name_is_marker empty_machine_env [] ""
           eq_refl eq_refl eq_refl eq_refl eq_refl).
Defined.


(** ** Further properties: linking a property string *)

(** The loop over the tokens links, in order and at consecutive indexes, a
    prefix of the tokens it does not skip. *)
Lemma addFunctions_tokens_trace env adb toks : forall i g,
  exists funcs rest,
    links (snd (addFunctions_tokens env toks i adb g))
    = (links g ++ linked_from env i funcs)%list
    /\ filter (linked_token adb) toks = (funcs ++ rest)%list
    /\ (fst (fst (addFunctions_tokens env toks i adb g)) = 0
        \/ fst (fst (addFunctions_tokens env toks i adb g)) = -1)
    /\ (fst (fst (addFunctions_tokens env toks i adb g)) = 0 ->
        rest = []
        /\ snd (fst (addFunctions_tokens env toks i adb g))
           = i + Z.of_nat (length funcs)
        /\ errlog (snd (addFunctions_tokens env toks i adb g)) = errlog g
        /\ forallb (map_count supported_funcs) funcs = true).
Proof.
  induction toks as [|t toks IH]; intros i g.
  - exists [], []. cbn. rewrite app_nil_r. repeat split; auto; lia.
  - cbn [addFunctions_tokens filter].
    change (linked_token adb t) with (negb (negb adb && String.eqb t "adb")).
    destruct (negb adb && String.eqb t "adb"); cbn [negb]; [apply IH|].
    destruct (map_find supported_funcs t) as [resolve|] eqn:Hf.
    + rewrite bind_run. unfold linkFunction.
      destruct (link_fails env (resolve env) i); cbn [fst snd Z.eqb negb].
      * exists [], (t :: filter (linked_token adb) toks).
        cbn. rewrite app_nil_r. repeat split; auto; discriminate.
      * destruct (IH (i + 1)
                    (with_links (links g ++ [mkLinked t (resolve env) i])%list
                       g))
          as (funcs & rest & H1 & H2 & H3 & H4).
        exists (t :: funcs), rest.
        split.
        { rewrite H1. cbn [links with_links linked_from].
          unfold node_of at 1. rewrite Hf. rewrite <- app_assoc.
          reflexivity. }
        split; [cbn [app]; rewrite H2; reflexivity|].
        split; [exact H3|].
        intro H0. destruct (H4 H0) as (R1 & R2 & R3 & R4).
        split; [exact R1|]. split; [rewrite R2; cbn [length]; lia|].
        split; [exact R3|].
        cbn [forallb]. unfold map_count at 1. rewrite Hf. exact R4.
    + exists [], (t :: filter (linked_token adb) toks).
      cbn. rewrite app_nil_r. repeat split; auto; discriminate.
Qed.

Lemma addFunctionsFromPropString_links_prefix_aux env prop i adb g :
  let r := addFunctionsFromPropString env prop i adb g in
  exists funcs rest,
    links (snd r) = (links g ++ linked_from env i funcs)%list
    /\ filter (linked_token adb) (tokens prop) = (funcs ++ rest)%list
    /\ (fst (fst r) = 0 \/ fst (fst r) = -1)
    /\ (fst (fst r) = 0 ->
        rest = []
        /\ snd (fst r) = i + Z.of_nat (length funcs)
        /\ errlog (snd r) = errlog g
        /\ forallb (map_count supported_funcs) funcs = true).
Proof.
  cbv zeta. rewrite addFunctionsFromPropString_tokens.
  apply addFunctions_tokens_trace.
Qed.

(** X4.  [addFunctionsFromPropString] links, in order and at the consecutive
    indexes from [i], a prefix of the tokens of the property (all of them,
    or all but "adb" when [adb] is false), each under the node the
    function-name table resolves it to.  It returns 0 or -1; when it
    returns 0 it has linked them all, advanced [i] by their number and
    logged nothing. *)
Theorem addFunctionsFromPropString_links_prefix env prop i adb g :
  let r := addFunctionsFromPropString env prop i adb g in
  exists funcs rest,
    links (snd r) = (links g ++ linked_from env i funcs)%list
    /\ filter (linked_token adb) (tokens prop) = (funcs ++ rest)%list
    /\ (fst (fst r) = 0 \/ fst (fst r) = -1)
    /\ (fst (fst r) = 0 ->
        rest = []
        /\ snd (fst r) = i + Z.of_nat (length funcs)
        /\ errlog (snd r) = errlog g
        /\ forallb (map_count supported_funcs) funcs = true).
Proof. exact (addFunctionsFromPropString_links_prefix_aux env prop i adb g). Qed.

Lemma concat_tokens s : String.concat "," (tokens s) = s.
Proof.
  induction s as [|c s IH]; [reflexivity|].
  cbn [tokens]. pose proof (tokens_nonempty s) as Hne.
  destruct (Ascii.eqb c ","%char) eqn:Hc.
  - apply Ascii.eqb_eq in Hc. subst c.
    destruct (tokens s) as [|t ts] eqn:Ht; [contradiction|].
    rewrite <- IH. reflexivity.
  - destruct (tokens s) as [|t ts] eqn:Ht; [contradiction|].
    rewrite <- IH. destruct ts; reflexivity.
Qed.

Lemma linked_from_funcs env funcs : forall i,
  map l_func (linked_from env i funcs) = funcs.
Proof.
  induction funcs as [|f funcs IH]; intro i; [reflexivity|].
  cbn [linked_from map l_func]. rewrite IH. reflexivity.
Qed.

Lemma filter_all {A : Type} (p : A -> bool) (l : list A) :
  (forall x, p x = true) -> filter p l = l.
Proof.
  intro H. induction l as [|x l IH]; [reflexivity|].
  cbn [filter]. rewrite H, IH. reflexivity.
Qed.

(** X5.  With [adb] true nothing is skipped: when the call returns 0, the
    identifiers of the links it made, joined by commas, spell the property
    string again. *)
Theorem linked_identifiers_spell_the_property env prop i g :
  let r := addFunctionsFromPropString env prop i true g in
  fst (fst r) = 0 ->
  exists new,
    links (snd r) = (links g ++ new)%list
    /\ map l_func new = tokens prop
    /\ String.concat "," (map l_func new) = prop.
Proof.
  intros r H0.
  destruct (addFunctionsFromPropString_links_prefix_aux env prop i true g)
    as (funcs & rest & H1 & H2 & _ & H4).
  fold r in H1, H4. destruct (H4 H0) as (-> & _).
  rewrite app_nil_r in H2.
  rewrite filter_all in H2 by reflexivity.
  subst funcs.
  exists (linked_from env i (tokens prop)). rewrite linked_from_funcs.
  split; [exact H1|]. split; [reflexivity | apply concat_tokens].
Qed.

Lemma linked_identifiers_spell_the_property_witness :
  let r := addFunctionsFromPropString (sample_env "") "diag,adb" 0 true
             idle_gadget in
  exists new,
    links (snd r) = (links idle_gadget ++ new)%list
    /\ map l_func new = tokens "diag,adb"
    /\ String.concat "," (map l_func new) = "diag,adb".
Proof.
  apply (linked_identifiers_spell_the_property (sample_env "") "diag,adb" 0
           idle_gadget).
  reflexivity.
Defined.


Lemma In_filter_linked_token adb t toks :
  In t toks -> t <> "adb" -> In t (filter (linked_token adb) toks).
Proof.
  intros Hin Hne. apply filter_In. split; [exact Hin|].
  unfold linked_token. apply String.eqb_neq in Hne. rewrite Hne.
  rewrite andb_false_r. reflexivity.
Qed.

(** A token that is not in the function-name table makes the call fail. *)
Lemma unsupported_token_fails env prop i adb g t :
  In t (tokens prop) ->
  map_count supported_funcs t = false ->
  fst (fst (addFunctionsFromPropString env prop i adb g)) = -1.
Proof.
  intros Hin Ht.
  destruct (addFunctionsFromPropString_links_prefix_aux env prop i adb g)
    as (funcs & rest & _ & H2 & [H0|H1] & H4); [|exact H1].
  exfalso. destruct (H4 H0) as (-> & _ & _ & Hall).
  rewrite app_nil_r in H2. rewrite <- H2 in Hall.
  rewrite forallb_forall in Hall.
  rewrite (Hall t) in Ht; [discriminate|].
  apply In_filter_linked_token; [exact Hin|].
  intros ->. discriminate.
Qed.

(** X6.  An empty piece between commas is no function: a property that is
    empty, ends or starts with a comma, or has two commas in a row makes
    [addFunctionsFromPropString] return -1, whatever the links do. *)
Theorem empty_token_fails env prop i adb g :
  prop = ""
  \/ (exists s, prop = s ++ ",")
  \/ (exists s, prop = "," ++ s)
  \/ (exists s t, prop = s ++ ",," ++ t) ->
  fst (fst (addFunctionsFromPropString env prop i adb g)) = -1.
Proof.
  intro H.
  apply (unsupported_token_fails env prop i adb g ""); [|reflexivity].
  destruct H as [->|[(s & ->)|[(s & ->)|(s & t & ->)]]].
  - left. reflexivity.
  - rewrite (tokens_app_comma s ""). apply in_or_app. right. left.
    reflexivity.
  - left. reflexivity.
  - change (s ++ ",," ++ t)%string
      with (s ++ String ","%char (String ","%char t))%string.
    rewrite tokens_app_comma. apply in_or_app. right. left. reflexivity.
Qed.

(** The property "diag," ends with a comma. *)
Lemma empty_token_fails_witness :
  fst (fst (addFunctionsFromPropString (sample_env "") "diag," 0 false
              idle_gadget)) = -1.
Proof.
  apply (empty_token_fails (sample_env "") "diag," 0 false idle_gadget).
  right. left. exists "diag". reflexivity.
Defined.

(** X7.  [lookupAndSetVidPid] never touches the links.  It returns 0
    exactly when the string is a key of the composition table and the
    commit of its row succeeds, and then the row is the committed VID/PID;
    otherwise it returns -1 and the VID/PID is as before.  It logs an
    unsupported composition exactly when the key is missing. *)
Theorem lookupAndSetVidPid_outcome env prop g :
  let r := lookupAndSetVidPid env prop g in
  links (snd r) = links g
  /\ (fst r = 0 \/ fst r = -1)
  /\ (fst r = 0
      <-> exists vid pid,
            map_find supported_compositions prop = Some (vid, pid)
            /\ setVidPid_result env vid pid = SUCCESS)
  /\ (fst r = 0 ->
      vidpid (snd r) = map_find supported_compositions prop)
  /\ (fst r = -1 -> vidpid (snd r) = vidpid g)
  /\ errlog (snd r)
     = (errlog g
        ++ (if map_count supported_compositions prop then []
            else [CompositionUnsupported prop]))%list.
Proof.
  cbv zeta. unfold lookupAndSetVidPid, map_count.
  destruct (map_find supported_compositions prop) as [[vid pid]|].
  - rewrite bind_run. unfold setVidPid.
    destruct (setVidPid_result env vid pid) eqn:E;
      cbn [fst snd Status_eqb negb ret links vidpid errlog with_vidpid];
      rewrite app_nil_r;
      (split; [reflexivity|]); (split; [auto|]);
      (split; [split; [try discriminate; intros _; eauto
                      | intros (v & p & Hrow & Hok);
                        injection Hrow as <- <-; congruence]|]);
      (split; [try discriminate; auto|]);
      (split; [try discriminate; auto|]); reflexivity.
  - cbn. split; [reflexivity|]. split; [auto|].
    split; [split; [discriminate | intros (v & p & Hrow & _); discriminate]|].
    split; [discriminate|]. split; reflexivity.
Qed.

Lemma map_find_In {V : Type} (m : list (string * V)) k v :
  map_find m k = Some v -> In (k, v) m.
Proof.
  induction m as [|[k' v'] m IH]; [discriminate|].
  unfold map_find; fold (@map_find V).
  destruct (String.eqb k' k) eqn:E.
  - intro H. injection H as <-. apply String.eqb_eq in E. subst k'.
    left. reflexivity.
  - intro H. right. apply IH, H.
Qed.

(** X8.  The composition table is consistent: no two keys share a row (so
    a VID/PID identifies its composition), every vendor ID is "0x05C6",
    and every key consists of names of the function-name table -- except
    "rndis,serial_cdev,diag,", whose trailing comma makes it a key that can
    be looked up but never linked. *)
Theorem composition_table_consistent :
  (forall k1 k2 row,
      map_find supported_compositions k1 = Some row ->
      map_find supported_compositions k2 = Some row -> k1 = k2)
  /\ (forall k vid pid,
         map_find supported_compositions k = Some (vid, pid) ->
         vid = "0x05C6")
  /\ (forall k,
         map_count supported_compositions k = true ->
         forallb (map_count supported_funcs) (tokens k) = true
         \/ k = "rndis,serial_cdev,diag,")
  /\ (forall env i adb g,
         map_count supported_compositions "rndis,serial_cdev,diag," = true
         /\ fst (fst (addFunctionsFromPropString env
                        "rndis,serial_cdev,diag," i adb g)) = -1).
Proof.
  assert (Hrows :
    forallb
      (fun e1 =>
         forallb
           (fun e2 =>
              implb (String.eqb (fst (snd e1)) (fst (snd e2))
                     && String.eqb (snd (snd e1)) (snd (snd e2)))
                    (String.eqb (fst e1) (fst e2)))
           supported_compositions)
      supported_compositions = true) by (vm_compute; reflexivity).
  assert (Hvid :
    forallb (fun e => String.eqb (fst (snd e)) "0x05C6")
      supported_compositions = true) by (vm_compute; reflexivity).
  assert (Htok :
    forallb
      (fun e => forallb (map_count supported_funcs) (tokens (fst e))
                || String.eqb (fst e) "rndis,serial_cdev,diag,")
      supported_compositions = true) by (vm_compute; reflexivity).
  rewrite forallb_forall in Hrows, Hvid, Htok.
  split; [|split; [|split]].
  - intros k1 k2 [vid pid] H1 H2.
    apply map_find_In in H1, H2.
    specialize (Hrows _ H1). rewrite forallb_forall in Hrows.
    specialize (Hrows _ H2). cbn [fst snd] in Hrows.
    rewrite !String.eqb_refl in Hrows. cbn [andb implb] in Hrows.
    apply String.eqb_eq, Hrows.
  - intros k vid pid H. apply map_find_In in H.
    specialize (Hvid _ H). cbn [fst snd] in Hvid.
    apply String.eqb_eq, Hvid.
  - intros k H. unfold map_count in H.
    destruct (map_find supported_compositions k) as [row|] eqn:E;
      [|discriminate].
    apply map_find_In in E. specialize (Htok _ E). cbn [fst] in Htok.
    apply orb_true_iff in Htok. destruct Htok as [Ht|Ht]; [left; exact Ht|].
    right. apply String.eqb_eq, Ht.
  - intros env i adb g. split; [reflexivity|].
    apply (unsupported_token_fails env _ i adb g ""); [|reflexivity].
    vm_compute. auto.
Qed.

Lemma validateAndSetVidPid_accepts env functions g :
  generic_combination functions = true ->
  exists pid,
    In (functions, pid) generic_pids
    /\ validateAndSetVidPid env functions g
       = setVidPid env "0x18d1" pid g.
Proof.
  unfold generic_combination, validateAndSetVidPid, generic_pids.
  cbv zeta. cbn [existsb].
  repeat (let E := fresh "E" in
          destruct (functions =? _) eqn:E;
          [ intros _; apply Z.eqb_eq in E; rewrite E;
            eexists; (split; [|reflexivity]); cbn; auto 20
          | clear E ]).
  discriminate.
Qed.

(** X9.  [validateAndSetVidPid] never touches the links.  When it succeeds
    the committed vendor ID is "0x18d1", and two different bitmasks never
    get the same product ID.  A bitmask outside the fifteen combinations,
    [NONE] among them, is refused with the state left as it was. *)
Theorem validateAndSetVidPid_outcome env functions g :
  let r := validateAndSetVidPid env functions g in
  links (snd r) = links g
  /\ (fst r = SUCCESS ->
      exists pid,
        In (functions, pid) generic_pids
        /\ vidpid (snd r) = Some ("0x18d1", pid))
  /\ (forall functions' g',
         let r' := validateAndSetVidPid env functions' g' in
         fst r = SUCCESS -> fst r' = SUCCESS ->
         vidpid (snd r) = vidpid (snd r') -> functions = functions')
  /\ (generic_combination functions = false ->
      r = (CONFIGURATION_NOT_SUPPORTED, g))
  /\ generic_combination GadgetFunction.NONE = false.
Proof.
  cbv zeta.
  assert (Hok : forall f h,
    fst (validateAndSetVidPid env f h) = SUCCESS ->
    exists pid,
      In (f, pid) generic_pids
      /\ vidpid (snd (validateAndSetVidPid env f h)) = Some ("0x18d1", pid)).
  { intros f h Hs.
    destruct (generic_combination f) eqn:Hg.
    - destruct (validateAndSetVidPid_accepts env f h Hg) as (pid & Hin & Hrun).
      exists pid. split; [exact Hin|]. rewrite Hrun in *.
      apply setVidPid_ok, Hs.
    - rewrite validateAndSetVidPid_rejects in Hs by exact Hg. discriminate. }
  split; [apply validateAndSetVidPid_keeps_links|].
  split; [apply Hok|].
  split; [|split; [apply validateAndSetVidPid_rejects | reflexivity]].
  intros f' g' Hs Hs' Hv.
  destruct (Hok _ _ Hs) as (pid & Hin & Hp).
  destruct (Hok _ _ Hs') as (pid' & Hin' & Hp').
  rewrite Hp, Hp' in Hv. injection Hv as <-.
  assert (Hinj :
    forallb
      (fun e1 =>
         forallb
           (fun e2 => implb (String.eqb (snd e1) (snd e2))
                            (Z.eqb (fst e1) (fst e2)))
           generic_pids)
      generic_pids = true) by (vm_compute; reflexivity).
  rewrite forallb_forall in Hinj.
  specialize (Hinj _ Hin). rewrite forallb_forall in Hinj.
  specialize (Hinj _ Hin'). cbn [fst snd] in Hinj.
  rewrite String.eqb_refl in Hinj. apply Z.eqb_eq, Hinj.
Qed.

(** X10.  [reset] writes "none" to the pull-up file and nothing else: it
    returns [ERROR] exactly when the write fails, and it leaves the links,
    the VID/PID and what a status query reports as they were -- the applied
    flag is not cleared. *)
Theorem reset_only_clears_pullup env g :
  let r := reset env g in
  (fst r = SUCCESS \/ fst r = ERROR)
  /\ (fst r = ERROR <-> pullup_write_ok env = false)
  /\ (fst r = SUCCESS -> pullup (snd r) = "none")
  /\ (fst r = ERROR -> snd r = g)
  /\ links (snd r) = links g
  /\ vidpid (snd r) = vidpid g
  /\ getCurrentUsbFunctions (snd r) = getCurrentUsbFunctions g.
Proof.
  cbv zeta. unfold reset. run_prims.
  destruct (pullup_write_ok env); cbn;
    repeat split; auto; intros; try discriminate; try reflexivity.
Qed.


(** ** Further properties: the cycle *)

Lemma pullup_or_monitor_delivered env functions callback timeout gadgetName
  ffs g :
  let r := pullup_or_monitor env functions callback timeout gadgetName ffs g
  in
  fst r = SUCCESS ->
  exists s,
    delivered (snd r)
    = (delivered g ++ (if callback then [(functions, s)] else []))%list
    /\ (s = SUCCESS
        \/ (s = ERROR /\ ffs = true
            /\ waitForPullUp_result env timeout = false)).
Proof.
  cbv zeta. unfold pullup_or_monitor. run_prims.
  destruct ffs, callback; cbn [negb];
    try destruct (pullup_write_ok env);
    try destruct (waitForPullUp_result env timeout) eqn:Hw;
    try destruct (monitorRunning g);
    cbn; rewrite ?app_nil_r; try discriminate; intros _;
    first [ exists SUCCESS; split; [reflexivity | left; reflexivity]
          | exists ERROR; split; [reflexivity | right; auto] ].
Qed.

(** X11.  Every call of [setCurrentUsbFunctions] with a callback calls it
    exactly once, with the requested bitmask, and a call without a callback
    delivers nothing.  The status handed over is the cycle's own when the
    cycle fails; when the cycle succeeds it is [SUCCESS], or [ERROR] when
    the wait for the pull-up timed out. *)
Theorem one_callback_per_cycle env functions callback timeout st :
  let r := setCurrentUsbFunctions env functions callback timeout st in
  exists s,
    delivered (snd r)
    = (delivered st ++ (if callback then [(functions, s)] else []))%list
    /\ (fst r <> SUCCESS -> s = fst r)
    /\ (fst r = SUCCESS ->
        s = SUCCESS
        \/ (s = ERROR /\ waitForPullUp_result env timeout = false)).
Proof.
  cbv zeta.
  set (r := setCurrentUsbFunctions env functions callback timeout st).
  destruct (Status_eqb (fst r) SUCCESS) eqn:Hs.
  - apply Status_eqb_eq in Hs.
    destruct (functions =? GadgetFunction.NONE) eqn:Hf.
    + apply Z.eqb_eq in Hf. subst functions.
      destruct (reset_cases env) as [H|H].
      * destruct (cycle_none_run env callback timeout st H)
          as (_ & _ & _ & _ & _ & Hd & _).
        fold r in Hd. exists SUCCESS.
        split; [exact Hd|]. split; [intro; contradiction | auto].
      * exfalso. unfold r in Hs.
        rewrite setCurrentUsbFunctions_teardown_failed in Hs by exact H.
        rewrite error_exit_run in Hs. discriminate.
    + destruct (cycle_reaches_pullup env functions callback timeout st Hs Hf)
        as (ffs & g2 & _ & _ & Hd & Hrun).
      fold r in Hrun.
      destruct (pullup_or_monitor_delivered env functions callback timeout
                  (GetProperty env USB_CONTROLLER_PROP "") ffs g2)
        as (s & Hdel & Hcase).
      { rewrite <- Hrun. exact Hs. }
      rewrite <- Hrun, Hd in Hdel. exists s.
      split; [exact Hdel|]. split; [intro; contradiction|].
      intros _. destruct Hcase as [->|(-> & _ & Hw)]; auto.
  - assert (Hne : fst r <> SUCCESS).
    { intro H. rewrite H in Hs. discriminate. }
    exists (fst r). split; [|split; [reflexivity | intro; contradiction]].
    destruct (reset_cases env) as [H|H].
    + destruct (cycle_failed_fields env functions callback timeout st H Hne)
        as (Hd & _).
      exact Hd.
    + unfold r.
      rewrite setCurrentUsbFunctions_teardown_failed by exact H.
      rewrite error_exit_run. destruct callback; cbn;
        rewrite ?app_nil_r; reflexivity.
Qed.


(** X12.  [setupFunctions] reads the controller name from
    [vendor.usb.controller] alone.  When that property is empty, every
    request other than [NONE] fails after a successful teardown, with
    nothing linked and the gadget left disabled -- but not before the
    validation of the bitmask has committed its VID/PID: for a bitmask of
    the fifteen combinations the cycle reports [ERROR] and leaves
    "0x18d1" with the product ID of the bitmask behind. *)
Theorem undefined_controller_fails_every_request env functions callback
  timeout st :
  empty (GetProperty env USB_CONTROLLER_PROP "") = true ->
  resetGadget_result env = SUCCESS ->
  functions <> GadgetFunction.NONE ->
  let r := setCurrentUsbFunctions env functions callback timeout st in
  fst r <> SUCCESS
  /\ links (snd r) = []
  /\ pullup (snd r) = "none"
  /\ monitorRunning (snd r) = false
  /\ (generic_combination functions = true ->
      (forall vid pid, setVidPid_result env vid pid = SUCCESS) ->
      fst r = ERROR
      /\ exists pid,
           In (functions, pid) generic_pids
           /\ vidpid (snd r) = Some ("0x18d1", pid)).
Proof.
  intros Hname Hreset Hf. cbv zeta.
  assert (Hsetup : forall g,
    setupFunctions env functions callback timeout g = (ERROR, g)).
  { intro g. unfold setupFunctions. rewrite Hname. reflexivity. }
  assert (Hfail :
    fst (setCurrentUsbFunctions env functions callback timeout st)
    <> SUCCESS).
  { intro Hs. apply Z.eqb_neq in Hf.
    destruct (cycle_success env functions callback timeout st Hs Hf)
      as (_ & _ & H & _).
    rewrite Hsetup in H. discriminate. }
  destruct (cycle_failed_fields env functions callback timeout st Hreset Hfail)
    as (_ & Hp & _ & Hm).
  rewrite (setCurrentUsbFunctions_run env functions callback timeout st Hreset)
    in *.
  cbv zeta in *. apply Z.eqb_neq in Hf. rewrite Hf in *.
  destruct (tearDownGadget_ok env (with_functions functions false st) Hreset)
    as (_ & Hl & _).
  set (g1 := snd (tearDownGadget env (with_functions functions false st)))
    in *.
  pose proof (validateAndSetVidPid_keeps_links env functions g1) as Hvl.
  rewrite Hsetup in *. cbn [fst snd Status_eqb negb] in *.
  assert (Hlinks : forall s g,
    links g = [] ->
    links (snd (error_exit functions callback s g)) = []).
  { intros s g Hg. rewrite error_exit_run. destruct callback; exact Hg. }
  split; [exact Hfail|].
  split.
  { destruct (negb (Status_eqb (fst (validateAndSetVidPid env functions g1))
                      SUCCESS));
      apply Hlinks; congruence. }
  split; [exact Hp|]. split; [exact Hm|].
  intros Hg Hok.
  destruct (validateAndSetVidPid_accepts env functions g1 Hg)
    as (pid & Hin & Hrun).
  assert (Hsv : setVidPid env "0x18d1" pid g1
                = (SUCCESS, with_vidpid (Some ("0x18d1", pid)) g1))
    by (unfold setVidPid; rewrite Hok; reflexivity).
  rewrite Hrun, Hsv.
  cbn [fst snd Status_eqb negb]. rewrite error_exit_run.
  split; [reflexivity|]. exists pid. split; [exact Hin|].
  destruct callback; reflexivity.
Qed.

(** MTP on a device without [vendor.usb.controller]: the cycle reports
    [ERROR], nothing is linked, and the VID/PID of MTP stays committed. *)
Lemma undefined_controller_fails_every_request_witness :
  let r := setCurrentUsbFunctions no_controller_env GadgetFunction.MTP true 0
             idle_gadget in
  fst r = ERROR
  /\ links (snd r) = []
  /\ vidpid (snd r) = Some ("0x18d1", "0x4ee1").
Proof.
  destruct (undefined_controller_fails_every_request no_controller_env
              GadgetFunction.MTP true 0 idle_gadget)
    as (_ & Hl & _ & _ & H).
  - reflexivity.
  - reflexivity.
  - discriminate.
  - destruct H as (Hs & _); [reflexivity | reflexivity |].
    split; [exact Hs|]. split; [exact Hl | reflexivity].
Defined.

(** X13.  A cycle for RNDIS alone that succeeds has linked the RNDIS node
    and nothing else, under the VID/PID of the validation, and has pulled
    the gadget up itself: the pull-up file holds the controller name, the
    applied flag is set, the monitor was not started and the caller was
    told [SUCCESS]. *)
Theorem rndis_alone_pulls_up_at_once env callback timeout st :
  let r := setCurrentUsbFunctions env GadgetFunction.RNDIS callback timeout
             st in
  fst r = SUCCESS ->
  links (snd r) = [mkLinked "rndis" (rndisFuncname env) 0]
  /\ vidpid (snd r) = Some ("0x18d1", "0x4ee3")
  /\ pullup (snd r) = GetProperty env USB_CONTROLLER_PROP ""
  /\ mCurrentUsbFunctionsApplied (snd r) = true
  /\ monitorRunning (snd r) = false
  /\ delivered (snd r)
     = (delivered st
        ++ (if callback then [(GadgetFunction.RNDIS, SUCCESS)] else []))%list.
Proof.
  intros r Hs.
  assert (Hf : (GadgetFunction.RNDIS =? GadgetFunction.NONE) = false)
    by reflexivity.
  destruct (cycle_success env GadgetFunction.RNDIS callback timeout st Hs Hf)
    as (Hreset & Hv & Hsetup & Hfinal).
  fold r in Hfinal. rewrite Hfinal.
  destruct (tearDownGadget_ok env
              (with_functions GadgetFunction.RNDIS false st) Hreset)
    as (_ & Hl & _ & _ & Hm & _ & Ha & Hd & _).
  set (g1 := snd (tearDownGadget env
                    (with_functions GadgetFunction.RNDIS false st))) in *.
  cbn [with_functions mCurrentUsbFunctionsApplied delivered] in Ha, Hd.
  pose proof (validateAndSetVidPid_keeps_links env GadgetFunction.RNDIS g1)
    as Hvl.
  pose proof (validateAndSetVidPid_keeps_finish env GadgetFunction.RNDIS g1)
    as Hvf.
  assert (Hvp : vidpid (snd (validateAndSetVidPid env GadgetFunction.RNDIS g1))
                = Some ("0x18d1", "0x4ee3")).
  { apply (setVidPid_ok env "0x18d1" "0x4ee3" g1). exact Hv. }
  set (g2 := snd (validateAndSetVidPid env GadgetFunction.RNDIS g1)) in *.
  unfold finish_fields in Hvf. injection Hvf as F1 F2 F3 F4 F5 F6.
  rewrite rndis_only_keeps_vidpid.
  revert Hsetup. unfold setupFunctions.
  destruct (empty (GetProperty env USB_CONTROLLER_PROP ""));
    [discriminate|].
  change (Z.land GadgetFunction.RNDIS GadgetFunction.RNDIS =? 0) with false.
  change (Z.land GadgetFunction.RNDIS GadgetFunction.ADB =? 0) with true.
  cbn [negb]. rewrite bind_run.
  assert (Hlk : linkFunction env "rndis" (rndisFuncname env) 0 g2
                = if link_fails env (rndisFuncname env) 0 then (-1, g2)
                  else (0, with_links
                             [mkLinked "rndis" (rndisFuncname env) 0] g2)).
  { unfold linkFunction. rewrite Hvl, Hl. reflexivity. }
  rewrite Hlk.
  destruct (link_fails env (rndisFuncname env) 0);
    cbn [fst snd Z.eqb negb]; [discriminate|].
  rewrite adb_override_skip by reflexivity.
  unfold enable_adb.
  change (Z.land GadgetFunction.RNDIS GadgetFunction.ADB =? 0) with true.
  cbn [negb]. unfold pullup_or_monitor. cbn [negb]. run_prims.
  destruct (pullup_write_ok env); cbn [negb fst snd]; [|discriminate].
  intros _. destruct callback; cbn; rewrite ?app_nil_r;
    repeat split; congruence.
Qed.

Lemma rndis_alone_pulls_up_at_once_witness :
  let r := setCurrentUsbFunctions (sample_env "") GadgetFunction.RNDIS true 0
             idle_gadget in
  links (snd r) = [mkLinked "rndis" "rndis" 0]
  /\ vidpid (snd r) = Some ("0x18d1", "0x4ee3")
  /\ pullup (snd r) = "a600000.dwc3"
  /\ mCurrentUsbFunctionsApplied (snd r) = true
  /\ monitorRunning (snd r) = false
  /\ delivered (snd r) = [(32, SUCCESS)].
Proof.
  apply (rndis_alone_pulls_up_at_once (sample_env "") true 0 idle_gadget).
  reflexivity.
Defined.


(** ** Further properties: the override and the monitor *)

Lemma enable_adb_keeps_errlog env functions callback timeout gadgetName ffs
  i :
  keeps errlog (enable_adb env functions callback timeout gadgetName ffs i).
Proof.
  unfold enable_adb, addAdb, pullup_or_monitor, waitForPullUp.
  keeps_split;
    unfold monitor_pullup, functionsAppliedCallback,
      registerFunctionsAppliedCallback, startMonitor,
      setCurrentUsbFunctionsCb, write_pullup, linkFunction;
    keeps_prim.
Qed.

(** X14.  A vendor override that can be used is used.  For a request with
    ADB and without RNDIS for which the generic helper links nothing, on a
    device on which no link, no VID/PID commit and no step of the ADB
    set-up fails: if every token of the looked-up string (the property,
    with ",adb" tacked on when "adb" does not occur in it) is in the
    function-name table and the string is a key of the composition table,
    then [setupFunctions] succeeds, what is linked is the tokens of that
    string other than "adb", in their order, followed by the ADB node, the
    VID/PID is the row of the string, and nothing is logged. *)
Theorem valid_override_is_linked env functions callback timeout st :
  let vendorProp :=
    GetProperty env VENDOR_USB_PROP
      (GetProperty env PERSIST_VENDOR_USB_PROP "") in
  let funcs := filter (linked_token false) (tokens (tack_on_adb vendorProp)) in
  empty (GetProperty env USB_CONTROLLER_PROP "") = false ->
  Z.land functions GadgetFunction.RNDIS = 0 ->
  Z.land functions GadgetFunction.ADB <> 0 ->
  g_status (generic_result env functions) = SUCCESS ->
  g_linked (generic_result env functions) = [] ->
  (forall node k, link_fails env node k = false) ->
  (forall vid pid, setVidPid_result env vid pid = SUCCESS) ->
  adb_prepare_ok env = true ->
  adb_endpoints_ok env = true ->
  links st = [] ->
  empty vendorProp = false ->
  forallb (map_count supported_funcs) (tokens (tack_on_adb vendorProp))
  = true ->
  map_count supported_compositions (tack_on_adb vendorProp) = true ->
  let r := setupFunctions env functions callback timeout st in
  fst r = SUCCESS
  /\ links (snd r)
     = (linked_from env 0 funcs
        ++ [mkLinked "adb" "ffs.adb" (Z.of_nat (length funcs))])%list
  /\ vidpid (snd r)
     = map_find supported_compositions (tack_on_adb vendorProp)
  /\ errlog (snd r) = errlog st.
Proof.
  intros vendorProp funcs Hname Hrndis Hadb Hgs Hgl Hlink Hvid Hprep Hend
    Hst Hne Htok Hrow.
  cbv zeta. unfold setupFunctions.
  rewrite Hname, Hrndis. cbn [Z.eqb negb].
  rewrite bind_run. unfold addGenericAndroidFunctions.
  rewrite Hgs, Hgl. cbn [fst snd length Z.of_nat Z.add Status_eqb negb
                           link_generic].
  fold vendorProp.
  set (g0 := with_links (links st) st).
  assert (Hg0 : links g0 = []) by exact Hst.
  assert (He0 : errlog g0 = errlog st) by reflexivity.
  clearbody g0.
  unfold adb_override.
  pose proof Hadb as Hadb'. apply Z.eqb_neq in Hadb'.
  rewrite Hadb', Hne. cbn [Z.eqb negb andb]. cbv zeta.
  set (prop := tack_on_adb vendorProp) in *.
  rewrite bind_run.
  destruct (addFunctionsFromPropString_links_prefix_aux env prop 0 false g0)
    as (done & rest & H1 & H2 & _ & H4).
  assert (H0 : fst (fst (addFunctionsFromPropString env prop 0 false g0)) = 0).
  { rewrite addFunctionsFromPropString_tokens.
    apply (addFunctions_tokens_supported env (tokens prop) 0 g0 Htok).
    exact Hlink. }
  destruct (H4 H0) as (-> & Hi & Hlog & _).
  rewrite app_nil_r in H2. fold funcs in H2. subst done.
  destruct (addFunctionsFromPropString env prop 0 false g0)
    as [[c i'] g1] eqn:Hrun.
  cbn [fst snd] in *. subst c. cbn [Z.eqb].
  rewrite bind_run.
  pose proof (lookupAndSetVidPid_keeps_links env prop g1) as Hk.
  destruct (lookupAndSetVidPid_supported env prop g1 Hrow) as [Hlog2 Hzero].
  specialize (Hzero Hvid).
  destruct (lookupAndSetVidPid_result env prop g1)
    as [(_ & _ & Hv & _)|(Hc & _)]; [|rewrite Hc in Hzero; discriminate].
  rewrite Hzero. cbn [Z.eqb].
  set (g2 := snd (lookupAndSetVidPid env prop g1)) in *.
  set (ffs := false || g_ffs (generic_result env functions)).
  pose proof (enable_adb_succeeds env functions callback timeout
                (GetProperty env USB_CONTROLLER_PROP "") Hadb Hlink Hprep
                Hend ffs i' g2) as Hs.
  split; [exact Hs|].
  rewrite enable_adb_keeps_vidpid.
  destruct (enable_adb_links env functions callback timeout
              (GetProperty env USB_CONTROLLER_PROP "") ffs i' g2 Hadb)
    as [[_ Hbad]|Hl]; [contradiction|].
  split; [rewrite Hl, Hk, H1, Hg0, Hi; reflexivity|].
  split; [exact Hv|].
  transitivity (errlog g2); [|congruence].
  apply (enable_adb_keeps_errlog env functions callback timeout).
Qed.

(** ADB alone with the override "diag,qdss": "diag" and "qdss" are linked,
    then ADB, under the VID/PID of "diag,qdss,adb". *)
Lemma valid_override_is_linked_witness :
  let r := setupFunctions (sample_env "diag,qdss") GadgetFunction.ADB true 0
             idle_gadget in
  fst r = SUCCESS
  /\ links (snd r)
     = [ mkLinked "diag" "diag.diag" 0; mkLinked "qdss" "qdss.qdss" 1;
         mkLinked "adb" "ffs.adb" 2 ]
  /\ vidpid (snd r) = Some ("0x05C6", "0x9060")
  /\ errlog (snd r) = [].
Proof.
  apply (valid_override_is_linked (sample_env "diag,qdss") GadgetFunction.ADB
           true 0 idle_gadget); try reflexivity.
  vm_compute. discriminate.
Defined.


Section MonitorBranch.

Variable env : Env.
Variables (functions : Z) (callback : bool) (timeout : Z).
Variable gadgetName : string.
Hypothesis Hadb : Z.land functions GadgetFunction.ADB <> 0.

Local Abbreviation ends_in_monitor :=
  (ends_in_monitor env functions callback timeout gadgetName).

Lemma ends_in_monitor_error : ends_in_monitor (ret ERROR).
Proof. intros g H. discriminate. Qed.

Lemma ends_in_monitor_bind {A : Type} (m : M A) (k : A -> M Status) :
  keeps finish_fields m -> (forall a, ends_in_monitor (k a)) ->
  ends_in_monitor (bind m k).
Proof.
  intros Hm Hk g. rewrite bind_run. intro H.
  destruct (Hk _ _ H) as (g2 & H1 & H2).
  exists g2. split; [rewrite H1; apply Hm | exact H2].
Qed.

Ltac monitor_split :=
  repeat match goal with
         | |- ends_in_monitor (ret ERROR) => apply ends_in_monitor_error
         | |- ends_in_monitor (bind _ _) =>
             apply ends_in_monitor_bind; [ | intros ]
         | |- ends_in_monitor (if ?c then _ else _) => destruct c
         | |- ends_in_monitor (match ?x with _ => _ end) => destruct x
         end.

Lemma enable_adb_ends_in_monitor ffs i :
  ends_in_monitor
    (enable_adb env functions callback timeout gadgetName ffs i).
Proof.
  unfold enable_adb. pose proof Hadb as H. apply Z.eqb_neq in H.
  rewrite H. cbn [negb]. monitor_split.
  - apply addAdb_keeps_finish.
  - intros g _. exists g. split; reflexivity.
Qed.

Lemma adb_default_ends_in_monitor mtype ffs i :
  ends_in_monitor
    (adb_default env functions callback timeout gadgetName mtype ffs i).
Proof.
  unfold adb_default. monitor_split;
    auto using addFunctionsFromPropString_keeps_finish,
      lookupAndSetVidPid_keeps_finish, enable_adb_ends_in_monitor.
Qed.

Lemma adb_override_ends_in_monitor mtype vendorProp ffs i :
  ends_in_monitor
    (adb_override env functions callback timeout gadgetName mtype vendorProp
       ffs i).
Proof.
  unfold adb_override. monitor_split;
    auto using addFunctionsFromPropString_keeps_finish,
      lookupAndSetVidPid_keeps_finish, enable_adb_ends_in_monitor,
      adb_default_ends_in_monitor, unlinkFunctions_keeps_finish.
Qed.

End MonitorBranch.

Lemma setupFunctions_ends_in_monitor env functions callback timeout :
  Z.land functions GadgetFunction.ADB <> 0 ->
  ends_in_monitor env functions callback timeout
    (GetProperty env USB_CONTROLLER_PROP "")
    (setupFunctions env functions callback timeout).
Proof.
  intro Hadb. unfold setupFunctions. cbv zeta.
  repeat match goal with
         | |- ends_in_monitor _ _ _ _ _ (ret ERROR) =>
             apply ends_in_monitor_error
         | |- ends_in_monitor _ _ _ _ _ (bind _ _) =>
             apply ends_in_monitor_bind; [ | intros ]
         | |- ends_in_monitor _ _ _ _ _ (if ?c then _ else _) => destruct c
         | |- ends_in_monitor _ _ _ _ _ (match ?x with _ => _ end) =>
             destruct x
         end;
    auto using addFunctionsFromPropString_keeps_finish,
      lookupAndSetVidPid_keeps_finish, adb_override_ends_in_monitor,
      linkFunction_keeps_finish, addGeneric_keeps_finish.
Qed.

(** X15.  When ADB is requested the HAL never pulls the gadget up itself.
    A cycle that succeeds has started the monitor with the callback
    registered; without a caller's callback, or when the wait timed out,
    the pull-up file is still "none" and the applied flag false when the
    cycle returns; with a callback and a pull-up in time, it was the
    monitor that wrote the file and set the flag. *)
Theorem adb_leaves_pullup_to_monitor env functions callback timeout st :
  Z.land functions GadgetFunction.ADB <> 0 ->
  let r := setCurrentUsbFunctions env functions callback timeout st in
  fst r = SUCCESS ->
  monitorRunning (snd r) = true
  /\ monitorCallback (snd r) = true
  /\ (callback = false \/ waitForPullUp_result env timeout = false ->
      pullup (snd r) = "none"
      /\ mCurrentUsbFunctionsApplied (snd r) = false)
  /\ (callback = true -> waitForPullUp_result env timeout = true ->
      pullup (snd r) = monitor_gadget env
      /\ mCurrentUsbFunctionsApplied (snd r) = true).
Proof.
  intros Hadb r Hs.
  assert (Hf : (functions =? GadgetFunction.NONE) = false).
  { apply Z.eqb_neq. intros ->. apply Hadb. reflexivity. }
  destruct (cycle_success env functions callback timeout st Hs Hf)
    as (Hreset & _ & Hsetup & Hfinal).
  fold r in Hfinal. rewrite Hfinal.
  destruct (setupFunctions_ends_in_monitor env functions callback timeout
              Hadb _ Hsetup) as (g2 & Hfields & Hrun).
  rewrite Hrun.
  rewrite validateAndSetVidPid_keeps_finish in Hfields.
  destruct (tearDownGadget_ok env (with_functions functions false st) Hreset)
    as (_ & _ & _ & Hp & Hm & _ & Ha & _).
  unfold finish_fields in Hfields. injection Hfields as F1 F2 F3 F4 F5 F6.
  cbn [with_functions mCurrentUsbFunctionsApplied] in Ha.
  rewrite Hp in F5. rewrite Hm in F3. rewrite Ha in F2.
  unfold pullup_or_monitor. cbn [negb]. run_prims.
  destruct callback; [destruct (waitForPullUp_result env timeout)|];
    cbn; rewrite ?F2, ?F5;
    repeat split; intros; try reflexivity; try assumption;
    try discriminate;
    repeat match goal with
           | H : _ \/ _ |- _ => destruct H
           end; try discriminate; try reflexivity; try assumption.
Qed.

(** ADB alone on a device on which the pull-up never comes in time. *)
Lemma adb_leaves_pullup_to_monitor_witness :
  let r := setCurrentUsbFunctions pullup_timeout_env GadgetFunction.ADB true
             1000 idle_gadget in
  monitorRunning (snd r) = true
  /\ monitorCallback (snd r) = true
  /\ pullup (snd r) = "none"
  /\ mCurrentUsbFunctionsApplied (snd r) = false.
Proof.
  destruct (adb_leaves_pullup_to_monitor pullup_timeout_env
              GadgetFunction.ADB true 1000 idle_gadget)
    as (H1 & H2 & H3 & _).
  - vm_compute. discriminate.
  - reflexivity.
  - destruct H3 as [H3 H4]; [right; reflexivity|]. auto.
Defined.
